(** * Windcave settlement reconciliation for NetSuite: a shallow embedding

    The development follows the SuiteScript sources:

    - [windcave_constants]            (module [Constants]),
    - [windcave_reconciliation_lib]   (modules [Reconciliation], [FileCabinet],
                                       [InstallDoc]),
    - [windcave_api_module]           (module [WindcaveApi]),
    - [windcave_settlement_scheduled] (module [Scheduled]),
    - [windcave_settlement_suitelet]  (module [Suitelet]).

    The repository carries two copies of the reconciliation library.  The one
    under [src/FileCabinet/SuiteScripts/Windcave] looks a ledger entry up by
    internal id only; the one reproduced after [INSTALL.md] looks it up by
    document number, falls back to the authorisation code, and adds the search
    keys to its diagnostics.  Functions that differ are embedded once per copy
    ([FileCabinet.f], [InstallDoc.f]); functions that agree are embedded once,
    in [Reconciliation].

    Conventions.

    - JavaScript numbers are IEEE-754 binary64 values, which is what Rocq's
      primitive [float] is: amounts are [float]s, and [Math.abs], [-], [>]
      and [<=] are the primitive operations.  An amount field holds the
      number [parseFloat] made of it, [nan] included.
    - Strings are Rocq [string]s; an optional property is an [option].
    - The NetSuite account (custom records, ledger, deposits, emails sent)
      is an explicit state [World] threaded through every operation.  The
      record and search operations of the platform are total functions of
      that state; a search operator [is] is equality of strings.
    - A call that may throw returns a [Js.completion]: the HTTP requests of
      the API module, the two API calls of the scheduled script,
      [loadAllConfigurations] and [email.send]; in the functions behind the
      dashboard also [record.load] and [record.submitFields] of a record
      that does not exist.
    - [search.run().each] hands over every result of the search (the
      platform stops at 4000).
    - What lies outside the account (the network, the governance meter, the
      wall clock) is a function of the number of times it was consulted. *)

From Stdlib Require Import ZArith List String Ascii Bool Floats Lia.
From Stdlib Require Import DecimalString DecimalNat.
Import ListNotations.

Set Warnings "-inexact-float".

Local Open Scope string_scope.
Local Open Scope list_scope.

(* ===================================================================== *)
(** * JavaScript values and string helpers *)
(* ===================================================================== *)

Module Js.

(** The values a NetSuite search column may hand back for a checkbox or
    text field: nothing at all, [null], a genuine boolean, or a string
    such as ['T'] / ['F']. *)
Inductive value : Type :=
  | Undefined
  | Null
  | Bool (b : bool)
  | Str (s : string).

(** [v === s] for a string literal [s]: strict equality never coerces. *)
Definition strictEqStr (v : value) (s : string) : bool :=
  match v with
  | Str t => String.eqb t s
  | _ => false
  end.

(** Truthiness of an optional string property: [undefined], [null] and
    [''] are falsy. *)
Definition truthy (o : option string) : bool :=
  match o with
  | Some s => negb (String.eqb s "")
  | None => false
  end.

(** [o || d] on an optional string property. *)
Definition orElse (o : option string) (d : string) : string :=
  match o with
  | Some s => if String.eqb s "" then d else s
  | None => d
  end.

(** White space removed by [String.prototype.trim], within ASCII. *)
Definition isWhite (c : ascii) : bool :=
  let n := nat_of_ascii c in
  (Nat.eqb n 9 || Nat.eqb n 10 || Nat.eqb n 11 || Nat.eqb n 12
   || Nat.eqb n 13 || Nat.eqb n 32)%bool.

Fixpoint allWhite (s : string) : bool :=
  match s with
  | EmptyString => true
  | String c r => (isWhite c && allWhite r)%bool
  end.

(** [!s || s.trim() === ''] *)
Definition blank (o : option string) : bool :=
  match o with
  | Some s => allWhite s
  | None => true
  end.

Definition isDigit (c : ascii) : bool :=
  let n := nat_of_ascii c in (Nat.leb 48 n && Nat.leb n 57)%bool.

(** [s.replace(/\D/g, '')] *)
Fixpoint stripNonDigits (s : string) : string :=
  match s with
  | EmptyString => EmptyString
  | String c r => if isDigit c then String c (stripNonDigits r) else stripNonDigits r
  end.

Definition lowerChar (c : ascii) : ascii :=
  let n := nat_of_ascii c in
  if (Nat.leb 65 n && Nat.leb n 90)%bool then ascii_of_nat (n + 32) else c.

(** [s.toLowerCase()], within ASCII. *)
Fixpoint toLowerCase (s : string) : string :=
  match s with
  | EmptyString => EmptyString
  | String c r => String (lowerChar c) (toLowerCase r)
  end.

(** [s.indexOf(needle) >= 0] *)
Definition includes (needle s : string) : bool :=
  match String.index 0 needle s with
  | Some _ => true
  | None => false
  end.

(** Decimal rendering of a non-negative integer, as JavaScript prints a
    count. *)
Definition natToString (n : nat) : string :=
  NilZero.string_of_uint (Nat.to_uint n).

(** Decimal rendering of an integer. *)
Definition intToString (z : Z) : string :=
  NilZero.string_of_int (Z.to_int z).

(** The line feed of ['\n']. *)
Definition nl : string := String (ascii_of_nat 10) EmptyString.

(** [lines.join(sep)] *)
Fixpoint join (sep : string) (l : list string) : string :=
  match l with
  | [] => ""
  | [x] => x
  | x :: r => x ++ sep ++ join sep r
  end.

(** Number formatting is the host's: [String(x)] (shortest round-trip
    decimal), [x.toFixed(2)] and NetSuite's [format.format]. *)
Record Host : Type := {
  numberToString : float -> string;
  toFixed2 : float -> string;
  formatDateTime : Z -> string
}.

(** A thrown [Error]: its [name] and its [message]. *)
Record Error : Type := {
  err_name : string;
  err_message : string
}.

(** [new Error(message)] *)
Definition newError (message : string) : Error :=
  {| err_name := "Error"; err_message := message |}.

(** How a call that may throw ends. *)
Inductive completion (A : Type) : Type :=
| Return (a : A)
| Throw (e : Error).

Arguments Return {A} a.
Arguments Throw {A} e.

(** [x + ''] of an optional string property. *)
Definition showOpt (o : option string) : string :=
  match o with
  | Some s => s
  | None => "undefined"
  end.

(** [s.padStart(2, '0')] *)
Definition padStart2 (s : string) : string :=
  match String.length s with
  | 0 => "00"
  | 1 => String "0" s
  | _ => s
  end.

(** The characters [encodeURIComponent] leaves as they are: letters,
    digits and [- _ . ! ~ * ' ( )]. *)
Definition isUnreserved (c : ascii) : bool :=
  let n := nat_of_ascii c in
  ((Nat.leb 65 n && Nat.leb n 90) || (Nat.leb 97 n && Nat.leb n 122) || isDigit c
   || existsb (Nat.eqb n) [45; 95; 46; 33; 126; 42; 39; 40; 41])%bool.

Definition hexDigit (n : nat) : ascii :=
  if Nat.ltb n 10 then ascii_of_nat (48 + n) else ascii_of_nat (55 + n).

(** One escaped octet: [%] and two upper-case hexadecimal digits. *)
Definition percentByte (b : nat) : string :=
  String "%" (String (hexDigit (b / 16)) (String (hexDigit (b mod 16)) EmptyString)).

(** [encodeURIComponent(s)] for code units below 256: an unreserved
    character stays, any other is replaced by the escaped octets of its
    UTF-8 encoding (one octet below 128, two from 128 on). *)
Fixpoint encodeURIComponent (s : string) : string :=
  match s with
  | EmptyString => EmptyString
  | String c r =>
      let n := nat_of_ascii c in
      ((if isUnreserved c then String c EmptyString
        else if Nat.ltb n 128 then percentByte n
        else percentByte (192 + n / 64) ++ percentByte (128 + n mod 64))
       ++ encodeURIComponent r)%string
  end.

End Js.

(* ===================================================================== *)
(** * windcave_constants *)
(* ===================================================================== *)

Module Constants.

Module SETTLEMENT_STATUS.
Definition PENDING := "Pending".
Definition DONE := "Done".
Definition VOID := "Void".
End SETTLEMENT_STATUS.

Module CRDR.
Definition CREDIT := "CR".
Definition DEBIT := "DR".
End CRDR.

Module TRANSACTION_TYPES.
Definition PURCHASE := "Purchase".
Definition REFUND := "Refund".
Definition AUTH := "Auth".
Definition COMPLETE := "Complete".
Definition VOID := "Void".
End TRANSACTION_TYPES.

Module ERRORS.
Definition CONFIG_NOT_FOUND := "Windcave configuration record not found".
Definition API_AUTH_FAILED := "Windcave API authentication failed".
Definition API_REQUEST_FAILED := "Windcave API request failed".
Definition NO_MATCHING_PAYMENT := "No matching NetSuite payment found".
Definition PAYMENT_ALREADY_DEPOSITED := "Payment has already been deposited".
Definition AMOUNT_MISMATCH := "Transaction amount does not match payment amount".
End ERRORS.

Module EMAIL.
Definition SUBJECT_SUCCESS := "Windcave Settlement Processing Complete".
Definition SUBJECT_ERROR := "Windcave Settlement Processing - Errors Detected".
End EMAIL.

Module MISC.
Definition DEFAULT_LOOKBACK_DAYS : nat := 1.
  (** [AMOUNT_TOLERANCE: 0.01], the binary64 value nearest to one hundredth. *)
Definition AMOUNT_TOLERANCE : float := 0.01%float.
Definition MAX_API_RETRIES : nat := 3.
Definition RETRY_DELAY_MS : nat := 1000.
End MISC.

Module API.
Definition BASE_URL_PROD := "https://sec.windcave.com/api/v1".
Definition BASE_URL_UAT := "https://uat.windcave.com/api/v1".
Module ENDPOINTS.
Definition SETTLEMENTS := "/settlements".
End ENDPOINTS.
Module ENVIRONMENTS.
Definition PRODUCTION := "sec".
Definition UAT := "uat".
End ENVIRONMENTS.
End API.

End Constants.


(* ===================================================================== *)
(** * Data model *)
(* ===================================================================== *)

Module Model.

(** One transaction line of a settlement, as the Windcave API returns it.
    [txn_amount] is the number [parseFloat(txn.amount)]; it is [nan] when
    the property is missing or is not numeric. *)
Record WindcaveTxn : Type := {
  txn_id : option string;
  txn_merchantReference : option string;
  txn_amount : float;
  txn_currency : string;
  txn_type : string;
  txn_method : option string;
  txn_authCode : option string
}.

(** One element of [settlementsResponse.settlements]. *)
Record Settlement : Type := {
  stl_id : string;
  stl_status : string;
  stl_amount : float;
  stl_currency : string;
  stl_CRDR : string
}.

(** The response of [getSettlementDetails]. *)
Record SettlementDetails : Type := {
  sd_id : string;
  sd_settlementDate : string;
  sd_amount : float;
  sd_currency : string;
  sd_status : string;
  sd_CRDR : string;
  sd_referenceNumber : option string;
  sd_merchantId : string;
  sd_customerId : option string;
  sd_transactions : option (list WindcaveTxn)
}.

(** The object the entry locator builds from a search row. *)
Record NsTransaction : Type := {
  ns_internalId : string;
  ns_type : string;
  ns_tranId : string;
  ns_amount : float;
  ns_currency : string;
  ns_status : string;
  ns_undepositedFunds : Js.value;
  ns_matchMethod : option string
}.

Inductive LedgerKind : Type := CustPymt | CashSale | OtherKind.

Definition LedgerKind_eqb (a b : LedgerKind) : bool :=
  match a, b with
  | CustPymt, CustPymt | CashSale, CashSale | OtherKind, OtherKind => true
  | _, _ => false
  end.

(** A transaction of the ledger, as a saved search sees it.  [lr_amount] is
    [parseFloat(result.getValue('amount'))], [lr_account] and [lr_currency]
    are the display texts. *)
Record LedgerRow : Type := {
  lr_kind : LedgerKind;
  lr_mainline : bool;
  lr_internalid : string;
  lr_type : string;
  lr_tranid : string;
  lr_amount : float;
  lr_currency : string;
  lr_status : string;
  lr_account : option string;
  lr_undepfunds : Js.value;
  lr_authcode : option string;
  lr_pnrefnum : option string
}.

(** The custom record [customrecord_windcave_config]. *)
Record ConfigRec : Type := {
  cr_isActive : bool;
  cr_apiUsername : string;
  cr_apiPassword : string;
  cr_merchantId : string;
  cr_customerId : option string;
  cr_environment : string;
  cr_bankAccount : string;
  cr_lookbackDays : option nat;
  cr_notificationEmail : option string
}.

(** The configuration object built by [loadAllConfigurations]. *)
Record Config : Type := {
  cfg_internalId : nat;
  cfg_name : string;
  cfg_apiUsername : string;
  cfg_apiPassword : string;
  cfg_merchantId : string;
  cfg_customerId : option string;
  cfg_environment : string;
  cfg_bankAccount : string;
  cfg_lookbackDays : nat;
  cfg_notificationEmail : option string
}.

(** The custom record [customrecord_windcave_settlement]. *)
Record SettlementRec : Type := {
  sr_name : string;
  sr_settlementId : string;
  sr_settlementDate : string;
  sr_amount : float;
  sr_currency : string;
  sr_status : string;
  sr_crdr : string;
  sr_referenceNumber : string;
  sr_merchantId : string;
  sr_customerId : string;
  sr_matchedCount : option nat;
  sr_unmatchedCount : option nat;
  sr_matchedAmount : option float;
  sr_processed : bool;
  sr_bankDeposit : option nat;
  sr_errorMessage : option string
}.

(** The custom record [customrecord_windcave_txn_detail]. *)
Record TxnDetailRec : Type := {
  td_name : string;
  td_parentSettlement : nat;
  td_transactionId : option string;
  td_merchantReference : string;
  td_amount : float;
  td_currency : string;
  td_type : string;
  td_method : string;
  td_authCode : string;
  td_nsTransaction : option string;
  td_matched : bool;
  td_matchError : option string;
  td_inDeposit : bool;
  td_bankDeposit : option nat
}.

(** A saved bank deposit: header fields and the payment lines ticked. *)
Record DepositRec : Type := {
  dep_account : string;
  dep_trandate : string;
  dep_memo : string;
  dep_payments : list string
}.

Record Email : Type := {
  em_recipient : string;
  em_subject : string;
  em_body : string
}.

(** Entries of the call log kept beside the account: which library
    functions the reconciliation engine entered, in order, and for which
    settlement line (the arguments of the two lookups are properties of
    that line). *)
Inductive Call : Type :=
| CallFindNetSuiteTransaction (txn : WindcaveTxn)
| CallFindNetSuiteTransactionByAuthCode (txn : WindcaveTxn)
| CallValidatePaymentForDeposit (entry : option NsTransaction) (txn : WindcaveTxn).

(** The settlement line a call was made for. *)
Definition subject (c : Call) : WindcaveTxn :=
  match c with
  | CallFindNetSuiteTransaction txn => txn
  | CallFindNetSuiteTransactionByAuthCode txn => txn
  | CallValidatePaymentForDeposit _ txn => txn
  end.

(** The NetSuite account and what surrounds a run.

    - [w_configs], [w_settlements], [w_txnDetails], [w_deposits]: record
      tables, a row per record with its internal id, in creation order;
    - [w_ledger]: the ledger's transactions (never written by this system);
    - [w_authSearchAvailable]: whether a search that filters on [authcode] /
      [pnrefnum] runs ([false]: [search.create] throws, the fields do not
      exist in the account);
    - [w_undeposited]: the ids on the [payment] sublist of a freshly created
      dynamic deposit record, i.e. the payments currently in undeposited funds;
    - [w_nextId]: the internal id the next saved record receives;
    - [w_calls]: the call log; [w_outbox]: the emails sent;
    - [w_clock]: how many times the surroundings were consulted. *)
Record World : Type := {
  w_configs : list (nat * ConfigRec);
  w_ledger : list LedgerRow;
  w_authSearchAvailable : bool;
  w_undeposited : list string;
  w_settlements : list (nat * SettlementRec);
  w_txnDetails : list (nat * TxnDetailRec);
  w_deposits : list (nat * DepositRec);
  w_nextId : nat;
  w_calls : list Call;
  w_outbox : list Email;
  w_clock : nat
}.

Definition set_undeposited (x : list string) (w : World) : World :=
  {| w_configs := w_configs w; w_ledger := w_ledger w;
     w_authSearchAvailable := w_authSearchAvailable w;
     w_undeposited := x; w_settlements := w_settlements w;
     w_txnDetails := w_txnDetails w; w_deposits := w_deposits w;
     w_nextId := w_nextId w; w_calls := w_calls w; w_outbox := w_outbox w;
     w_clock := w_clock w |}.

Definition set_settlements (x : list (nat * SettlementRec)) (w : World) : World :=
  {| w_configs := w_configs w; w_ledger := w_ledger w;
     w_authSearchAvailable := w_authSearchAvailable w;
     w_undeposited := w_undeposited w; w_settlements := x;
     w_txnDetails := w_txnDetails w; w_deposits := w_deposits w;
     w_nextId := w_nextId w; w_calls := w_calls w; w_outbox := w_outbox w;
     w_clock := w_clock w |}.

Definition set_txnDetails (x : list (nat * TxnDetailRec)) (w : World) : World :=
  {| w_configs := w_configs w; w_ledger := w_ledger w;
     w_authSearchAvailable := w_authSearchAvailable w;
     w_undeposited := w_undeposited w; w_settlements := w_settlements w;
     w_txnDetails := x; w_deposits := w_deposits w;
     w_nextId := w_nextId w; w_calls := w_calls w; w_outbox := w_outbox w;
     w_clock := w_clock w |}.

Definition set_deposits (x : list (nat * DepositRec)) (w : World) : World :=
  {| w_configs := w_configs w; w_ledger := w_ledger w;
     w_authSearchAvailable := w_authSearchAvailable w;
     w_undeposited := w_undeposited w; w_settlements := w_settlements w;
     w_txnDetails := w_txnDetails w; w_deposits := x;
     w_nextId := w_nextId w; w_calls := w_calls w; w_outbox := w_outbox w;
     w_clock := w_clock w |}.

Definition set_nextId (x : nat) (w : World) : World :=
  {| w_configs := w_configs w; w_ledger := w_ledger w;
     w_authSearchAvailable := w_authSearchAvailable w;
     w_undeposited := w_undeposited w; w_settlements := w_settlements w;
     w_txnDetails := w_txnDetails w; w_deposits := w_deposits w;
     w_nextId := x; w_calls := w_calls w; w_outbox := w_outbox w;
     w_clock := w_clock w |}.

Definition set_calls (x : list Call) (w : World) : World :=
  {| w_configs := w_configs w; w_ledger := w_ledger w;
     w_authSearchAvailable := w_authSearchAvailable w;
     w_undeposited := w_undeposited w; w_settlements := w_settlements w;
     w_txnDetails := w_txnDetails w; w_deposits := w_deposits w;
     w_nextId := w_nextId w; w_calls := x; w_outbox := w_outbox w;
     w_clock := w_clock w |}.

Definition set_outbox (x : list Email) (w : World) : World :=
  {| w_configs := w_configs w; w_ledger := w_ledger w;
     w_authSearchAvailable := w_authSearchAvailable w;
     w_undeposited := w_undeposited w; w_settlements := w_settlements w;
     w_txnDetails := w_txnDetails w; w_deposits := w_deposits w;
     w_nextId := w_nextId w; w_calls := w_calls w; w_outbox := x;
     w_clock := w_clock w |}.

Definition set_clock (x : nat) (w : World) : World :=
  {| w_configs := w_configs w; w_ledger := w_ledger w;
     w_authSearchAvailable := w_authSearchAvailable w;
     w_undeposited := w_undeposited w; w_settlements := w_settlements w;
     w_txnDetails := w_txnDetails w; w_deposits := w_deposits w;
     w_nextId := w_nextId w; w_calls := w_calls w; w_outbox := w_outbox w;
     w_clock := x |}.

(** [record.submitFields] on one row of a table: the row with the given
    internal id is rewritten, every other row is left as it is. *)
Definition updateRow {A : Type} (id : nat) (f : A -> A) (t : list (nat * A)) : list (nat * A) :=
  map (fun r => if Nat.eqb (fst r) id then (fst r, f (snd r)) else r) t.

(** [record.load]: the first row with the given internal id. *)
Definition loadRow {A : Type} (id : nat) (t : list (nat * A)) : option A :=
  option_map snd (find (fun r => Nat.eqb (fst r) id) t).

(** Logging a library call. *)
Definition logCall (c : Call) (w : World) : World :=
  set_calls (w_calls w ++ [c]) w.

End Model.


(* ===================================================================== *)
(** * windcave_reconciliation_lib: what the two copies share *)
(* ===================================================================== *)

Module Reconciliation.

Import Model.
Import Constants.

(** [Config #<id> (<merchantId>)] *)
Definition configName (id : nat) (merchantId : string) : string :=
  "Config #" ++ Js.natToString id ++ " (" ++ merchantId ++ ")".

Definition toConfig (row : nat * ConfigRec) : Config :=
  let '(id, r) := row in
  {| cfg_internalId := id;
     cfg_name := configName id (cr_merchantId r);
     cfg_apiUsername := cr_apiUsername r;
     cfg_apiPassword := cr_apiPassword r;
     cfg_merchantId := cr_merchantId r;
     cfg_customerId := cr_customerId r;
     cfg_environment := cr_environment r;
     cfg_bankAccount := cr_bankAccount r;
     cfg_lookbackDays :=
       match cr_lookbackDays r with
       | Some (S n) => S n
       | _ => MISC.DEFAULT_LOOKBACK_DAYS
       end;
     cfg_notificationEmail := cr_notificationEmail r |}.

(** [loadAllConfigurations]: every active configuration record; throws when
    there is none. *)
Definition loadAllConfigurations (w : World) : Js.completion (list Config) :=
  let configurations := map toConfig (filter (fun r => cr_isActive (snd r)) (w_configs w)) in
  match configurations with
  | [] => Js.Throw (Js.newError ERRORS.CONFIG_NOT_FOUND)
  | _ => Js.Return configurations
  end.

(** [loadConfiguration]: the first active configuration.  [None] stands for
    the [undefined] that [configs[0]] cannot be here. *)
Definition loadConfiguration (w : World) : Js.completion (option Config) :=
  match loadAllConfigurations w with
  | Js.Return configs => Js.Return (hd_error configs)
  | Js.Throw e => Js.Throw e
  end.

(** [isSettlementProcessed]: a search of the settlement records for the
    Windcave settlement id, limited to one result. *)
Definition isSettlementProcessed (w : World) (settlementId : string) : bool :=
  let results :=
    firstn 1 (filter (fun r => String.eqb (sr_settlementId (snd r)) settlementId)
                     (w_settlements w)) in
  Nat.ltb 0 (List.length results).

(** [createSettlementRecord]: one new settlement record; the internal id it
    is saved under is returned. *)
Definition createSettlementRecord (w : World) (settlementData : SettlementDetails)
  : nat * World :=
  let settlementRecord :=
    {| sr_name := sd_id settlementData ++ " - " ++ sd_settlementDate settlementData;
       sr_settlementId := sd_id settlementData;
       sr_settlementDate := sd_settlementDate settlementData;
       sr_amount := sd_amount settlementData;
       sr_currency := sd_currency settlementData;
       sr_status := sd_status settlementData;
       sr_crdr := sd_CRDR settlementData;
       sr_referenceNumber := Js.orElse (sd_referenceNumber settlementData) "";
       sr_merchantId := sd_merchantId settlementData;
       sr_customerId := Js.orElse (sd_customerId settlementData) "";
       sr_matchedCount := None;
       sr_unmatchedCount := None;
       sr_matchedAmount := None;
       sr_processed := false;
       sr_bankDeposit := None;
       sr_errorMessage := None |} in
  let internalId := w_nextId w in
  (internalId,
   set_nextId (S internalId)
     (set_settlements (w_settlements w ++ [(internalId, settlementRecord)]) w)).

(** [createTransactionDetailRecord]: one new transaction detail record under
    the given settlement record (its user name and time stamp fields are
    not kept here). *)
Definition createTransactionDetailRecord (w : World) (transactionData : WindcaveTxn)
    (settlementInternalId : nat) : nat * World :=
  let txnRecord :=
    {| td_name := Js.showOpt (txn_id transactionData) ++ " - "
                  ++ Js.orElse (txn_merchantReference transactionData) "No Ref";
       td_parentSettlement := settlementInternalId;
       td_transactionId := txn_id transactionData;
       td_merchantReference := Js.orElse (txn_merchantReference transactionData) "";
       td_amount := txn_amount transactionData;
       td_currency := txn_currency transactionData;
       td_type := txn_type transactionData;
       td_method := Js.orElse (txn_method transactionData) "";
       td_authCode := Js.orElse (txn_authCode transactionData) "";
       td_nsTransaction := None;
       td_matched := false;
       td_matchError := None;
       td_inDeposit := false;
       td_bankDeposit := None |} in
  let internalId := w_nextId w in
  (internalId,
   set_nextId (S internalId)
     (set_txnDetails (w_txnDetails w ++ [(internalId, txnRecord)]) w)).

(** The three [submitFields] value sets written to a transaction detail. *)
Definition td_withMatch (nsTransaction : option string) (r : TxnDetailRec) : TxnDetailRec :=
  {| td_name := td_name r; td_parentSettlement := td_parentSettlement r;
     td_transactionId := td_transactionId r;
     td_merchantReference := td_merchantReference r; td_amount := td_amount r;
     td_currency := td_currency r; td_type := td_type r; td_method := td_method r;
     td_authCode := td_authCode r;
     td_nsTransaction := nsTransaction; td_matched := true;
     td_matchError := td_matchError r; td_inDeposit := td_inDeposit r;
     td_bankDeposit := td_bankDeposit r |}.

Definition td_withMatchError (e : option string) (r : TxnDetailRec) : TxnDetailRec :=
  {| td_name := td_name r; td_parentSettlement := td_parentSettlement r;
     td_transactionId := td_transactionId r;
     td_merchantReference := td_merchantReference r; td_amount := td_amount r;
     td_currency := td_currency r; td_type := td_type r; td_method := td_method r;
     td_authCode := td_authCode r;
     td_nsTransaction := td_nsTransaction r; td_matched := td_matched r;
     td_matchError := e; td_inDeposit := td_inDeposit r;
     td_bankDeposit := td_bankDeposit r |}.

Definition td_withDeposit (depositId : nat) (r : TxnDetailRec) : TxnDetailRec :=
  {| td_name := td_name r; td_parentSettlement := td_parentSettlement r;
     td_transactionId := td_transactionId r;
     td_merchantReference := td_merchantReference r; td_amount := td_amount r;
     td_currency := td_currency r; td_type := td_type r; td_method := td_method r;
     td_authCode := td_authCode r;
     td_nsTransaction := td_nsTransaction r; td_matched := td_matched r;
     td_matchError := td_matchError r; td_inDeposit := true;
     td_bankDeposit := Some depositId |}.

Definition submitTxnDetail (id : nat) (f : TxnDetailRec -> TxnDetailRec) (w : World) : World :=
  set_txnDetails (updateRow id f (w_txnDetails w)) w.

(** What [validatePaymentForDeposit] returns. *)
Record Validation : Type := {
  isValid : bool;
  error : option string
}.

(** Elements of the [matched] and [unmatched] arrays. *)
Record MatchResult : Type := {
  mr_txnDetailId : nat;
  mr_windcaveTxn : WindcaveTxn;
  mr_nsTransaction : option NsTransaction
}.

Record UnmatchResult : Type := {
  um_txnDetailId : nat;
  um_windcaveTxn : WindcaveTxn;
  um_error : option string
}.

Record MatchResults : Type := {
  matched : list MatchResult;
  unmatched : list UnmatchResult
}.

Definition REFUND_REASON : string := "Refund transactions require manual handling".

(** The body of the [for (const txn of transactions)] loop of
    [matchTransactions].  The two copies differ in the statements between
    "Find matching NetSuite transaction" and the validation, [locate], and
    in the validator, [validate].  [nsTransaction.internalId] is read only
    after a successful validation, which a [null] entry never passes. *)
Definition matchStep
    (locate : World -> WindcaveTxn -> option NsTransaction * World)
    (validate : option NsTransaction -> WindcaveTxn -> Validation)
    (settlementInternalId : nat)
    (acc : World * MatchResults) (txn : WindcaveTxn) : World * MatchResults :=
  let '(w, res) := acc in
  let '(txnDetailId, w1) := createTransactionDetailRecord w txn settlementInternalId in
  if String.eqb (txn_type txn) TRANSACTION_TYPES.REFUND then
    (w1, {| matched := matched res;
            unmatched := unmatched res ++
              [{| um_txnDetailId := txnDetailId; um_windcaveTxn := txn;
                  um_error := Some REFUND_REASON |}] |})
  else
    let '(nsTransaction, w2) := locate w1 txn in
    let w3 := logCall (CallValidatePaymentForDeposit nsTransaction txn) w2 in
    let validation := validate nsTransaction txn in
    if isValid validation then
      (submitTxnDetail txnDetailId
         (td_withMatch (option_map ns_internalId nsTransaction)) w3,
       {| matched := matched res ++
            [{| mr_txnDetailId := txnDetailId; mr_windcaveTxn := txn;
                mr_nsTransaction := nsTransaction |}];
          unmatched := unmatched res |})
    else
      (submitTxnDetail txnDetailId (td_withMatchError (error validation)) w3,
       {| matched := matched res;
          unmatched := unmatched res ++
            [{| um_txnDetailId := txnDetailId; um_windcaveTxn := txn;
                um_error := error validation |}] |}).

Definition matchLoop
    (locate : World -> WindcaveTxn -> option NsTransaction * World)
    (validate : option NsTransaction -> WindcaveTxn -> Validation)
    (w : World) (transactions : list WindcaveTxn) (settlementInternalId : nat)
  : World * MatchResults :=
  fold_left (matchStep locate validate settlementInternalId) transactions
            (w, {| matched := []; unmatched := [] |}).

(** The running state of the loop over the [payment] sublist of a new
    deposit record: [paymentsAdded], the transaction detail ids collected
    ([_addedTxnDetailIds] / [addedTxnDetailIds]) and the lines ticked. *)
Record Selection : Type := {
  paymentsAdded : nat;
  addedTxnDetailIds : list nat;
  tickedLines : list string
}.

(** One turn of [for (let i = 0; i < lineCount; i++)]: [lookup paymentId] is
    the [find] over the matched (or pending) transactions, giving the
    transaction detail id of the first entry bound to that payment. *)
Definition selectStep (lookup : string -> option nat) (acc : Selection)
    (paymentId : string) : Selection :=
  match lookup paymentId with
  | Some txnDetailId =>
      {| paymentsAdded := S (paymentsAdded acc);
         addedTxnDetailIds := addedTxnDetailIds acc ++ [txnDetailId];
         tickedLines := tickedLines acc ++ [paymentId] |}
  | None => acc
  end.

Definition selectPayments (lookup : string -> option nat) (lines : list string)
  : Selection :=
  fold_left (selectStep lookup) lines
            {| paymentsAdded := 0; addedTxnDetailIds := []; tickedLines := [] |}.

(** [depositRecord.save()]: the deposit is stored under a fresh internal id
    and NetSuite takes its ticked payments out of undeposited funds. *)
Definition saveDeposit (d : DepositRec) (w : World) : nat * World :=
  let depositId := w_nextId w in
  (depositId,
   set_nextId (S depositId)
     (set_deposits (w_deposits w ++ [(depositId, d)])
        (set_undeposited
           (filter (fun p => negb (existsb (String.eqb p) (dep_payments d)))
                   (w_undeposited w)) w))).

(** [for (const txnDetailId of addedTxnDetailIds) record.submitFields(...)] *)
Definition linkDeposit (depositId : nat) (ids : list nat) (w : World) : World :=
  fold_left (fun w' txnDetailId => submitTxnDetail txnDetailId (td_withDeposit depositId) w')
            ids w.

(** [matchedTransactions.find(m => m.nsTransaction &&
    m.nsTransaction.internalId == paymentId)]; both sides are strings here,
    so the loose comparison of one copy and the [String(..) === String(..)]
    of the other are the same test. *)
Definition findMatched (matchedTransactions : list MatchResult) (paymentId : string)
  : option MatchResult :=
  find (fun m =>
          match mr_nsTransaction m with
          | Some ns => String.eqb (ns_internalId ns) paymentId
          | None => false
          end) matchedTransactions.

(** [createBankDeposit]: [None] is the [null] result.  The deposit date is
    kept as the settlement date string it is parsed from. *)
Definition createBankDeposit (w : World) (settlementData : SettlementDetails)
    (matchedTransactions : list MatchResult) (bankAccountId : string)
  : option nat * World :=
  match matchedTransactions with
  | [] => (None, w)
  | _ :: _ =>
      let sel :=
        selectPayments
          (fun paymentId => option_map mr_txnDetailId (findMatched matchedTransactions paymentId))
          (w_undeposited w) in
      if Nat.eqb (paymentsAdded sel) 0 then (None, w)
      else
        let depositRecord :=
          {| dep_account := bankAccountId;
             dep_trandate := sd_settlementDate settlementData;
             dep_memo := "Windcave Settlement "
                         ++ Js.showOpt (sd_referenceNumber settlementData)
                         ++ " (" ++ sd_id settlementData ++ ")";
             dep_payments := tickedLines sel |} in
        let '(depositId, w1) := saveDeposit depositRecord w in
        (Some depositId, linkDeposit depositId (addedTxnDetailIds sel) w1)
  end.

Definition sr_withResults (matchedCount unmatchedCount : nat) (matchedAmount : float)
    (bankDepositId : option nat) (errorMessage : option string)
    (r : SettlementRec) : SettlementRec :=
  {| sr_name := sr_name r; sr_settlementId := sr_settlementId r;
     sr_settlementDate := sr_settlementDate r; sr_amount := sr_amount r;
     sr_currency := sr_currency r; sr_status := sr_status r; sr_crdr := sr_crdr r;
     sr_referenceNumber := sr_referenceNumber r; sr_merchantId := sr_merchantId r;
     sr_customerId := sr_customerId r;
     sr_matchedCount := Some matchedCount;
     sr_unmatchedCount := Some unmatchedCount;
     sr_matchedAmount := Some matchedAmount;
     sr_processed := true;
     sr_bankDeposit :=
       match bankDepositId with
       | Some (S n) => Some (S n)
       | _ => sr_bankDeposit r
       end;
     sr_errorMessage :=
       if Js.truthy errorMessage then errorMessage else sr_errorMessage r |}.

(** [updateSettlementRecord]; the processed date it also stamps is left out. *)
Definition updateSettlementRecord (w : World) (settlementInternalId : nat)
    (matchedCount unmatchedCount : nat) (matchedAmount : float)
    (bankDepositId : option nat) (errorMessage : option string) : World :=
  set_settlements
    (updateRow settlementInternalId
       (sr_withResults matchedCount unmatchedCount matchedAmount bankDepositId errorMessage)
       (w_settlements w)) w.

(** [getSettlementById]: [None] when [record.load] throws. *)
Definition getSettlementById (w : World) (settlementInternalId : nat)
  : option SettlementRec :=
  loadRow settlementInternalId (w_settlements w).

(** Elements of the array [getMatchedNotDepositedTransactions] returns. *)
Record PendingTxn : Type := {
  pt_txnDetailId : nat;
  pt_transactionId : option string;
  pt_amount : float;
  pt_nsTransactionId : option string
}.

(** [getMatchedNotDepositedTransactions]: the transaction details of the
    settlement with [matched] ticked and [in deposit] not ticked. *)
Definition getMatchedNotDepositedTransactions (w : World) (settlementInternalId : nat)
  : list PendingTxn :=
  map (fun r =>
         {| pt_txnDetailId := fst r;
            pt_transactionId := td_transactionId (snd r);
            pt_amount := if (PrimFloat.is_nan (td_amount (snd r))
                             || PrimFloat.eqb (td_amount (snd r)) 0%float)%bool
                         then 0%float else td_amount (snd r);
            pt_nsTransactionId := td_nsTransaction (snd r) |})
      (filter (fun r => Nat.eqb (td_parentSettlement (snd r)) settlementInternalId
                        && td_matched (snd r) && negb (td_inDeposit (snd r)))%bool
              (w_txnDetails w)).

(** [pendingTransactions.find(t => t.nsTransactionId == paymentId)] *)
Definition findPending (pendingTransactions : list PendingTxn) (paymentId : string)
  : option PendingTxn :=
  find (fun t =>
          match pt_nsTransactionId t with
          | Some i => String.eqb i paymentId
          | None => false
          end) pendingTransactions.

(** What [createSupplementaryDeposit] returns: [{success: false, error}] or
    [{success: true, depositId, paymentsAdded}]. *)
Inductive SupplementaryResult : Type :=
| Failure (error : string)
| Success (depositId paymentsAdded : nat).

Definition NO_PENDING : string := "No matched transactions pending deposit".

Definition NOT_IN_UNDEPOSITED : string :=
  "No payments found in undeposited funds. Payments may have already been deposited elsewhere.".

(** [createSupplementaryDeposit].  The copy after [INSTALL.md] also loads
    the first pending payment to read its subsidiary inside a [try] of its
    own, which writes nothing; the rest is the same in both copies. *)
Definition createSupplementaryDeposit (w : World) (settlementInternalId : nat)
    (bankAccountId : string) : SupplementaryResult * World :=
  match getSettlementById w settlementInternalId with
  | None => (Failure "Settlement not found", w)
  | Some settlement =>
      let pendingTransactions := getMatchedNotDepositedTransactions w settlementInternalId in
      if Nat.eqb (List.length pendingTransactions) 0 then (Failure NO_PENDING, w)
      else
        let sel :=
          selectPayments
            (fun paymentId => option_map pt_txnDetailId (findPending pendingTransactions paymentId))
            (w_undeposited w) in
        if Nat.eqb (paymentsAdded sel) 0 then (Failure NOT_IN_UNDEPOSITED, w)
        else
          let depositRecord :=
            {| dep_account := bankAccountId;
               dep_trandate := sr_settlementDate settlement;
               dep_memo := "Windcave Settlement "
                           ++ (if String.eqb (sr_referenceNumber settlement) ""
                               then sr_settlementId settlement
                               else sr_referenceNumber settlement)
                           ++ " - Supplementary Deposit";
               dep_payments := tickedLines sel |} in
          let '(depositId, w1) := saveDeposit depositRecord w in
          (Success depositId (paymentsAdded sel),
           linkDeposit depositId (addedTxnDetailIds sel) w1)
  end.

(** [loadConfigurationById(configId)]: [record.load] of the configuration
    whose internal id is written [configId], active or not; when the load
    throws, the error thrown names the id. *)
Definition loadConfigurationById (w : World) (configId : string) : Js.completion Config :=
  match find (fun r => String.eqb (Js.natToString (fst r)) configId) (w_configs w) with
  | Some row => Js.Return (toConfig row)
  | None => Js.Throw (Js.newError ("Configuration not found: " ++ configId))
  end.

(** Elements of the array [getUnmatchedTransactions] returns. *)
Record UnmatchedTxn : Type := {
  ut_transactionId : option string;
  ut_merchantReference : string;
  ut_amount : float;
  ut_type : string;
  ut_error : option string
}.

(** [getUnmatchedTransactions]: the transaction details of the settlement
    with [matched] not ticked. *)
Definition getUnmatchedTransactions (w : World) (settlementInternalId : nat)
  : list UnmatchedTxn :=
  map (fun r =>
         {| ut_transactionId := td_transactionId (snd r);
            ut_merchantReference := td_merchantReference (snd r);
            ut_amount := td_amount (snd r);
            ut_type := td_type (snd r);
            ut_error := td_matchError (snd r) |})
      (filter (fun r => Nat.eqb (td_parentSettlement (snd r)) settlementInternalId
                        && negb (td_matched (snd r)))%bool
              (w_txnDetails w)).

(** [getAllTransactionsForSettlement]: every transaction detail of the
    settlement, each result with the internal id and the columns of its
    row. *)
Definition getAllTransactionsForSettlement (w : World) (settlementInternalId : nat)
  : list (nat * TxnDetailRec) :=
  filter (fun r => Nat.eqb (td_parentSettlement (snd r)) settlementInternalId)
         (w_txnDetails w).

(** [parseFloat(x) || 0] on a stored amount: [NaN] and zero give [0]. *)
Definition orZero (x : float) : float :=
  if (PrimFloat.is_nan x || PrimFloat.eqb x 0%float)%bool then 0%float else x.

(** The three counters of [updateSettlementMatchCounts]. *)
Record MatchCounts : Type := {
  mc_matched : nat;
  mc_unmatched : nat;
  mc_amount : float
}.

(** The callback run on each result of the search. *)
Definition countStep (acc : MatchCounts) (result : nat * TxnDetailRec) : MatchCounts :=
  let isMatched := td_matched (snd result) in
  let amount := orZero (td_amount (snd result)) in
  if isMatched then
    {| mc_matched := S (mc_matched acc);
       mc_unmatched := mc_unmatched acc;
       mc_amount := PrimFloat.add (mc_amount acc) amount |}
  else
    {| mc_matched := mc_matched acc;
       mc_unmatched := S (mc_unmatched acc);
       mc_amount := mc_amount acc |}.

(** The search over the transaction details of the settlement, and the
    counters after its last result. *)
Definition countMatches (w : World) (settlementInternalId : nat) : MatchCounts :=
  fold_left countStep
            (filter (fun r => Nat.eqb (td_parentSettlement (snd r)) settlementInternalId)
                    (w_txnDetails w))
            {| mc_matched := 0; mc_unmatched := 0; mc_amount := 0%float |}.

(** The message written with the counters: empty when nothing is left
    unmatched. *)
Definition countsMessage (c : MatchCounts) : string :=
  if Nat.ltb 0 (mc_unmatched c)
  then "Unmatched: " ++ Js.natToString (mc_unmatched c) ++ " transactions"
  else "".

Definition sr_withCounts (c : MatchCounts) (r : SettlementRec) : SettlementRec :=
  {| sr_name := sr_name r; sr_settlementId := sr_settlementId r;
     sr_settlementDate := sr_settlementDate r; sr_amount := sr_amount r;
     sr_currency := sr_currency r; sr_status := sr_status r; sr_crdr := sr_crdr r;
     sr_referenceNumber := sr_referenceNumber r; sr_merchantId := sr_merchantId r;
     sr_customerId := sr_customerId r;
     sr_matchedCount := Some (mc_matched c);
     sr_unmatchedCount := Some (mc_unmatched c);
     sr_matchedAmount := Some (mc_amount c);
     sr_processed := sr_processed r;
     sr_bankDeposit := sr_bankDeposit r;
     sr_errorMessage := Some (countsMessage c) |}.

(** The error of the platform when a record that is loaded or written does
    not exist. *)
Definition RCRD_DSNT_EXIST : Js.Error :=
  {| Js.err_name := "RCRD_DSNT_EXIST"; Js.err_message := "That record does not exist." |}.

(** [updateSettlementMatchCounts(settlementInternalId)]: the transaction
    details of the settlement are counted again and the counters written
    to the settlement record; [record.submitFields] throws when there is
    no such record. *)
Definition updateSettlementMatchCounts (w : World) (settlementInternalId : nat)
  : Js.completion unit * World :=
  let counts := countMatches w settlementInternalId in
  match loadRow settlementInternalId (w_settlements w) with
  | None => (Js.Throw RCRD_DSNT_EXIST, w)
  | Some _ =>
      (Js.Return tt,
       set_settlements
         (updateRow settlementInternalId (sr_withCounts counts) (w_settlements w)) w)
  end.

(** The values written to a transaction detail by a manual match. *)
Definition td_withManualMatch (nsTransactionId : option string) (r : TxnDetailRec)
  : TxnDetailRec :=
  {| td_name := td_name r; td_parentSettlement := td_parentSettlement r;
     td_transactionId := td_transactionId r;
     td_merchantReference := td_merchantReference r; td_amount := td_amount r;
     td_currency := td_currency r; td_type := td_type r; td_method := td_method r;
     td_authCode := td_authCode r;
     td_nsTransaction := nsTransactionId; td_matched := true;
     td_matchError := Some ""; td_inDeposit := td_inDeposit r;
     td_bankDeposit := td_bankDeposit r |}.

(** The object [{ amount: windcaveAmount }] handed to the validator: a line
    of which only the amount is there (the validator reads nothing else of
    a line once it is given an entry). *)
Definition amountOnly (windcaveAmount : float) : WindcaveTxn :=
  {| txn_id := None; txn_merchantReference := None; txn_amount := windcaveAmount;
     txn_currency := ""; txn_type := ""; txn_method := None; txn_authCode := None |}.

(** What [manualMatchTransaction] returns: [{success: false, error}] or
    [{success: true}]. *)
Inductive ManualMatchResult : Type :=
| MatchFailed (error : option string)
| MatchSucceeded.

(** [manualMatchTransaction(txnDetailId, nsTransactionId)].  The text is the
    same in both copies; [findEntry] and [validate] are the copy's own
    [findNetSuiteTransaction] and [validatePaymentForDeposit].  Whatever is
    thrown inside is caught and returned as a failure with its message. *)
Definition manualMatch
    (findEntry : World -> option string -> option NsTransaction)
    (validate : option NsTransaction -> WindcaveTxn -> Validation)
    (w : World) (txnDetailId : nat) (nsTransactionId : option string)
  : ManualMatchResult * World :=
  match loadRow txnDetailId (w_txnDetails w) with
  | None => (MatchFailed (Some (Js.err_message RCRD_DSNT_EXIST)), w)
  | Some txnDetail =>
      let windcaveAmount := td_amount txnDetail in
      let settlementId := td_parentSettlement txnDetail in
      match findEntry w nsTransactionId with
      | None =>
          (MatchFailed (Some ("NetSuite transaction not found: "
                              ++ Js.showOpt nsTransactionId)%string), w)
      | Some nsTransaction =>
          let validation := validate (Some nsTransaction) (amountOnly windcaveAmount) in
          if negb (isValid validation) then (MatchFailed (error validation), w)
          else
            let w1 := submitTxnDetail txnDetailId (td_withManualMatch nsTransactionId) w in
            match updateSettlementMatchCounts w1 settlementId with
            | (Js.Return _, w2) => (MatchSucceeded, w2)
            | (Js.Throw e, w2) => (MatchFailed (Some (Js.err_message e)), w2)
            end
      end
  end.

End Reconciliation.

(* ===================================================================== *)
(** * The copy under src/FileCabinet/SuiteScripts/Windcave *)
(* ===================================================================== *)

Module FileCabinet.

Import Model.
Import Constants.
Import Reconciliation.

(** The object built from a search row; [undepositedFunds] is whatever the
    [undepfunds] column holds. *)
Definition toNsTransaction (result : LedgerRow) : NsTransaction :=
  {| ns_internalId := lr_internalid result;
     ns_type := lr_type result;
     ns_tranId := lr_tranid result;
     ns_amount := lr_amount result;
     ns_currency := lr_currency result;
     ns_status := lr_status result;
     ns_undepositedFunds := lr_undepfunds result;
     ns_matchMethod := None |}.

(** [findNetSuiteTransaction(internalId)]: a transaction search on the
    cleaned internal id, main line, customer payment or cash sale, limited
    to one result. *)
Definition findNetSuiteTransaction (w : World) (internalId : option string)
  : option NsTransaction :=
  if Js.blank internalId then None
  else
    let cleanId := Js.stripNonDigits (Js.showOpt internalId) in
    if String.eqb cleanId "" then None
    else
      let results :=
        firstn 1
          (filter (fun r =>
                     String.eqb (lr_internalid r) cleanId
                     && lr_mainline r
                     && (LedgerKind_eqb (lr_kind r) CustPymt
                         || LedgerKind_eqb (lr_kind r) CashSale))%bool
                  (w_ledger w)) in
      match results with
      | [] => None
      | result :: _ => Some (toNsTransaction result)
      end.

(** [validatePaymentForDeposit(nsTransaction, windcaveTxn)] *)
Definition validatePaymentForDeposit (h : Js.Host)
    (nsTransaction : option NsTransaction) (windcaveTxn : WindcaveTxn) : Validation :=
  match nsTransaction with
  | None => {| isValid := false; error := Some ERRORS.NO_MATCHING_PAYMENT |}
  | Some ns =>
      if Js.strictEqStr (ns_undepositedFunds ns) "F" then
        {| isValid := false; error := Some ERRORS.PAYMENT_ALREADY_DEPOSITED |}
      else
        let windcaveAmount := txn_amount windcaveTxn in
        let amountDiff := PrimFloat.abs (PrimFloat.sub (ns_amount ns) windcaveAmount) in
        if PrimFloat.ltb MISC.AMOUNT_TOLERANCE amountDiff then
          {| isValid := false;
             error := Some (ERRORS.AMOUNT_MISMATCH
                            ++ " (NS: " ++ Js.numberToString h (ns_amount ns)
                            ++ ", WC: " ++ Js.numberToString h windcaveAmount ++ ")")%string |}
        else {| isValid := true; error := None |}
  end.

(** "Find matching NetSuite transaction": the single lookup of this copy. *)
Definition locate (w : World) (txn : WindcaveTxn) : option NsTransaction * World :=
  let w1 := logCall (CallFindNetSuiteTransaction txn) w in
  (findNetSuiteTransaction w1 (txn_merchantReference txn), w1).

(** [matchTransactions(transactions, settlementInternalId)] *)
Definition matchTransactions (h : Js.Host) (w : World)
    (transactions : list WindcaveTxn) (settlementInternalId : nat)
  : World * MatchResults :=
  matchLoop locate (validatePaymentForDeposit h) w transactions settlementInternalId.

(** [manualMatchTransaction(txnDetailId, nsTransactionId)]: the entry is
    looked up by the internal id given. *)
Definition manualMatchTransaction (h : Js.Host) (w : World) (txnDetailId : nat)
    (nsTransactionId : option string) : ManualMatchResult * World :=
  manualMatch findNetSuiteTransaction (validatePaymentForDeposit h)
              w txnDetailId nsTransactionId.

End FileCabinet.

(* ===================================================================== *)
(** * The copy reproduced after INSTALL.md *)
(* ===================================================================== *)

Module InstallDoc.

Import Model.
Import Constants.
Import Reconciliation.

(** Whether the account's display name says "undeposited". *)
Definition isUndeposited (result : LedgerRow) : bool :=
  let accountName := Js.orElse (lr_account result) "" in
  Js.includes "undeposited" (Js.toLowerCase accountName).

Definition toNsTransaction (matchMethod : option string) (result : LedgerRow)
  : NsTransaction :=
  {| ns_internalId := lr_internalid result;
     ns_type := lr_type result;
     ns_tranId := lr_tranid result;
     ns_amount := lr_amount result;
     ns_currency := lr_currency result;
     ns_status := lr_status result;
     ns_undepositedFunds := if isUndeposited result then Js.Str "T" else Js.Str "F";
     ns_matchMethod := matchMethod |}.

(** A search of one record type for [tranid is cleanRef], limited to five. *)
Definition searchByTranid (w : World) (kind : LedgerKind) (cleanRef : string)
  : list LedgerRow :=
  firstn 5
    (filter (fun r => LedgerKind_eqb (lr_kind r) kind && String.eqb (lr_tranid r) cleanRef)%bool
            (w_ledger w)).

(** [findNetSuiteTransaction(merchantReference)]: customer payments by
    document number, then cash sales. *)
Definition findNetSuiteTransaction (w : World) (merchantReference : option string)
  : option NsTransaction :=
  if Js.blank merchantReference then None
  else
    let cleanRef := Js.stripNonDigits (Js.showOpt merchantReference) in
    if String.eqb cleanRef "" then None
    else
      match searchByTranid w CustPymt cleanRef with
      | [] =>
          match searchByTranid w CashSale cleanRef with
          | [] => None
          | cashResult :: _ => Some (toNsTransaction None cashResult)
          end
      | result :: _ => Some (toNsTransaction None result)
      end.

(** The filter expression built from the auth code and the pnref. *)
Definition authFilter (authCode transactionId : option string) (r : LedgerRow) : bool :=
  ((negb (Js.blank authCode)
    && match lr_authcode r with
       | Some a => String.eqb a (Js.showOpt authCode)
       | None => false
       end)
   || (negb (Js.blank transactionId)
       && match lr_pnrefnum r with
          | Some p => String.eqb p (Js.showOpt transactionId)
          | None => false
          end))%bool.

(** The customer payment search of the fallback, limited to ten results;
    [None] when creating or running the search throws. *)
Definition searchByAuthCode (w : World) (authCode transactionId : option string)
  : option (list LedgerRow) :=
  if w_authSearchAvailable w then
    Some (firstn 10
            (filter (fun r => LedgerKind_eqb (lr_kind r) CustPymt
                              && authFilter authCode transactionId r)%bool
                    (w_ledger w)))
  else None.

(** [Math.abs(txnAmount - amount) <= tolerance] *)
Definition withinTolerance (amount : float) (result : LedgerRow) : bool :=
  PrimFloat.leb (PrimFloat.abs (PrimFloat.sub (lr_amount result) amount))
                MISC.AMOUNT_TOLERANCE.

(** What the fallback does with the rows the search returned. *)
Definition chooseByAmount (amount : float) (results : list LedgerRow)
  : option NsTransaction :=
  match results with
  | [] => None
  | _ :: _ =>
      match find (withinTolerance amount) results with
      | Some result => Some (toNsTransaction (Some "authcode") result)
      | None =>
          match results with
          | [result] => Some (toNsTransaction (Some "authcode") result)
          | _ => None
          end
      end
  end.

(** [findNetSuiteTransactionByAuthCode(authCode, amount, transactionId)] *)
Definition findNetSuiteTransactionByAuthCode (w : World) (authCode : option string)
    (amount : float) (transactionId : option string) : option NsTransaction :=
  if (Js.blank authCode && Js.blank transactionId)%bool then None
  else
    match searchByAuthCode w authCode transactionId with
    | None => None
    | Some results => chooseByAmount amount results
    end.

(** [validatePaymentForDeposit(nsTransaction, windcaveTxn)] *)
Definition validatePaymentForDeposit (h : Js.Host)
    (nsTransaction : option NsTransaction) (windcaveTxn : WindcaveTxn) : Validation :=
  match nsTransaction with
  | None =>
      let searchedRef := Js.orElse (txn_merchantReference windcaveTxn) "none" in
      let searchedAuth := Js.orElse (txn_authCode windcaveTxn) "none" in
      let searchedPnref := Js.orElse (txn_id windcaveTxn) "none" in
      {| isValid := false;
         error := Some (ERRORS.NO_MATCHING_PAYMENT
                        ++ " (searched: docNum=" ++ searchedRef
                        ++ ", authCode=" ++ searchedAuth
                        ++ ", pnref=" ++ searchedPnref ++ ")")%string |}
  | Some ns =>
      if Js.strictEqStr (ns_undepositedFunds ns) "F" then
        {| isValid := false;
           error := Some (ERRORS.PAYMENT_ALREADY_DEPOSITED
                          ++ " (Payment #" ++ ns_tranId ns ++ ")")%string |}
      else
        let windcaveAmount := txn_amount windcaveTxn in
        let amountDiff := PrimFloat.abs (PrimFloat.sub (ns_amount ns) windcaveAmount) in
        if PrimFloat.ltb MISC.AMOUNT_TOLERANCE amountDiff then
          {| isValid := false;
             error := Some (ERRORS.AMOUNT_MISMATCH
                            ++ " (NS: " ++ Js.numberToString h (ns_amount ns)
                            ++ ", WC: " ++ Js.numberToString h windcaveAmount ++ ")")%string |}
        else {| isValid := true; error := None |}
  end.

(** "Strategy 1" then "Strategy 2" of the loop body of [matchTransactions]. *)
Definition locate (w : World) (txn : WindcaveTxn) : option NsTransaction * World :=
  let w1 := logCall (CallFindNetSuiteTransaction txn) w in
  let nsTransaction := findNetSuiteTransaction w1 (txn_merchantReference txn) in
  match nsTransaction with
  | Some _ => (nsTransaction, w1)
  | None =>
      if (Js.truthy (txn_authCode txn) || Js.truthy (txn_id txn))%bool then
        let w2 :=
          logCall (CallFindNetSuiteTransactionByAuthCode txn) w1 in
        (findNetSuiteTransactionByAuthCode w2 (txn_authCode txn) (txn_amount txn) (txn_id txn),
         w2)
      else (None, w1)
  end.

(** [matchTransactions(transactions, settlementInternalId)] *)
Definition matchTransactions (h : Js.Host) (w : World)
    (transactions : list WindcaveTxn) (settlementInternalId : nat)
  : World * MatchResults :=
  matchLoop locate (validatePaymentForDeposit h) w transactions settlementInternalId.

(** [manualMatchTransaction(txnDetailId, nsTransactionId)]: in this copy
    [findNetSuiteTransaction] takes what it is given for a document
    number. *)
Definition manualMatchTransaction (h : Js.Host) (w : World) (txnDetailId : nat)
    (nsTransactionId : option string) : ManualMatchResult * World :=
  manualMatch findNetSuiteTransaction (validatePaymentForDeposit h)
              w txnDetailId nsTransactionId.

End InstallDoc.

(* ===================================================================== *)
(** * windcave_api_module: the HTTP client *)
(* ===================================================================== *)

Module WindcaveApi.

Import Constants.

(** How one [https.get] ends: a response, or an exception of the platform
    (a request that times out throws an error named
    [SSS_REQUEST_TIME_EXCEEDED]). *)
Inductive HttpOutcome : Type :=
| Responded (code : Z) (body : string)
| Raised (e : Js.Error).

Definition TIMEOUT_NAME : string := "SSS_REQUEST_TIME_EXCEEDED".

Definition timeoutError : Js.Error :=
  {| Js.err_name := TIMEOUT_NAME; Js.err_message := "The host you are trying to connect to is not responding" |}.

(** The client's side of the network during one call: how many requests
    were sent, and the busy-wait delays (in milliseconds) it sat through. *)
Record Net : Type := {
  requests : nat;
  waits : list nat
}.

Definition startNet : Net := {| requests := 0; waits := [] |}.

Section Client.

(** [J] is the type of parsed JSON bodies, [parse] is [JSON.parse] ([None]
    where it throws a [SyntaxError]), and [server n] is how the [n]-th
    request sent ends. *)
Variable J : Type.
Variable parse : string -> option J.
Variable server : nat -> HttpOutcome.

Definition jsonParse (body : string) : Js.completion J :=
  match parse body with
  | Some v => Js.Return v
  | None => Js.Throw {| Js.err_name := "SyntaxError"; Js.err_message := "Unexpected token in JSON" |}
  end.

Definition httpsGet (st : Net) : HttpOutcome * Net :=
  (server (requests st), {| requests := S (requests st); waits := waits st |}).

(** The [while] loop that spins until [ms] milliseconds have passed. *)
Definition busyWait (ms : nat) (st : Net) : Net :=
  {| requests := requests st; waits := waits st ++ [ms] |}.

(** [makeRequest({url, authHeader, retryCount})].  The function calls itself
    with [retryCount + 1] and only while [retryCount < MAX_API_RETRIES];
    [fuel] bounds the depth of that recursion and is never the reason it
    stops when it exceeds [MAX_API_RETRIES - retryCount].

    The retry after a server error is a [return makeRequest(...)] written
    inside the [try] block, so whatever that call throws reaches the [catch]
    of the caller; the retry after a time-out is written inside the [catch]
    block. *)
Fixpoint makeRequestFrom (fuel : nat) (retryCount : nat) (st : Net)
  : Js.completion J * Net :=
  match fuel with
  | O => (Js.Throw (Js.newError "out of fuel"), st)
  | S fuel' =>
      let tried :=
        match httpsGet st with
        | (Raised e, st1) => (Js.Throw e, st1)
        | (Responded statusCode body, st1) =>
            if ((200 <=? statusCode) && (statusCode <? 300))%Z%bool then
              (jsonParse body, st1)
            else if ((statusCode =? 401) || (statusCode =? 403))%Z%bool then
              (Js.Throw (Js.newError (ERRORS.API_AUTH_FAILED ++ ": " ++ body)%string), st1)
            else if ((500 <=? statusCode)%Z && Nat.ltb retryCount MISC.MAX_API_RETRIES)%bool then
              let st2 := busyWait (MISC.RETRY_DELAY_MS * (retryCount + 1)) st1 in
              makeRequestFrom fuel' (retryCount + 1) st2
            else
              (Js.Throw (Js.newError (ERRORS.API_REQUEST_FAILED ++ ": HTTP "
                                      ++ Js.intToString statusCode ++ " - " ++ body)%string),
               st1)
        end in
      match tried with
      | (Js.Return response, st') => (Js.Return response, st')
      | (Js.Throw e, st') =>
          if (String.eqb (Js.err_name e) TIMEOUT_NAME
              && Nat.ltb retryCount MISC.MAX_API_RETRIES)%bool then
            makeRequestFrom fuel' (retryCount + 1) st'
          else (Js.Throw e, st')
      end
  end.

(** [makeRequest({url, authHeader})]: [retryCount] defaults to [0]. *)
Definition makeRequest (st : Net) : Js.completion J * Net :=
  makeRequestFrom (S MISC.MAX_API_RETRIES) 0 st.

End Client.

(** [getBaseUrl(environment)] *)
Definition getBaseUrl (environment : string) : string :=
  if String.eqb environment API.ENVIRONMENTS.UAT
  then API.BASE_URL_UAT
  else API.BASE_URL_PROD.

(** The options of [getSettlements]. *)
Record SettlementsOptions : Type := {
  gs_username : string;
  gs_password : string;
  gs_environment : string;
  gs_merchantId : option string;
  gs_customerId : option string;
  gs_startDate : string;
  gs_endDate : string
}.

(** The options of [getSettlementDetails]. *)
Record DetailsOptions : Type := {
  gd_username : string;
  gd_password : string;
  gd_environment : string;
  gd_settlementId : string
}.

(** The query URL [getSettlements] builds; it throws when neither id is
    given. *)
Definition settlementsUrl (options : SettlementsOptions) : Js.completion string :=
  let url := (getBaseUrl (gs_environment options) ++ API.ENDPOINTS.SETTLEMENTS ++ "?")%string in
  let withId :=
    if Js.truthy (gs_customerId options) then
      Js.Return (url ++ "customerId="
                 ++ Js.encodeURIComponent (Js.showOpt (gs_customerId options)))%string
    else if Js.truthy (gs_merchantId options) then
      Js.Return (url ++ "merchantId="
                 ++ Js.encodeURIComponent (Js.showOpt (gs_merchantId options)))%string
    else Js.Throw (Js.newError "Either merchantId or customerId must be provided") in
  match withId with
  | Js.Return url1 =>
      Js.Return (url1 ++ "&settlementDateStart=" ++ Js.encodeURIComponent (gs_startDate options)
                 ++ "&settlementDateEnd=" ++ Js.encodeURIComponent (gs_endDate options))%string
  | Js.Throw e => Js.Throw e
  end.

(** The URL [getSettlementDetails] builds. *)
Definition settlementDetailsUrl (options : DetailsOptions) : string :=
  getBaseUrl (gd_environment options) ++ API.ENDPOINTS.SETTLEMENTS ++ "/"
  ++ Js.encodeURIComponent (gd_settlementId options).

(** A [Date], as far as [formatDateForApi] reads it: [getFullYear()],
    [getMonth()] (January is 0) and [getDate()]. *)
Record Date : Type := {
  getFullYear : Z;
  getMonth : nat;
  getDate : nat
}.

(** [formatDateForApi(date)] *)
Definition formatDateForApi (date : Date) : string :=
  let year := getFullYear date in
  let month := Js.padStart2 (Js.natToString (getMonth date + 1)) in
  let day := Js.padStart2 (Js.natToString (getDate date)) in
  Js.intToString year ++ "-" ++ month ++ "-" ++ day.

Section Calls.

(** [encodeBase64] is [encode.convert] from UTF-8 to Base64,
    [server url authHeader n] is how the [n]-th request sent ends when it
    is made to [url] with that [Authorization] header, and [isNull] tells
    the parsed body [null] from the others. *)
Variable J : Type.
Variable parse : string -> option J.
Variable encodeBase64 : string -> string.
Variable server : string -> string -> nat -> HttpOutcome.
Variable isNull : J -> bool.

(** [buildAuthHeader(username, password)] *)
Definition buildAuthHeader (username password : string) : string :=
  let credentials := (username ++ ":" ++ password)%string in
  ("Basic " ++ encodeBase64 credentials)%string.

(** The log line written after the request reads a property of the
    response ([response.settlements], [response.transactions]), which
    throws when the response is [null]. *)
Definition logged (property : string) (response : J) : Js.completion J :=
  if isNull response then
    Js.Throw {| Js.err_name := "TypeError";
                Js.err_message := "Cannot read properties of null (reading '"
                                  ++ property ++ "')" |}
  else Js.Return response.

(** [getSettlements(options)] *)
Definition getSettlements (options : SettlementsOptions) (st : Net)
  : Js.completion J * Net :=
  match settlementsUrl options with
  | Js.Throw e => (Js.Throw e, st)
  | Js.Return url =>
      let authHeader := buildAuthHeader (gs_username options) (gs_password options) in
      match makeRequest J parse (server url authHeader) st with
      | (Js.Return response, st') => (logged "settlements" response, st')
      | (Js.Throw e, st') => (Js.Throw e, st')
      end
  end.

(** [getSettlementDetails(options)] *)
Definition getSettlementDetails (options : DetailsOptions) (st : Net)
  : Js.completion J * Net :=
  let url := settlementDetailsUrl options in
  let authHeader := buildAuthHeader (gd_username options) (gd_password options) in
  match makeRequest J parse (server url authHeader) st with
  | (Js.Return response, st') => (logged "transactions" response, st')
  | (Js.Throw e, st') => (Js.Throw e, st')
  end.

End Calls.

End WindcaveApi.

(* ===================================================================== *)
(** * windcave_settlement_scheduled: the batch coordinator *)
(* ===================================================================== *)

Module Scheduled.

Import Model.
Import Constants.
Import Reconciliation.

(** Which copy of the reconciliation library the script is deployed with. *)
Inductive Library : Type := FileCabinetLib | InstallDocLib.

Definition matchTransactions (lib : Library) (h : Js.Host) (w : World)
    (transactions : list WindcaveTxn) (settlementInternalId : nat)
  : World * MatchResults :=
  match lib with
  | FileCabinetLib => FileCabinet.matchTransactions h w transactions settlementInternalId
  | InstallDocLib => InstallDoc.matchTransactions h w transactions settlementInternalId
  end.

(** What lies outside the account during one run, each answer indexed by
    the reading of [w_clock] at which it is asked for: the governance units
    left, the wall clock (milliseconds), the two calls of the Windcave API
    module ([None] for a response without a [settlements] property) and
    whether [email.send] throws. *)
Record Surroundings : Type := {
  remainingUsage : nat -> Z;
  now : nat -> Z;
  getSettlements : nat -> Config -> Js.completion (option (list Settlement));
  getSettlementDetails : nat -> Config -> string -> Js.completion SettlementDetails;
  emailSendThrows : nat -> bool
}.

(** Reading the surroundings advances the clock. *)
Definition consult (w : World) : nat * World :=
  (w_clock w, set_clock (S (w_clock w)) w).

Record ConfigResult : Type := {
  cres_configId : nat;
  cres_configName : string;
  cres_merchantId : string;
  cres_settlementsFound : nat;
  cres_settlementsProcessed : nat;
  cres_matched : nat;
  cres_unmatched : nat;
  cres_errors : list string
}.

Record ProcessingResults : Type := {
  pr_startTime : Z;
  pr_endTime : option Z;
  pr_configurationsProcessed : nat;
  pr_settlementsFound : nat;
  pr_settlementsProcessed : nat;
  pr_settlementsSkipped : nat;
  pr_totalMatched : nat;
  pr_totalUnmatched : nat;
  pr_totalAmount : float;
  pr_depositsCreated : nat;
  pr_errors : list string;
  pr_configResults : list ConfigResult
}.

Definition initialResults (startTime : Z) : ProcessingResults :=
  {| pr_startTime := startTime; pr_endTime := None;
     pr_configurationsProcessed := 0; pr_settlementsFound := 0;
     pr_settlementsProcessed := 0; pr_settlementsSkipped := 0;
     pr_totalMatched := 0; pr_totalUnmatched := 0; pr_totalAmount := 0%float;
     pr_depositsCreated := 0; pr_errors := []; pr_configResults := [] |}.

(** [results.settlementsSkipped++] *)
Definition skipOne (r : ProcessingResults) : ProcessingResults :=
  {| pr_startTime := pr_startTime r; pr_endTime := pr_endTime r;
     pr_configurationsProcessed := pr_configurationsProcessed r;
     pr_settlementsFound := pr_settlementsFound r;
     pr_settlementsProcessed := pr_settlementsProcessed r;
     pr_settlementsSkipped := S (pr_settlementsSkipped r);
     pr_totalMatched := pr_totalMatched r; pr_totalUnmatched := pr_totalUnmatched r;
     pr_totalAmount := pr_totalAmount r; pr_depositsCreated := pr_depositsCreated r;
     pr_errors := pr_errors r; pr_configResults := pr_configResults r |}.

(** [results.depositsCreated++] *)
Definition depositOne (r : ProcessingResults) : ProcessingResults :=
  {| pr_startTime := pr_startTime r; pr_endTime := pr_endTime r;
     pr_configurationsProcessed := pr_configurationsProcessed r;
     pr_settlementsFound := pr_settlementsFound r;
     pr_settlementsProcessed := pr_settlementsProcessed r;
     pr_settlementsSkipped := pr_settlementsSkipped r;
     pr_totalMatched := pr_totalMatched r; pr_totalUnmatched := pr_totalUnmatched r;
     pr_totalAmount := pr_totalAmount r; pr_depositsCreated := S (pr_depositsCreated r);
     pr_errors := pr_errors r; pr_configResults := pr_configResults r |}.

(** The four updates under "Update processing results". *)
Definition processedOne (nMatched nUnmatched : nat) (amount : float)
    (r : ProcessingResults) : ProcessingResults :=
  {| pr_startTime := pr_startTime r; pr_endTime := pr_endTime r;
     pr_configurationsProcessed := pr_configurationsProcessed r;
     pr_settlementsFound := pr_settlementsFound r;
     pr_settlementsProcessed := S (pr_settlementsProcessed r);
     pr_settlementsSkipped := pr_settlementsSkipped r;
     pr_totalMatched := pr_totalMatched r + nMatched;
     pr_totalUnmatched := pr_totalUnmatched r + nUnmatched;
     pr_totalAmount := PrimFloat.add (pr_totalAmount r) amount;
     pr_depositsCreated := pr_depositsCreated r;
     pr_errors := pr_errors r; pr_configResults := pr_configResults r |}.

(** [results.errors.push(msg)] *)
Definition pushError (msg : string) (r : ProcessingResults) : ProcessingResults :=
  {| pr_startTime := pr_startTime r; pr_endTime := pr_endTime r;
     pr_configurationsProcessed := pr_configurationsProcessed r;
     pr_settlementsFound := pr_settlementsFound r;
     pr_settlementsProcessed := pr_settlementsProcessed r;
     pr_settlementsSkipped := pr_settlementsSkipped r;
     pr_totalMatched := pr_totalMatched r; pr_totalUnmatched := pr_totalUnmatched r;
     pr_totalAmount := pr_totalAmount r; pr_depositsCreated := pr_depositsCreated r;
     pr_errors := pr_errors r ++ [msg]; pr_configResults := pr_configResults r |}.

(** [results.settlementsFound += n] *)
Definition foundMore (n : nat) (r : ProcessingResults) : ProcessingResults :=
  {| pr_startTime := pr_startTime r; pr_endTime := pr_endTime r;
     pr_configurationsProcessed := pr_configurationsProcessed r;
     pr_settlementsFound := pr_settlementsFound r + n;
     pr_settlementsProcessed := pr_settlementsProcessed r;
     pr_settlementsSkipped := pr_settlementsSkipped r;
     pr_totalMatched := pr_totalMatched r; pr_totalUnmatched := pr_totalUnmatched r;
     pr_totalAmount := pr_totalAmount r; pr_depositsCreated := pr_depositsCreated r;
     pr_errors := pr_errors r; pr_configResults := pr_configResults r |}.

(** [results.configurationsProcessed++] *)
Definition configDone (r : ProcessingResults) : ProcessingResults :=
  {| pr_startTime := pr_startTime r; pr_endTime := pr_endTime r;
     pr_configurationsProcessed := S (pr_configurationsProcessed r);
     pr_settlementsFound := pr_settlementsFound r;
     pr_settlementsProcessed := pr_settlementsProcessed r;
     pr_settlementsSkipped := pr_settlementsSkipped r;
     pr_totalMatched := pr_totalMatched r; pr_totalUnmatched := pr_totalUnmatched r;
     pr_totalAmount := pr_totalAmount r; pr_depositsCreated := pr_depositsCreated r;
     pr_errors := pr_errors r; pr_configResults := pr_configResults r |}.

(** [results.configResults.push(configResult)] *)
Definition pushConfigResult (c : ConfigResult) (r : ProcessingResults) : ProcessingResults :=
  {| pr_startTime := pr_startTime r; pr_endTime := pr_endTime r;
     pr_configurationsProcessed := pr_configurationsProcessed r;
     pr_settlementsFound := pr_settlementsFound r;
     pr_settlementsProcessed := pr_settlementsProcessed r;
     pr_settlementsSkipped := pr_settlementsSkipped r;
     pr_totalMatched := pr_totalMatched r; pr_totalUnmatched := pr_totalUnmatched r;
     pr_totalAmount := pr_totalAmount r; pr_depositsCreated := pr_depositsCreated r;
     pr_errors := pr_errors r; pr_configResults := pr_configResults r ++ [c] |}.

(** [results.endTime = new Date()] *)
Definition finished (t : Z) (r : ProcessingResults) : ProcessingResults :=
  {| pr_startTime := pr_startTime r; pr_endTime := Some t;
     pr_configurationsProcessed := pr_configurationsProcessed r;
     pr_settlementsFound := pr_settlementsFound r;
     pr_settlementsProcessed := pr_settlementsProcessed r;
     pr_settlementsSkipped := pr_settlementsSkipped r;
     pr_totalMatched := pr_totalMatched r; pr_totalUnmatched := pr_totalUnmatched r;
     pr_totalAmount := pr_totalAmount r; pr_depositsCreated := pr_depositsCreated r;
     pr_errors := pr_errors r; pr_configResults := pr_configResults r |}.

(** The object [processSettlement] returns for a settlement it processed. *)
Record SettlementOutcome : Type := {
  so_matched : nat;
  so_unmatched : nat
}.

(** ['Txn ' + u.windcaveTxn.id + ': ' + u.error] *)
Definition unmatchedLine (u : UnmatchResult) : string :=
  "Txn " ++ Js.showOpt (txn_id (um_windcaveTxn u)) ++ ": "
  ++ match um_error u with Some e => e | None => "null" end.

(** [processSettlement(settlement, config, results)]: [Return None] is the
    [null] of a skipped settlement; [Throw] is an exception of
    [getSettlementDetails] leaving the function. *)
Definition processSettlement (lib : Library) (h : Js.Host) (env : Surroundings)
    (settlement : Settlement) (config : Config)
    (st : World * ProcessingResults)
  : Js.completion (option SettlementOutcome) * (World * ProcessingResults) :=
  let '(w, results) := st in
  if negb (String.eqb (stl_status settlement) SETTLEMENT_STATUS.DONE) then
    (Js.Return None, (w, skipOne results))
  else if isSettlementProcessed w (stl_id settlement) then
    (Js.Return None, (w, skipOne results))
  else
    let '(n, w0) := consult w in
    match getSettlementDetails env n config (stl_id settlement) with
    | Js.Throw e => (Js.Throw e, (w0, results))
    | Js.Return settlementDetails =>
        let transactions :=
          match sd_transactions settlementDetails with
          | Some l => l
          | None => []
          end in
        let '(settlementInternalId, w1) := createSettlementRecord w0 settlementDetails in
        let '(w2, matchResults) := matchTransactions lib h w1 transactions settlementInternalId in
        let matchedAmount :=
          fold_left (fun acc m => PrimFloat.add acc (txn_amount (mr_windcaveTxn m)))
                    (matched matchResults) 0%float in
        let '(bankDepositId, w3, results1) :=
          if (String.eqb (stl_CRDR settlement) CRDR.CREDIT
              && Nat.ltb 0 (List.length (matched matchResults)))%bool then
            let '(d, w') :=
              createBankDeposit w2 settlementDetails (matched matchResults)
                                (cfg_bankAccount config) in
            match d with
            | Some (S _) => (d, w', depositOne results)
            | _ => (d, w', results)
            end
          else (None, w2, results) in
        let errorMessage :=
          if Nat.ltb 0 (List.length (unmatched matchResults)) then
            Some ("Unmatched transactions:" ++ Js.nl
                  ++ Js.join Js.nl (map unmatchedLine (unmatched matchResults)))%string
          else None in
        let w4 :=
          updateSettlementRecord w3 settlementInternalId
            (List.length (matched matchResults)) (List.length (unmatched matchResults))
            matchedAmount bankDepositId errorMessage in
        (Js.Return (Some {| so_matched := List.length (matched matchResults);
                            so_unmatched := List.length (unmatched matchResults) |}),
         (w4,
          processedOne (List.length (matched matchResults))
                       (List.length (unmatched matchResults))
                       (stl_amount settlement) results1))
    end.

Definition newConfigResult (config : Config) : ConfigResult :=
  {| cres_configId := cfg_internalId config;
     cres_configName := cfg_name config;
     cres_merchantId := cfg_merchantId config;
     cres_settlementsFound := 0;
     cres_settlementsProcessed := 0;
     cres_matched := 0;
     cres_unmatched := 0;
     cres_errors := [] |}.

(** [configResult.settlementsFound = n] *)
Definition cres_found (n : nat) (c : ConfigResult) : ConfigResult :=
  {| cres_configId := cres_configId c; cres_configName := cres_configName c;
     cres_merchantId := cres_merchantId c;
     cres_settlementsFound := n;
     cres_settlementsProcessed := cres_settlementsProcessed c;
     cres_matched := cres_matched c; cres_unmatched := cres_unmatched c;
     cres_errors := cres_errors c |}.

(** The three updates made for a settlement that was processed. *)
Definition cres_processed (o : SettlementOutcome) (c : ConfigResult) : ConfigResult :=
  {| cres_configId := cres_configId c; cres_configName := cres_configName c;
     cres_merchantId := cres_merchantId c;
     cres_settlementsFound := cres_settlementsFound c;
     cres_settlementsProcessed := S (cres_settlementsProcessed c);
     cres_matched := cres_matched c + so_matched o;
     cres_unmatched := cres_unmatched c + so_unmatched o;
     cres_errors := cres_errors c |}.

(** [configResult.errors.push(msg)] *)
Definition cres_pushError (msg : string) (c : ConfigResult) : ConfigResult :=
  {| cres_configId := cres_configId c; cres_configName := cres_configName c;
     cres_merchantId := cres_merchantId c;
     cres_settlementsFound := cres_settlementsFound c;
     cres_settlementsProcessed := cres_settlementsProcessed c;
     cres_matched := cres_matched c; cres_unmatched := cres_unmatched c;
     cres_errors := cres_errors c ++ [msg] |}.

Definition LOW_GOVERNANCE : string := "Processing stopped due to low governance".

(** [for (const settlement of settlements)] with its governance check, its
    [break] and its [try]/[catch]. *)
Fixpoint settlementLoop (lib : Library) (h : Js.Host) (env : Surroundings)
    (config : Config) (settlements : list Settlement)
    (st : World * ProcessingResults * ConfigResult)
  : World * ProcessingResults * ConfigResult :=
  match settlements with
  | [] => st
  | settlement :: rest =>
      let '(w, results, configResult) := st in
      let '(n, w1) := consult w in
      if (remainingUsage env n <? 500)%Z then
        (w1, pushError LOW_GOVERNANCE results, configResult)
      else
        match processSettlement lib h env settlement config (w1, results) with
        | (Js.Return (Some result), (w2, results2)) =>
            settlementLoop lib h env config rest
              (w2, results2, cres_processed result configResult)
        | (Js.Return None, (w2, results2)) =>
            settlementLoop lib h env config rest (w2, results2, configResult)
        | (Js.Throw settlementError, (w2, results2)) =>
            let errorMsg :=
              ("[" ++ cfg_name config ++ "] Settlement " ++ stl_id settlement ++ ": "
               ++ Js.err_message settlementError)%string in
            settlementLoop lib h env config rest
              (w2, pushError errorMsg results2, cres_pushError errorMsg configResult)
        end
  end.

(** [notificationEmails.add(x)]: a [Set] keeps its elements in insertion
    order and ignores a value it already holds. *)
Definition setAdd (x : string) (s : list string) : list string :=
  if existsb (String.eqb x) s then s else s ++ [x].

(** The body of the [try] block that processes one configuration. *)
Definition processConfiguration (lib : Library) (h : Js.Host) (env : Surroundings)
    (config : Config) (st : World * ProcessingResults * list string)
  : World * ProcessingResults * list string :=
  let '(w, results, notificationEmails) := st in
  let configResult := newConfigResult config in
  let notificationEmails1 :=
    if Js.truthy (cfg_notificationEmail config)
    then setAdd (Js.showOpt (cfg_notificationEmail config)) notificationEmails
    else notificationEmails in
  let '(n, w1) := consult w in
  match getSettlements env n config with
  | Js.Throw configError =>
      (w1,
       pushConfigResult
         (cres_pushError (Js.err_message configError) configResult)
         (pushError ("Configuration " ++ cfg_name config ++ ": "
                     ++ Js.err_message configError)%string results),
       notificationEmails1)
  | Js.Return response =>
      let settlements := match response with Some l => l | None => [] end in
      let configResult1 := cres_found (List.length settlements) configResult in
      let results1 := foundMore (List.length settlements) results in
      let '(w2, results2, configResult2) :=
        settlementLoop lib h env config settlements (w1, results1, configResult1) in
      (w2, pushConfigResult configResult2 (configDone results2), notificationEmails1)
  end.

(** [for (const config of configurations)] with its governance check. *)
Fixpoint configLoop (lib : Library) (h : Js.Host) (env : Surroundings)
    (configurations : list Config) (st : World * ProcessingResults * list string)
  : World * ProcessingResults * list string :=
  match configurations with
  | [] => st
  | config :: rest =>
      let '(w, results, notificationEmails) := st in
      let '(n, w1) := consult w in
      if (remainingUsage env n <? 1000)%Z then
        (w1, pushError LOW_GOVERNANCE results, notificationEmails)
      else
        configLoop lib h env rest
          (processConfiguration lib h env config (w1, results, notificationEmails))
  end.

(** The text of the summary, in the order [sendNotificationEmail] appends
    it: the head, the per-configuration breakdown, the error list, the note
    about unmatched transactions and the closing line. *)
Definition durationText (results : ProcessingResults) : string :=
  match pr_endTime results with
  | Some endTime => Js.intToString ((endTime - pr_startTime results + 500) / 1000)
  | None => "N/A"
  end.

Definition bodyHead (h : Js.Host) (results : ProcessingResults) : string :=
  "Windcave Settlement Processing Summary" ++ Js.nl
  ++ "======================================" ++ Js.nl ++ Js.nl
  ++ "Processing Date: " ++ Js.formatDateTime h (pr_startTime results) ++ Js.nl
  ++ "Duration: " ++ durationText results ++ " seconds" ++ Js.nl
  ++ "Configurations Processed: "
  ++ Js.natToString (pr_configurationsProcessed results) ++ Js.nl ++ Js.nl
  ++ "Overall Results:" ++ Js.nl
  ++ "----------------" ++ Js.nl
  ++ "Settlements Found: " ++ Js.natToString (pr_settlementsFound results) ++ Js.nl
  ++ "Settlements Processed: " ++ Js.natToString (pr_settlementsProcessed results) ++ Js.nl
  ++ "Settlements Skipped: " ++ Js.natToString (pr_settlementsSkipped results) ++ Js.nl
  ++ "Bank Deposits Created: " ++ Js.natToString (pr_depositsCreated results) ++ Js.nl
  ++ "Total Amount: " ++ Js.toFixed2 h (pr_totalAmount results) ++ Js.nl ++ Js.nl
  ++ "Transaction Matching:" ++ Js.nl
  ++ "---------------------" ++ Js.nl
  ++ "Matched: " ++ Js.natToString (pr_totalMatched results) ++ Js.nl
  ++ "Unmatched: " ++ Js.natToString (pr_totalUnmatched results) ++ Js.nl ++ Js.nl.

Definition configBlock (configResult : ConfigResult) : string :=
  Js.nl ++ "[" ++ cres_configName configResult ++ "] (Merchant: "
  ++ cres_merchantId configResult ++ ")" ++ Js.nl
  ++ "  Settlements: " ++ Js.natToString (cres_settlementsFound configResult)
  ++ " found, " ++ Js.natToString (cres_settlementsProcessed configResult)
  ++ " processed" ++ Js.nl
  ++ "  Matched: " ++ Js.natToString (cres_matched configResult)
  ++ ", Unmatched: " ++ Js.natToString (cres_unmatched configResult) ++ Js.nl
  ++ (if Nat.ltb 0 (List.length (cres_errors configResult))
      then "  Errors: " ++ Js.natToString (List.length (cres_errors configResult)) ++ Js.nl
      else "").

Definition BREAKDOWN_TITLE : string := "Results by Configuration:".

Definition breakdown (results : ProcessingResults) : string :=
  if Nat.ltb 1 (List.length (pr_configResults results)) then
    BREAKDOWN_TITLE ++ Js.nl
    ++ "-------------------------" ++ Js.nl
    ++ String.concat "" (map configBlock (pr_configResults results))
    ++ Js.nl
  else "".

Definition errorsBlock (results : ProcessingResults) : string :=
  if Nat.ltb 0 (List.length (pr_errors results)) then
    "Errors:" ++ Js.nl
    ++ "-------" ++ Js.nl
    ++ String.concat "" (map (fun e => ("- " ++ e ++ Js.nl)%string) (pr_errors results))
    ++ Js.nl
  else "".

Definition unmatchedNote (results : ProcessingResults) : string :=
  if Nat.ltb 0 (pr_totalUnmatched results) then
    "NOTE: There are unmatched transactions that require manual review." ++ Js.nl
    ++ "Please check the Windcave Settlement Reconciliation dashboard." ++ Js.nl ++ Js.nl
  else "".

Definition bodyFoot : string :=
  "This is an automated message from NetSuite Windcave Settlement Integration.".

Definition emailBody (h : Js.Host) (results : ProcessingResults) : string :=
  bodyHead h results ++ breakdown results ++ errorsBlock results
  ++ unmatchedNote results ++ bodyFoot.

Definition emailSubject (results : ProcessingResults) : string :=
  let hasErrors :=
    (Nat.ltb 0 (List.length (pr_errors results)) || Nat.ltb 0 (pr_totalUnmatched results))%bool in
  if hasErrors then EMAIL.SUBJECT_ERROR else EMAIL.SUBJECT_SUCCESS.

(** [sendNotificationEmail(recipientEmail, results)]: an exception of
    [email.send] is caught and logged. *)
Definition sendNotificationEmail (h : Js.Host) (env : Surroundings)
    (recipientEmail : string) (results : ProcessingResults) (w : World) : World :=
  let subject := emailSubject results in
  let body := emailBody h results in
  let '(n, w1) := consult w in
  if emailSendThrows env n then w1
  else
    set_outbox (w_outbox w1 ++ [{| em_recipient := recipientEmail;
                                   em_subject := subject;
                                   em_body := body |}]) w1.

(** [execute(context)].  Nothing is returned by the script; the final
    [processingResults] is handed back here so that it can be spoken about. *)
Definition execute (lib : Library) (h : Js.Host) (env : Surroundings) (w : World)
  : World * ProcessingResults :=
  let '(n0, w0) := consult w in
  let processingResults := initialResults (now env n0) in
  match loadAllConfigurations w0 with
  | Js.Return configurations =>
      let '(w1, results1, notificationEmails) :=
        configLoop lib h env configurations (w0, processingResults, []) in
      let '(n1, w2) := consult w1 in
      let results2 := finished (now env n1) results1 in
      (fold_left (fun w' emailAddr => sendNotificationEmail h env emailAddr results2 w')
                 notificationEmails w2,
       results2)
  | Js.Throw e =>
      let results1 := pushError ("Fatal error: " ++ Js.err_message e)%string processingResults in
      match loadConfiguration w0 with
      | Js.Return (Some config) =>
          if Js.truthy (cfg_notificationEmail config) then
            (sendNotificationEmail h env (Js.showOpt (cfg_notificationEmail config)) results1 w0,
             results1)
          else (w0, results1)
      | _ => (w0, results1)
      end
  end.

(** The script run once per element of [envs], each run starting from the
    account the previous one left. *)
Definition runs (lib : Library) (h : Js.Host) (envs : list Surroundings) (w : World)
  : World :=
  fold_left (fun w' env => fst (execute lib h env w')) envs w.

End Scheduled.

(* ===================================================================== *)
(** * windcave_settlement_suitelet: the actions of the dashboard *)
(* ===================================================================== *)

Module Suitelet.

Import Model.
Import Constants.
Import Reconciliation.

(** What [format.parse] hands back for a date field: a [Date], or the value
    it was given when that is no date. *)
Inductive Parsed : Type :=
| ParsedDate (d : WindcaveApi.Date)
| Unparsed.

(** What lies outside the account during one request: [format.parse], and
    the two calls of the Windcave API module, each answer indexed by the
    reading of [w_clock] at which it is asked for and by the arguments of
    the call. *)
Record Surroundings : Type := {
  formatParse : option string -> Js.completion Parsed;
  getSettlements :
    nat -> Config -> string -> string -> Js.completion (option (list Settlement));
  getSettlementDetails : nat -> Config -> string -> Js.completion SettlementDetails
}.

(** Calling a method of [Date] on what is no date. *)
Definition NOT_A_DATE : Js.Error :=
  {| Js.err_name := "TypeError"; Js.err_message := "date.getFullYear is not a function" |}.

(** [windcaveApi.formatDateForApi] applied to what [format.parse] gave. *)
Definition formatDateForApi (p : Parsed) : Js.completion string :=
  match p with
  | ParsedDate d => Js.Return (WindcaveApi.formatDateForApi d)
  | Unparsed => Js.Throw NOT_A_DATE
  end.

(** The [results] object of [performManualFetch]. *)
Record FetchResults : Type := {
  fr_settlementsProcessed : nat;
  fr_totalMatched : nat;
  fr_totalUnmatched : nat;
  fr_configurationsProcessed : nat
}.

Definition noResults : FetchResults :=
  {| fr_settlementsProcessed := 0; fr_totalMatched := 0; fr_totalUnmatched := 0;
     fr_configurationsProcessed := 0 |}.

(** The three updates made after a settlement is processed. *)
Definition fetchedOne (nMatched nUnmatched : nat) (r : FetchResults) : FetchResults :=
  {| fr_settlementsProcessed := S (fr_settlementsProcessed r);
     fr_totalMatched := fr_totalMatched r + nMatched;
     fr_totalUnmatched := fr_totalUnmatched r + nUnmatched;
     fr_configurationsProcessed := fr_configurationsProcessed r |}.

(** [results.configurationsProcessed++] *)
Definition fetchedConfiguration (r : FetchResults) : FetchResults :=
  {| fr_settlementsProcessed := fr_settlementsProcessed r;
     fr_totalMatched := fr_totalMatched r;
     fr_totalUnmatched := fr_totalUnmatched r;
     fr_configurationsProcessed := S (fr_configurationsProcessed r) |}.

(** One turn of [for (const settlement of settlements)] in
    [performManualFetch]; [Throw] is an exception of [getSettlementDetails]
    on its way to the [catch] of the configuration. *)
Definition fetchSettlement (lib : Scheduled.Library) (h : Js.Host) (env : Surroundings)
    (config : Config) (st : World * FetchResults) (settlement : Settlement)
  : Js.completion unit * (World * FetchResults) :=
  let '(w, results) := st in
  if negb (String.eqb (stl_status settlement) SETTLEMENT_STATUS.DONE) then
    (Js.Return tt, (w, results))
  else if isSettlementProcessed w (stl_id settlement) then
    (Js.Return tt, (w, results))
  else
    let '(n, w0) := Scheduled.consult w in
    match getSettlementDetails env n config (stl_id settlement) with
    | Js.Throw e => (Js.Throw e, (w0, results))
    | Js.Return settlementDetails =>
        let '(settlementInternalId, w1) := createSettlementRecord w0 settlementDetails in
        let transactions :=
          match sd_transactions settlementDetails with
          | Some l => l
          | None => []
          end in
        let '(w2, matchResults) :=
          Scheduled.matchTransactions lib h w1 transactions settlementInternalId in
        let matchedAmount :=
          fold_left (fun acc m => PrimFloat.add acc (txn_amount (mr_windcaveTxn m)))
                    (matched matchResults) 0%float in
        let '(bankDepositId, w3) :=
          if (String.eqb (stl_CRDR settlement) CRDR.CREDIT
              && Nat.ltb 0 (List.length (matched matchResults)))%bool then
            createBankDeposit w2 settlementDetails (matched matchResults)
                              (cfg_bankAccount config)
          else (None, w2) in
        let errorMessage :=
          if Nat.ltb 0 (List.length (unmatched matchResults)) then
            Some ("Unmatched: " ++ Js.natToString (List.length (unmatched matchResults))
                  ++ " transactions")%string
          else None in
        let w4 :=
          updateSettlementRecord w3 settlementInternalId
            (List.length (matched matchResults)) (List.length (unmatched matchResults))
            matchedAmount bankDepositId errorMessage in
        (Js.Return tt,
         (w4, fetchedOne (List.length (matched matchResults))
                         (List.length (unmatched matchResults)) results))
    end.

Fixpoint fetchSettlements (lib : Scheduled.Library) (h : Js.Host) (env : Surroundings)
    (config : Config) (settlements : list Settlement) (st : World * FetchResults)
  : Js.completion unit * (World * FetchResults) :=
  match settlements with
  | [] => (Js.Return tt, st)
  | settlement :: rest =>
      match fetchSettlement lib h env config st settlement with
      | (Js.Return _, st1) => fetchSettlements lib h env config rest st1
      | (Js.Throw e, st1) => (Js.Throw e, st1)
      end
  end.

(** One turn of [for (const config of configurations)]: the [try] block and
    its [catch], which logs the error and goes on to the next
    configuration. *)
Definition fetchConfiguration (lib : Scheduled.Library) (h : Js.Host) (env : Surroundings)
    (formattedStart formattedEnd : string)
    (st : World * FetchResults) (config : Config) : World * FetchResults :=
  let '(w, results) := st in
  let '(n, w1) := Scheduled.consult w in
  match getSettlements env n config formattedStart formattedEnd with
  | Js.Throw configError => (w1, results)
  | Js.Return settlementsResponse =>
      let settlements := match settlementsResponse with Some l => l | None => [] end in
      match fetchSettlements lib h env config settlements (w1, results) with
      | (Js.Return _, (w2, results2)) => (w2, fetchedConfiguration results2)
      | (Js.Throw configError, (w2, results2)) => (w2, results2)
      end
  end.

(** [performManualFetch(startDate, endDate, configId)]: the three arguments
    are request parameters, [None] when the parameter is missing. *)
Definition performManualFetch (lib : Scheduled.Library) (h : Js.Host) (env : Surroundings)
    (w : World) (startDate endDate configId : option string)
  : Js.completion FetchResults * World :=
  match formatParse env startDate with
  | Js.Throw e => (Js.Throw e, w)
  | Js.Return startDateObj =>
  match formatParse env endDate with
  | Js.Throw e => (Js.Throw e, w)
  | Js.Return endDateObj =>
  match formatDateForApi startDateObj with
  | Js.Throw e => (Js.Throw e, w)
  | Js.Return formattedStart =>
  match formatDateForApi endDateObj with
  | Js.Throw e => (Js.Throw e, w)
  | Js.Return formattedEnd =>
      let loaded :=
        if (match configId with Some c => String.eqb c "all" | None => false end
            || negb (Js.truthy configId))%bool
        then loadAllConfigurations w
        else
          match loadConfigurationById w (Js.showOpt configId) with
          | Js.Return singleConfig => Js.Return [singleConfig]
          | Js.Throw e => Js.Throw e
          end in
      match loaded with
      | Js.Throw e => (Js.Throw e, w)
      | Js.Return configurations =>
          let '(w', results) :=
            fold_left (fetchConfiguration lib h env formattedStart formattedEnd)
                      configurations (w, noResults) in
          (Js.Return results, w')
      end
  end end end end.

(** [manualMatchTransaction] of the copy of the library deployed. *)
Definition manualMatchTransaction (lib : Scheduled.Library) (h : Js.Host) (w : World)
    (txnDetailId : nat) (nsTransactionId : option string) : ManualMatchResult * World :=
  match lib with
  | Scheduled.FileCabinetLib => FileCabinet.manualMatchTransaction h w txnDetailId nsTransactionId
  | Scheduled.InstallDocLib => InstallDoc.manualMatchTransaction h w txnDetailId nsTransactionId
  end.

(** The parameters of the redirect back to the details page. *)
Record Redirect : Type := {
  rd_action : string;
  rd_settlementId : nat;
  rd_message : option string;
  rd_error : option string
}.

(** [handleManualMatch(context)] *)
Definition handleManualMatch (lib : Scheduled.Library) (h : Js.Host) (w : World)
    (txnDetailId : nat) (nsTransactionId : option string) (settlementId : nat)
  : Redirect * World :=
  let '(result, w') := manualMatchTransaction lib h w txnDetailId nsTransactionId in
  ({| rd_action := "viewdetails";
      rd_settlementId := settlementId;
      rd_message := match result with
                    | MatchSucceeded => Some "Transaction matched successfully"
                    | MatchFailed _ => None
                    end;
      rd_error := match result with
                  | MatchSucceeded => None
                  | MatchFailed e => e
                  end |}, w').

(** [handleCreateSupplementaryDeposit(context)]: the bank account is that of
    the first configuration [loadAllConfigurations] returns (it never
    returns an empty array). *)
Definition handleCreateSupplementaryDeposit (w : World) (settlementId : nat)
  : Redirect * World :=
  match loadAllConfigurations w with
  | Js.Throw e =>
      ({| rd_action := "viewdetails";
          rd_settlementId := settlementId;
          rd_message := None;
          rd_error := Some ("Could not load configuration: " ++ Js.err_message e)%string |},
       w)
  | Js.Return configs =>
      let bankAccountId := match configs with c :: _ => cfg_bankAccount c | [] => "" end in
      let '(result, w') := createSupplementaryDeposit w settlementId bankAccountId in
      ({| rd_action := "viewdetails";
          rd_settlementId := settlementId;
          rd_message := match result with
                        | Success _ paymentsAdded =>
                            Some ("Created supplementary deposit with "
                                  ++ Js.natToString paymentsAdded ++ " payment(s)")%string
                        | Failure _ => None
                        end;
          rd_error := match result with
                      | Success _ _ => None
                      | Failure e => Some e
                      end |}, w')
  end.

End Suitelet.

(* ===================================================================== *)
(** * Vocabulary of the statements, and the data of the worked scenarios *)
(* ===================================================================== *)

Import Model Constants Reconciliation.

(** The difference the validator compares with the tolerance. *)
Definition amountDiff (e : NsTransaction) (txn : WindcaveTxn) : float :=
  PrimFloat.abs (PrimFloat.sub (ns_amount e) (txn_amount txn)).

(** The reason given for an amount mismatch: both amounts are named. *)
Definition mismatchReason (h : Js.Host) (e : NsTransaction) (txn : WindcaveTxn) : string :=
  ERRORS.AMOUNT_MISMATCH ++ " (NS: " ++ Js.numberToString h (ns_amount e)
  ++ ", WC: " ++ Js.numberToString h (txn_amount txn) ++ ")".

(** The reason given when no entry was found: the three search keys. *)
Definition noMatchReason (txn : WindcaveTxn) : string :=
  ERRORS.NO_MATCHING_PAYMENT
  ++ " (searched: docNum=" ++ Js.orElse (txn_merchantReference txn) "none"
  ++ ", authCode=" ++ Js.orElse (txn_authCode txn) "none"
  ++ ", pnref=" ++ Js.orElse (txn_id txn) "none" ++ ")".

(** A ledger entry and a settlement line that differ only in what the
    examples vary: the amount and the undeposited-funds flag. *)
Definition entryOf (amount : float) (flag : Js.value) : NsTransaction :=
  {| ns_internalId := "5001"; ns_type := "CustPymt"; ns_tranId := "1001";
     ns_amount := amount; ns_currency := "NZD"; ns_status := "Not Deposited";
     ns_undepositedFunds := flag; ns_matchMethod := None |}.

Definition txnOf (amount : float) : WindcaveTxn :=
  {| txn_id := Some "T1"; txn_merchantReference := Some "1001";
     txn_amount := amount; txn_currency := "NZD";
     txn_type := TRANSACTION_TYPES.PURCHASE; txn_method := Some "Visa";
     txn_authCode := Some "A1B2C3" |}.

(** The amount rule alone: what both copies return once an entry is there
    and is held to be still in undeposited funds. *)
Definition amountRule (h : Js.Host) (e : NsTransaction) (txn : WindcaveTxn) : Validation :=
  if PrimFloat.ltb MISC.AMOUNT_TOLERANCE (amountDiff e txn)
  then {| isValid := false; error := Some (mismatchReason h e txn) |}
  else {| isValid := true; error := None |}.

(** A host whose number formatting is left blank, for the examples whose
    outcome does not depend on it. *)
Definition plainHost : Js.Host :=
  {| Js.numberToString := fun _ => "<number>";
     Js.toFixed2 := fun _ => "<number>";
     Js.formatDateTime := fun _ => "<date>" |}.

(** The rule of the specification for the candidates of the fallback: a
    single candidate is taken as it is; among several, the first whose
    amount is within the tolerance; otherwise none. *)
Definition firstChoice (amount : float) (candidates : list LedgerRow) : option LedgerRow :=
  match candidates with
  | [] => None
  | [only] => Some only
  | _ :: _ :: _ => find (InstallDoc.withinTolerance amount) candidates
  end.

Definition isRefund (t : WindcaveTxn) : bool :=
  String.eqb (txn_type t) TRANSACTION_TYPES.REFUND.

(** A lookup step logs calls for the line it is given, and only those. *)
Definition logsOnlyFor (locate : World -> WindcaveTxn -> option NsTransaction * World) : Prop :=
  forall w t, exists cs,
    w_calls (snd (locate w t)) = w_calls w ++ cs /\ Forall (fun c => subject c = t) cs.

(** What the whole loop adds: calls for lines that are not refunds, matched
    entries for lines that are not refunds, and an unmatched entry with the
    fixed reason for every refund. *)
Definition loopAdds (txns : list WindcaveTxn) (w0 w' : World) (res0 res' : MatchResults) : Prop :=
  (exists cs, w_calls w' = w_calls w0 ++ cs
              /\ Forall (fun c => isRefund (subject c) = false) cs)
  /\ (exists ms, matched res' = matched res0 ++ ms
                 /\ Forall (fun m => isRefund (mr_windcaveTxn m) = false) ms)
  /\ (exists us, unmatched res' = unmatched res0 ++ us
                 /\ Forall (fun u => isRefund (um_windcaveTxn u) = true ->
                                     um_error u = Some REFUND_REASON) us
                 /\ forall t, In t txns -> isRefund t = true ->
                      exists u, In u us /\ um_windcaveTxn u = t
                                /\ um_error u = Some REFUND_REASON).

(** The rows [linkDeposit] rewrites: in-deposit ticked, deposit reference set. *)
Definition markDeposited (depositId : nat) (ids : list nat) (row : nat * TxnDetailRec)
  : nat * TxnDetailRec :=
  if existsb (Nat.eqb (fst row)) ids
  then (fst row, td_withDeposit depositId (snd row))
  else row.

(** No payment line of a new deposit record belongs to a matched entry. *)
Definition noLineMatches (w : World) (matchedTransactions : list MatchResult) : Prop :=
  forall p m ns,
    In p (w_undeposited w) -> In m matchedTransactions ->
    mr_nsTransaction m = Some ns -> ns_internalId ns <> p.

(** A transaction detail of the settlement that is matched and not yet in
    a deposit. *)
Definition isPending (settlementInternalId : nat) (r : TxnDetailRec) : bool :=
  (Nat.eqb (td_parentSettlement r) settlementInternalId
   && td_matched r && negb (td_inDeposit r))%bool.

Definition sent (st : WindcaveApi.Net) : WindcaveApi.Net :=
  {| WindcaveApi.requests := S (WindcaveApi.requests st);
     WindcaveApi.waits := WindcaveApi.waits st |}.

(** One server error followed by three time-outs, then a good answer. *)
Definition flakyServer (n : nat) : WindcaveApi.HttpOutcome :=
  match n with
  | 0 => WindcaveApi.Responded 500 "error"
  | 1 | 2 | 3 => WindcaveApi.Raised WindcaveApi.timeoutError
  | _ => WindcaveApi.Responded 200 "{}"
  end.

(** The server errors and time-outs that draw the most requests. *)
Definition worstServer (n : nat) : WindcaveApi.HttpOutcome :=
  if existsb (Nat.eqb n) [0; 1; 2; 5; 8; 9; 12]
  then WindcaveApi.Responded 500 "error"
  else WindcaveApi.Raised WindcaveApi.timeoutError.

(** The Windcave settlement ids of the settlement records, a record each. *)
Definition externalIds (w : World) : list string :=
  map (fun r => sr_settlementId (snd r)) (w_settlements w).

(** How many settlement records carry a given Windcave settlement id. *)
Definition recordsFor (settlementId : string) (w : World) : nat :=
  count_occ string_dec (externalIds w) settlementId.

(** An operation that writes neither settlement records nor emails. *)
Definition keeps (w w' : World) : Prop :=
  w_settlements w' = w_settlements w /\ w_outbox w' = w_outbox w
  /\ w_configs w' = w_configs w.

(** The API answers with the settlement it was asked for. *)
Definition answersWhatIsAsked (env : Scheduled.Surroundings) : Prop :=
  forall n config settlementId d,
    Scheduled.getSettlementDetails env n config settlementId = Js.Return d ->
    sd_id d = settlementId.

(** No two settlement records carry the same Windcave settlement id. *)
Definition atMostOnce (w : World) : Prop := NoDup (externalIds w).

(** What the coordinator's steps leave alone: the emails and the
    configurations; and what they maintain when the API answers with the
    settlement it was asked for: [atMostOnce]. *)
Definition steady (env : Scheduled.Surroundings) (w w' : World) : Prop :=
  w_outbox w' = w_outbox w /\ w_configs w' = w_configs w
  /\ (answersWhatIsAsked env -> atMostOnce w -> atMostOnce w').

(** The summary a run sends to one address. *)
Definition summaryFor (h : Js.Host) (results : Scheduled.ProcessingResults)
    (address : string) : Email :=
  {| em_recipient := address;
     em_subject := Scheduled.emailSubject results;
     em_body := Scheduled.emailBody h results |}.

(** The scenario of the specification: settlement [S1] of 2024-01-05,
    status [Done], a credit, with the purchase [T1] (100.00, reference
    "1001") and the refund [T2] (20.00); the ledger holds the payment [E1]
    (document number "1001", 100.00, in undeposited funds). *)
Definition T1 : WindcaveTxn :=
  {| txn_id := Some "T1"; txn_merchantReference := Some "1001";
     txn_amount := 100.00%float; txn_currency := "NZD";
     txn_type := TRANSACTION_TYPES.PURCHASE; txn_method := Some "Visa";
     txn_authCode := Some "A1B2C3" |}.

Definition T2 : WindcaveTxn :=
  {| txn_id := Some "T2"; txn_merchantReference := Some "1001";
     txn_amount := 20.00%float; txn_currency := "NZD";
     txn_type := TRANSACTION_TYPES.REFUND; txn_method := Some "Visa";
     txn_authCode := None |}.

Definition E1 : LedgerRow :=
  {| lr_kind := CustPymt; lr_mainline := true; lr_internalid := "5001";
     lr_type := "CustPymt"; lr_tranid := "1001"; lr_amount := 100.00%float;
     lr_currency := "NZD"; lr_status := "Not Deposited";
     lr_account := Some "Undeposited Funds"; lr_undepfunds := Js.Str "T";
     lr_authcode := None; lr_pnrefnum := None |}.

Definition S1 : Settlement :=
  {| stl_id := "S1"; stl_status := SETTLEMENT_STATUS.DONE;
     stl_amount := 80.00%float; stl_currency := "NZD"; stl_CRDR := CRDR.CREDIT |}.

Definition detailsOf (settlementId : string) : SettlementDetails :=
  {| sd_id := settlementId; sd_settlementDate := "2024-01-05";
     sd_amount := 80.00%float; sd_currency := "NZD";
     sd_status := SETTLEMENT_STATUS.DONE; sd_CRDR := CRDR.CREDIT;
     sd_referenceNumber := Some "REF-1"; sd_merchantId := "M-1";
     sd_customerId := None; sd_transactions := Some [T1; T2] |}.

Definition opsConfig (merchantId : string) : ConfigRec :=
  {| cr_isActive := true; cr_apiUsername := "user"; cr_apiPassword := "key";
     cr_merchantId := merchantId; cr_customerId := None; cr_environment := "uat";
     cr_bankAccount := "210"; cr_lookbackDays := Some 3;
     cr_notificationEmail := Some "ops@x.com" |}.

Definition scenarioWorld : World :=
  {| w_configs := [(1, opsConfig "M-1")];
     w_ledger := [E1];
     w_authSearchAvailable := true;
     w_undeposited := ["5001"];
     w_settlements := [];
     w_txnDetails := [];
     w_deposits := [];
     w_nextId := 100;
     w_calls := [];
     w_outbox := [];
     w_clock := 0 |}.

(** Ample governance, an API that lists [S1] on every run, an email
    service that works. *)
Definition scenarioEnv : Scheduled.Surroundings :=
  {| Scheduled.remainingUsage := fun _ => 10000%Z;
     Scheduled.now := fun n => (1000 * Z.of_nat n)%Z;
     Scheduled.getSettlements := fun _ _ => Js.Return (Some [S1]);
     Scheduled.getSettlementDetails := fun _ _ settlementId => Js.Return (detailsOf settlementId);
     Scheduled.emailSendThrows := fun _ => false |}.

(** An API that answers every request for a settlement with [S9]. *)
Definition confusedEnv : Scheduled.Surroundings :=
  {| Scheduled.remainingUsage := fun _ => 10000%Z;
     Scheduled.now := fun n => (1000 * Z.of_nat n)%Z;
     Scheduled.getSettlements := fun _ _ => Js.Return (Some [S1]);
     Scheduled.getSettlementDetails := fun _ _ _ => Js.Return (detailsOf "S9");
     Scheduled.emailSendThrows := fun _ => false |}.

(** [T1] matched to [E1] under transaction detail 101. *)
Definition matchedT1 : MatchResult :=
  {| mr_txnDetailId := 101; mr_windcaveTxn := T1;
     mr_nsTransaction := Some (InstallDoc.toNsTransaction None E1) |}.

Definition detailT1 (inDeposit : bool) : TxnDetailRec :=
  {| td_name := "T1 - 1001"; td_parentSettlement := 100;
     td_transactionId := Some "T1"; td_merchantReference := "1001";
     td_amount := 100.00%float; td_currency := "NZD";
     td_type := TRANSACTION_TYPES.PURCHASE; td_method := "Visa"; td_authCode := "A1B2C3";
     td_nsTransaction := Some "5001"; td_matched := true; td_matchError := None;
     td_inDeposit := inDeposit; td_bankDeposit := None |}.

Definition recordS1 : SettlementRec :=
  {| sr_name := "S1 - 2024-01-05"; sr_settlementId := "S1";
     sr_settlementDate := "2024-01-05"; sr_amount := 80.00%float; sr_currency := "NZD";
     sr_status := SETTLEMENT_STATUS.DONE; sr_crdr := CRDR.CREDIT;
     sr_referenceNumber := "REF-1"; sr_merchantId := "M-1"; sr_customerId := "";
     sr_matchedCount := Some 1; sr_unmatchedCount := Some 1;
     sr_matchedAmount := Some 100.00%float; sr_processed := true;
     sr_bankDeposit := None; sr_errorMessage := None |}.

(** The account after matching, when [E1] has meanwhile been deposited by
    someone else: undeposited funds hold another payment only. *)
Definition racedWorld : World :=
  {| w_configs := [(1, opsConfig "M-1")];
     w_ledger := [E1];
     w_authSearchAvailable := true;
     w_undeposited := ["7777"];
     w_settlements := [(100, recordS1)];
     w_txnDetails := [(101, detailT1 false)];
     w_deposits := [];
     w_nextId := 103;
     w_calls := [];
     w_outbox := [];
     w_clock := 0 |}.

(** Two active configurations that share the address [ops@x.com], and
    surroundings in which the API lists nothing. *)
Definition sharedWorld : World :=
  {| w_configs := [(1, opsConfig "M-1"); (2, opsConfig "M-2")];
     w_ledger := []; w_authSearchAvailable := true; w_undeposited := [];
     w_settlements := []; w_txnDetails := []; w_deposits := [];
     w_nextId := 100; w_calls := []; w_outbox := []; w_clock := 0 |}.

Definition quietEnv : Scheduled.Surroundings :=
  {| Scheduled.remainingUsage := fun _ => 10000%Z;
     Scheduled.now := fun n => (1000 * Z.of_nat n)%Z;
     Scheduled.getSettlements := fun _ _ => Js.Return (Some []);
     Scheduled.getSettlementDetails := fun _ _ settlementId => Js.Return (detailsOf settlementId);
     Scheduled.emailSendThrows := fun _ => false |}.

(** Payments that carry the auth code of [T9], a line whose reference
    "9999" is no payment's document number. *)
Definition byAuth (internalid : string) (amount : float) : LedgerRow :=
  {| lr_kind := CustPymt; lr_mainline := true; lr_internalid := internalid;
     lr_type := "CustPymt"; lr_tranid := internalid; lr_amount := amount;
     lr_currency := "NZD"; lr_status := "Not Deposited";
     lr_account := Some "Undeposited Funds"; lr_undepfunds := Js.Str "T";
     lr_authcode := Some "A1B2C3"; lr_pnrefnum := None |}.

Definition ledgerWorld (ledger : list LedgerRow) : World :=
  {| w_configs := []; w_ledger := ledger; w_authSearchAvailable := true;
     w_undeposited := []; w_settlements := []; w_txnDetails := []; w_deposits := [];
     w_nextId := 100; w_calls := []; w_outbox := []; w_clock := 0 |}.

Definition T9 : WindcaveTxn :=
  {| txn_id := Some "T9"; txn_merchantReference := Some "9999";
     txn_amount := 100.00%float; txn_currency := "NZD";
     txn_type := TRANSACTION_TYPES.PURCHASE; txn_method := Some "Visa";
     txn_authCode := Some "A1B2C3" |}.

(** ** What the engine writes and reports *)

(** The transaction detail [createTransactionDetailRecord] saves for a
    settlement line, before any match is written to it. *)
Definition newDetail (transactionData : WindcaveTxn) (settlementInternalId : nat) : TxnDetailRec :=
  {| td_name := Js.showOpt (txn_id transactionData) ++ " - "
                ++ Js.orElse (txn_merchantReference transactionData) "No Ref";
     td_parentSettlement := settlementInternalId;
     td_transactionId := txn_id transactionData;
     td_merchantReference := Js.orElse (txn_merchantReference transactionData) "";
     td_amount := txn_amount transactionData;
     td_currency := txn_currency transactionData;
     td_type := txn_type transactionData;
     td_method := Js.orElse (txn_method transactionData) "";
     td_authCode := Js.orElse (txn_authCode transactionData) "";
     td_nsTransaction := None;
     td_matched := false;
     td_matchError := None;
     td_inDeposit := false;
     td_bankDeposit := None |}.

(** The entry look-up of the loop body, of the copy of the library
    deployed. *)
Definition locateOf (lib : Scheduled.Library)
  : World -> WindcaveTxn -> option NsTransaction * World :=
  match lib with
  | Scheduled.FileCabinetLib => FileCabinet.locate
  | Scheduled.InstallDocLib => InstallDoc.locate
  end.

(** The validator of the copy of the library deployed. *)
Definition validateOf (lib : Scheduled.Library) (h : Js.Host)
  : option NsTransaction -> WindcaveTxn -> Validation :=
  match lib with
  | Scheduled.FileCabinetLib => FileCabinet.validatePaymentForDeposit h
  | Scheduled.InstallDocLib => InstallDoc.validatePaymentForDeposit h
  end.

(** The ledger entry the look-up finds for a line in a given account. *)
Definition entryFor (lib : Scheduled.Library) (w : World) (t : WindcaveTxn)
  : option NsTransaction := fst (locateOf lib w t).

(** What the validator says of a line and the entry found for it. *)
Definition verdict (lib : Scheduled.Library) (h : Js.Host) (w : World) (t : WindcaveTxn)
  : Validation := validateOf lib h (entryFor lib w t) t.

(** A line that is no refund and whose entry passes the validator. *)
Definition autoMatched (lib : Scheduled.Library) (h : Js.Host) (w : World) (t : WindcaveTxn)
  : bool := (negb (isRefund t) && isValid (verdict lib h w t))%bool.

(** The transaction detail of a line once the loop is through with it:
    a refund is left as it was saved, a valid match gets the entry and the
    matched flag, any other line gets the reason of the validator. *)
Definition settledDetail (lib : Scheduled.Library) (h : Js.Host) (w : World) (sid : nat)
    (t : WindcaveTxn) : TxnDetailRec :=
  if isRefund t then newDetail t sid
  else if isValid (verdict lib h w t)
       then td_withMatch (option_map ns_internalId (entryFor lib w t)) (newDetail t sid)
       else td_withMatchError (error (verdict lib h w t)) (newDetail t sid).

(** The entries of the two arrays of the result, for a line saved under
    a given internal id. *)
Definition matchedEntry (lib : Scheduled.Library) (w : World) (p : nat * WindcaveTxn)
  : MatchResult :=
  {| mr_txnDetailId := fst p; mr_windcaveTxn := snd p;
     mr_nsTransaction := entryFor lib w (snd p) |}.

Definition unmatchedEntry (lib : Scheduled.Library) (h : Js.Host) (w : World)
    (p : nat * WindcaveTxn) : UnmatchResult :=
  {| um_txnDetailId := fst p; um_windcaveTxn := snd p;
     um_error := if isRefund (snd p) then Some REFUND_REASON
                 else error (verdict lib h w (snd p)) |}.

(** The lines with the internal ids their transaction details are saved
    under: consecutive ids from the next free one. *)
Definition numbered (w : World) (txns : list WindcaveTxn) : list (nat * WindcaveTxn) :=
  combine (seq (w_nextId w) (List.length txns)) txns.

(** Every transaction detail on record has an internal id below the
    next free one. *)
Definition freshIds (w : World) : Prop :=
  forall id r, In (id, r) (w_txnDetails w) -> id < w_nextId w.

(** Two accounts in which the searches of the ledger give the same. *)
Definition sameLedger (w w' : World) : Prop :=
  w_ledger w' = w_ledger w /\ w_authSearchAvailable w' = w_authSearchAvailable w.

(** The settlement has no transaction detail yet. *)
Definition noDetailsOf (sid : nat) (w : World) : Prop :=
  forall id r, In (id, r) (w_txnDetails w) -> td_parentSettlement r <> sid.

(** [findNetSuiteTransaction] of the copy of the library deployed. *)
Definition finderOf (lib : Scheduled.Library) : World -> option string -> option NsTransaction :=
  match lib with
  | Scheduled.FileCabinetLib => FileCabinet.findNetSuiteTransaction
  | Scheduled.InstallDocLib => InstallDoc.findNetSuiteTransaction
  end.

(** A payment line for which a pending transaction detail was found. *)
Definition found (o : option nat) : bool :=
  match o with Some _ => true | None => false end.

(** ** The counters of a run *)

(** What a stretch of a run from account [w0] and counters [r0] to [w]
    and [r] has written, against what it has counted: as many settlement
    records as settlements processed, as many transaction details as lines
    matched and unmatched, and (ids starting above zero) as many deposits
    as deposits counted. *)
Definition booksBalance (w0 : World) (r0 : Scheduled.ProcessingResults)
    (w : World) (r : Scheduled.ProcessingResults) : Prop :=
  List.length (w_settlements w) + Scheduled.pr_settlementsProcessed r0
  = List.length (w_settlements w0) + Scheduled.pr_settlementsProcessed r
  /\ List.length (w_txnDetails w)
     + (Scheduled.pr_totalMatched r0 + Scheduled.pr_totalUnmatched r0)
     = List.length (w_txnDetails w0)
       + (Scheduled.pr_totalMatched r + Scheduled.pr_totalUnmatched r)
  /\ w_nextId w0 <= w_nextId w
  /\ (0 < w_nextId w0 ->
      List.length (w_deposits w) + Scheduled.pr_depositsCreated r0
      = List.length (w_deposits w0) + Scheduled.pr_depositsCreated r).



(** What the loop over [n] settlements of one configuration does to the
    totals [r] and to the counters [cr] of the configuration: both move
    by the same amounts, and at most [n] settlements are counted as
    processed or skipped. *)
Definition advance (n : nat) (r : Scheduled.ProcessingResults) (cr : Scheduled.ConfigResult)
    (r' : Scheduled.ProcessingResults) (cr' : Scheduled.ConfigResult) : Prop :=
  Scheduled.pr_configResults r' = Scheduled.pr_configResults r
  /\ Scheduled.pr_settlementsFound r' = Scheduled.pr_settlementsFound r
  /\ Scheduled.cres_settlementsFound cr' = Scheduled.cres_settlementsFound cr
  /\ Scheduled.pr_settlementsProcessed r' + Scheduled.cres_settlementsProcessed cr
     = Scheduled.pr_settlementsProcessed r + Scheduled.cres_settlementsProcessed cr'
  /\ Scheduled.pr_totalMatched r' + Scheduled.cres_matched cr
     = Scheduled.pr_totalMatched r + Scheduled.cres_matched cr'
  /\ Scheduled.pr_totalUnmatched r' + Scheduled.cres_unmatched cr
     = Scheduled.pr_totalUnmatched r + Scheduled.cres_unmatched cr'
  /\ Scheduled.pr_settlementsProcessed r' + Scheduled.pr_settlementsSkipped r'
     <= Scheduled.pr_settlementsProcessed r + Scheduled.pr_settlementsSkipped r + n
  /\ Scheduled.pr_settlementsProcessed r <= Scheduled.pr_settlementsProcessed r'
  /\ Scheduled.pr_settlementsSkipped r <= Scheduled.pr_settlementsSkipped r'
  /\ Scheduled.pr_depositsCreated r <= Scheduled.pr_depositsCreated r'
  /\ Scheduled.pr_depositsCreated r' + Scheduled.pr_settlementsProcessed r
     <= Scheduled.pr_depositsCreated r + Scheduled.pr_settlementsProcessed r'.

(** ** The manual fetch *)

(** The API answers a manual fetch with the settlement it was asked
    for. *)
Definition fetchAnswersWhatIsAsked (env : Suitelet.Surroundings) : Prop :=
  forall n config settlementId d,
    Suitelet.getSettlementDetails env n config settlementId = Js.Return d ->
    sd_id d = settlementId.

(** What one settlement of a manual fetch does to the tables, to the
    counters and to the Windcave settlement ids on record. *)
Definition fetchBalance (w0 : World) (r0 : Suitelet.FetchResults)
    (w : World) (r : Suitelet.FetchResults) : Prop :=
  List.length (w_settlements w) + Suitelet.fr_settlementsProcessed r0
  = List.length (w_settlements w0) + Suitelet.fr_settlementsProcessed r
  /\ List.length (w_txnDetails w)
     + (Suitelet.fr_totalMatched r0 + Suitelet.fr_totalUnmatched r0)
     = List.length (w_txnDetails w0)
       + (Suitelet.fr_totalMatched r + Suitelet.fr_totalUnmatched r)
  /\ w_outbox w = w_outbox w0
  /\ w_configs w = w_configs w0.

(** The two ways settlements are fetched: a run of the scheduled script,
    and a manual fetch from the dashboard. *)
Inductive Operation : Type :=
| ScheduledRun (env : Scheduled.Surroundings)
| ManualFetch (env : Suitelet.Surroundings) (startDate endDate configId : option string).

(** The API answers the operation with the settlements it asks for. *)
Definition wellAnswered (op : Operation) : Prop :=
  match op with
  | ScheduledRun env => answersWhatIsAsked env
  | ManualFetch env _ _ _ => fetchAnswersWhatIsAsked env
  end.

(** The account after an operation. *)
Definition perform (lib : Scheduled.Library) (h : Js.Host) (w : World) (op : Operation)
  : World :=
  match op with
  | ScheduledRun env => fst (Scheduled.execute lib h env w)
  | ManualFetch env startDate endDate configId =>
      snd (Suitelet.performManualFetch lib h env w startDate endDate configId)
  end.

(** ** The requests of the API module *)

(** The characters that give a URL its structure: the separators of path
    segments, of the query, of the fragment and of the parameters, and the
    space. *)
Definition isDelimiter (c : ascii) : bool :=
  existsb (Ascii.eqb c) ["/"; "?"; "#"; "&"; "="; "+"; ":"; ";"; "@"; ","; "$"; " "]%char.

(** No character of the string is one of them. *)
Fixpoint noDelimiter (s : string) : bool :=
  match s with
  | EmptyString => true
  | String c r => (negb (isDelimiter c) && noDelimiter r)%bool
  end.

(** The name of the parameter that carries the id in the query of
    [getSettlements]. *)
Definition idParameter (options : WindcaveApi.SettlementsOptions) : string :=
  if Js.truthy (WindcaveApi.gs_customerId options) then "customerId" else "merchantId".

(** A date of the calendar, with a year of four digits. *)
Definition calendarDate (date : WindcaveApi.Date) : Prop :=
  (1000 <= WindcaveApi.getFullYear date <= 9999)%Z
  /\ WindcaveApi.getMonth date < 12
  /\ 1 <= WindcaveApi.getDate date <= 31.

(** ** Data of the worked scenarios of the dashboard *)

(** The account after matching, with [E1] still in undeposited funds
    beside another payment: [T1] is pending deposit. *)
Definition pendingWorld : World :=
  {| w_configs := [(1, opsConfig "M-1")];
     w_ledger := [E1];
     w_authSearchAvailable := true;
     w_undeposited := ["7777"; "5001"];
     w_settlements := [(100, recordS1)];
     w_txnDetails := [(101, detailT1 false)];
     w_deposits := [];
     w_nextId := 103;
     w_calls := [];
     w_outbox := [];
     w_clock := 0 |}.

(** The same account with [T1] saved but not matched. *)
Definition openWorld : World := set_txnDetails [(101, newDetail T1 100)] pendingWorld.

(** Surroundings in which the governance meter is nearly used up. *)
Definition tiredEnv : Scheduled.Surroundings :=
  {| Scheduled.remainingUsage := fun _ => 500%Z;
     Scheduled.now := fun n => (1000 * Z.of_nat n)%Z;
     Scheduled.getSettlements := fun _ _ => Js.Return (Some [S1]);
     Scheduled.getSettlementDetails := fun _ _ settlementId => Js.Return (detailsOf settlementId);
     Scheduled.emailSendThrows := fun _ => false |}.

(** The surroundings of a request to the dashboard: every date field
    parses to 5 January 2024, and the API lists [S1]. *)
Definition dashboardEnv : Suitelet.Surroundings :=
  {| Suitelet.formatParse :=
       fun _ => Js.Return (Suitelet.ParsedDate
                             {| WindcaveApi.getFullYear := 2024;
                                WindcaveApi.getMonth := 0;
                                WindcaveApi.getDate := 5 |});
     Suitelet.getSettlements := fun _ _ _ _ => Js.Return (Some [S1]);
     Suitelet.getSettlementDetails :=
       fun _ _ settlementId => Js.Return (detailsOf settlementId) |}.

(** A configuration that has been switched off. *)
Definition retiredConfig : ConfigRec :=
  {| cr_isActive := false; cr_apiUsername := "user"; cr_apiPassword := "key";
     cr_merchantId := "M-0"; cr_customerId := None; cr_environment := "sec";
     cr_bankAccount := "205"; cr_lookbackDays := None;
     cr_notificationEmail := None |}.

Definition retiredWorld : World :=
  {| w_configs := [(1, opsConfig "M-1"); (2, retiredConfig)];
     w_ledger := []; w_authSearchAvailable := true; w_undeposited := [];
     w_settlements := []; w_txnDetails := []; w_deposits := [];
     w_nextId := 100; w_calls := []; w_outbox := []; w_clock := 0 |}.

(** The options of a call of [getSettlements] that names no one. *)
Definition anonymousOptions : WindcaveApi.SettlementsOptions :=
  {| WindcaveApi.gs_username := "user"; WindcaveApi.gs_password := "key";
     WindcaveApi.gs_environment := "uat";
     WindcaveApi.gs_merchantId := Some ""; WindcaveApi.gs_customerId := None;
     WindcaveApi.gs_startDate := "2024-01-01"; WindcaveApi.gs_endDate := "2024-01-05" |}.

(** Surroundings in which the API refuses the merchant [M-1] and lists
    nothing for the others. *)
Definition refusingEnv : Scheduled.Surroundings :=
  {| Scheduled.remainingUsage := fun _ => 10000%Z;
     Scheduled.now := fun n => (1000 * Z.of_nat n)%Z;
     Scheduled.getSettlements :=
       fun _ config =>
         if String.eqb (cfg_merchantId config) "M-1"
         then Js.Throw (Js.newError "Windcave API authentication failed: denied")
         else Js.Return (Some []);
     Scheduled.getSettlementDetails := fun _ _ settlementId => Js.Return (detailsOf settlementId);
     Scheduled.emailSendThrows := fun _ => false |}.

(* ===================================================================== *)
(** * Properties *)
(* ===================================================================== *)

(** ** Comparisons of binary64 numbers *)

Lemma compare_cont_Eq_antisym (p q : positive) :
  PosDef.Pos.compare_cont Eq q p = CompOpp (PosDef.Pos.compare_cont Eq p q).
Proof.
  change (PosDef.Pos.compare_cont Eq q p) with (Pos.compare_cont (CompOpp Eq) q p).
  change (PosDef.Pos.compare_cont Eq p q) with (Pos.compare_cont Eq p q).
  symmetry. apply Pos.compare_cont_antisym.
Qed.

Lemma SFcompare_antisym (a b : spec_float) (c : comparison) :
  SFcompare a b = Some c -> SFcompare b a = Some (CompOpp c).
Proof.
  destruct a as [sa|sa| |sa ma ea], b as [sb|sb| |sb mb eb]; simpl; intros H;
    try discriminate; try (injection H as <-);
    try (destruct sa; reflexivity); try (destruct sb; reflexivity);
    try (destruct sa, sb; reflexivity).
  destruct sa, sb; try reflexivity;
    rewrite (Z.compare_antisym ea eb); destruct (ea ?= eb)%Z; simpl; try reflexivity;
    rewrite (compare_cont_Eq_antisym ma mb);
    destruct (PosDef.Pos.compare_cont Eq ma mb); reflexivity.
Qed.

Lemma SFcompare_None (a b : spec_float) :
  SFcompare a b = None <-> (a = S754_nan \/ b = S754_nan).
Proof.
  destruct a as [sa|sa| |sa ma ea], b as [sb|sb| |sb mb eb]; simpl;
    split; intros H; try discriminate; auto; destruct H; discriminate.
Qed.

Lemma is_nan_spec (x : float) : PrimFloat.is_nan x = true <-> Prim2SF x = S754_nan.
Proof.
  unfold PrimFloat.is_nan. rewrite FloatAxioms.eqb_spec. unfold SFeqb.
  destruct (Prim2SF x) as [sa|sa| |sa ma ea]; simpl.
  - split; discriminate.
  - split; [|discriminate]. destruct sa; discriminate.
  - split; reflexivity.
  - split; [|discriminate].
    destruct sa; rewrite ?Z.compare_refl; simpl.
    all: change (PosDef.Pos.compare_cont Eq ma ma) with (Pos.compare ma ma);
      rewrite Pos.compare_refl; discriminate.
Qed.

(** For numbers that are not [NaN], [x <= y] is the negation of [y < x];
    with a [NaN] on either side both comparisons are [false]. *)
Lemma leb_is_not_gt (x y : float) :
  PrimFloat.is_nan x = false -> PrimFloat.is_nan y = false ->
  PrimFloat.leb x y = negb (PrimFloat.ltb y x).
Proof.
  intros Hx Hy. rewrite leb_spec, ltb_spec. unfold SFleb, SFltb.
  destruct (SFcompare (Prim2SF x) (Prim2SF y)) as [c|] eqn:E.
  - rewrite (SFcompare_antisym _ _ _ E). destruct c; reflexivity.
  - apply SFcompare_None in E. destruct E as [E|E]; apply is_nan_spec in E; congruence.
Qed.

Lemma nan_compares_false (x y : float) :
  PrimFloat.is_nan x = true ->
  PrimFloat.leb x y = false /\ PrimFloat.ltb y x = false.
Proof.
  intros Hx. apply is_nan_spec in Hx.
  rewrite leb_spec, ltb_spec. unfold SFleb, SFltb. rewrite Hx. simpl.
  destruct (Prim2SF y); auto.
Qed.

(** ** The match validator *)

Lemma strictEqStr_true (v : Js.value) (s : string) :
  Js.strictEqStr v s = true <-> v = Js.Str s.
Proof.
  destruct v; simpl; try (split; discriminate).
  rewrite String.eqb_eq. split; [intros ->; reflexivity | intros H; injection H; auto].
Qed.

Lemma strictEqStr_false (v : Js.value) (s : string) :
  Js.strictEqStr v s = false <-> v <> Js.Str s.
Proof.
  rewrite <- strictEqStr_true. destruct (Js.strictEqStr v s); split; congruence.
Qed.

(** C2.  The validator of the copy after INSTALL.md applies its rules in a
    fixed order and the first failure decides: no entry gives the
    no-matching-payment reason with the three search keys; otherwise an
    entry whose flag is ['F'] gives the already-deposited reason, whatever
    the amounts are; otherwise a difference above the tolerance gives the
    amount-mismatch reason naming both amounts; otherwise the result is
    valid and carries no error. *)
Theorem validatePaymentForDeposit_first_failure_wins :
  forall (h : Js.Host) (txn : WindcaveTxn),
    InstallDoc.validatePaymentForDeposit h None txn
      = {| isValid := false; error := Some (noMatchReason txn) |}
    /\ forall e : NsTransaction,
        (ns_undepositedFunds e = Js.Str "F" ->
         InstallDoc.validatePaymentForDeposit h (Some e) txn
           = {| isValid := false;
                error := Some (ERRORS.PAYMENT_ALREADY_DEPOSITED
                               ++ " (Payment #" ++ ns_tranId e ++ ")")%string |})
        /\ (ns_undepositedFunds e <> Js.Str "F" ->
            PrimFloat.ltb MISC.AMOUNT_TOLERANCE (amountDiff e txn) = true ->
            InstallDoc.validatePaymentForDeposit h (Some e) txn
              = {| isValid := false; error := Some (mismatchReason h e txn) |})
        /\ (ns_undepositedFunds e <> Js.Str "F" ->
            PrimFloat.ltb MISC.AMOUNT_TOLERANCE (amountDiff e txn) = false ->
            InstallDoc.validatePaymentForDeposit h (Some e) txn
              = {| isValid := true; error := None |}).
Proof.
  intros h txn. split; [reflexivity|].
  intros e. unfold InstallDoc.validatePaymentForDeposit, amountDiff, mismatchReason.
  repeat split.
  - intros Hf. apply strictEqStr_true in Hf. rewrite Hf. reflexivity.
  - intros Hf Hd. apply strictEqStr_false in Hf. rewrite Hf.
    cbv zeta. rewrite Hd. reflexivity.
  - intros Hf Hd. apply strictEqStr_false in Hf. rewrite Hf.
    cbv zeta. rewrite Hd. reflexivity.
Qed.

(** The copy under FileCabinet applies the same rules in the same order;
    its first two reasons are the bare constants. *)
Lemma FileCabinet_validatePaymentForDeposit_order :
  forall (h : Js.Host) (txn : WindcaveTxn),
    FileCabinet.validatePaymentForDeposit h None txn
      = {| isValid := false; error := Some ERRORS.NO_MATCHING_PAYMENT |}
    /\ forall e : NsTransaction,
        (ns_undepositedFunds e = Js.Str "F" ->
         FileCabinet.validatePaymentForDeposit h (Some e) txn
           = {| isValid := false; error := Some ERRORS.PAYMENT_ALREADY_DEPOSITED |})
        /\ (ns_undepositedFunds e <> Js.Str "F" ->
            FileCabinet.validatePaymentForDeposit h (Some e) txn
              = if PrimFloat.ltb MISC.AMOUNT_TOLERANCE (amountDiff e txn)
                then {| isValid := false; error := Some (mismatchReason h e txn) |}
                else {| isValid := true; error := None |}).
Proof.
  intros h txn. split; [reflexivity|].
  intros e. unfold FileCabinet.validatePaymentForDeposit, amountDiff, mismatchReason.
  split.
  - intros Hf. apply strictEqStr_true in Hf. rewrite Hf. reflexivity.
  - intros Hf. apply strictEqStr_false in Hf. rewrite Hf. reflexivity.
Qed.

(** Both copies agree on validity, and a missing entry is never valid. *)
Lemma validators_agree (h : Js.Host) (o : option NsTransaction) (txn : WindcaveTxn) :
  isValid (FileCabinet.validatePaymentForDeposit h o txn)
  = isValid (InstallDoc.validatePaymentForDeposit h o txn).
Proof.
  destruct o as [e|]; [|reflexivity].
  unfold FileCabinet.validatePaymentForDeposit, InstallDoc.validatePaymentForDeposit.
  destruct (Js.strictEqStr (ns_undepositedFunds e) "F"); [reflexivity|].
  cbv zeta.
  destruct (PrimFloat.ltb MISC.AMOUNT_TOLERANCE
              (PrimFloat.abs (PrimFloat.sub (ns_amount e) (txn_amount txn)))); reflexivity.
Qed.

(** For an entry that is there and is not flagged ['F'], both copies hold
    the match valid exactly when "difference > tolerance" is false. *)
Lemma validity_is_not_above_tolerance (h : Js.Host) (e : NsTransaction) (txn : WindcaveTxn) :
  ns_undepositedFunds e <> Js.Str "F" ->
  isValid (FileCabinet.validatePaymentForDeposit h (Some e) txn)
    = negb (PrimFloat.ltb MISC.AMOUNT_TOLERANCE (amountDiff e txn))
  /\ isValid (InstallDoc.validatePaymentForDeposit h (Some e) txn)
    = negb (PrimFloat.ltb MISC.AMOUNT_TOLERANCE (amountDiff e txn)).
Proof.
  intros Hf. rewrite <- validators_agree.
  destruct (FileCabinet_validatePaymentForDeposit_order h txn) as [_ H].
  destruct (H e) as [_ ->]; [|exact Hf].
  destruct (PrimFloat.ltb MISC.AMOUNT_TOLERANCE (amountDiff e txn)); split; reflexivity.
Qed.

(** When the computed difference is a number, that is the same as
    "difference <= tolerance". *)
Lemma validity_is_within_tolerance (h : Js.Host) (e : NsTransaction) (txn : WindcaveTxn) :
  ns_undepositedFunds e <> Js.Str "F" ->
  PrimFloat.is_nan (amountDiff e txn) = false ->
  isValid (FileCabinet.validatePaymentForDeposit h (Some e) txn)
    = PrimFloat.leb (amountDiff e txn) MISC.AMOUNT_TOLERANCE
  /\ isValid (InstallDoc.validatePaymentForDeposit h (Some e) txn)
    = PrimFloat.leb (amountDiff e txn) MISC.AMOUNT_TOLERANCE.
Proof.
  intros Hf Hn.
  destruct (validity_is_not_above_tolerance h e txn Hf) as [-> ->].
  rewrite (leb_is_not_gt _ _ Hn); [split; reflexivity | reflexivity].
Qed.

(** A computed difference equal to the tolerance passes, one of 0.0101 does
    not: 0.02 against 0.01, and 0.0101 against 0. *)
Lemma tolerance_boundary_of_computed_difference (h : Js.Host) :
  amountDiff (entryOf 0.02 (Js.Str "T")) (txnOf 0.01) = MISC.AMOUNT_TOLERANCE
  /\ isValid (InstallDoc.validatePaymentForDeposit h
                (Some (entryOf 0.02 (Js.Str "T"))) (txnOf 0.01)) = true
  /\ isValid (InstallDoc.validatePaymentForDeposit h
                (Some (entryOf 0.0101 (Js.Str "T"))) (txnOf 0)) = false.
Proof. repeat split; reflexivity. Qed.

(** C3.  What the validator does at the tolerance boundary on binary64
    amounts.  The amounts 100.01 and 100.00 differ by one cent, but the
    computed difference is 0.010000000000005116, above the tolerance: both
    copies reject the pair as an amount mismatch.  An amount that is [NaN]
    (a missing or non-numeric amount put through [parseFloat]) gives a
    [NaN] difference, which is not above the tolerance: both copies accept
    the pair although the difference is not [<=] the tolerance either. *)
Theorem tolerance_boundary_on_binary64_amounts :
  forall h : Js.Host,
    (isValid (FileCabinet.validatePaymentForDeposit h
                (Some (entryOf 100.01 (Js.Str "T"))) (txnOf 100.00)) = false
     /\ isValid (InstallDoc.validatePaymentForDeposit h
                   (Some (entryOf 100.01 (Js.Str "T"))) (txnOf 100.00)) = false
     /\ amountDiff (entryOf 100.01 (Js.Str "T")) (txnOf 100.00) = 0.010000000000005116%float)
    /\ (isValid (FileCabinet.validatePaymentForDeposit h
                   (Some (entryOf PrimFloat.nan (Js.Str "T"))) (txnOf 100.00)) = true
        /\ isValid (InstallDoc.validatePaymentForDeposit h
                      (Some (entryOf PrimFloat.nan (Js.Str "T"))) (txnOf 100.00)) = true
        /\ PrimFloat.leb (amountDiff (entryOf PrimFloat.nan (Js.Str "T")) (txnOf 100.00))
                         MISC.AMOUNT_TOLERANCE = false).
Proof. intros h. repeat split; reflexivity. Qed.

(** C10.  The already-deposited rule fires for the string ['F'] and for
    nothing else: whenever the flag of the entry is any other value (['T'],
    a boolean, the empty string, [null], or no value at all) both copies go
    on to the amount comparison and return what it decides. *)
Theorem only_the_string_F_is_already_deposited :
  forall (h : Js.Host) (e : NsTransaction) (txn : WindcaveTxn),
    ns_undepositedFunds e <> Js.Str "F" ->
    FileCabinet.validatePaymentForDeposit h (Some e) txn = amountRule h e txn
    /\ InstallDoc.validatePaymentForDeposit h (Some e) txn = amountRule h e txn.
Proof.
  intros h e txn Hf. apply strictEqStr_false in Hf.
  unfold FileCabinet.validatePaymentForDeposit, InstallDoc.validatePaymentForDeposit,
    amountRule, amountDiff, mismatchReason.
  rewrite Hf. split; reflexivity.
Qed.

(** ['T'], the two booleans, the empty string, [null] and [undefined] are
    all different from the string ['F']. *)
Lemma flags_other_than_F :
  Forall (fun v => v <> Js.Str "F")
         [Js.Str "T"; Js.Bool true; Js.Bool false; Js.Str ""; Js.Null; Js.Undefined].
Proof. repeat constructor; discriminate. Qed.

(** An entry whose flag is missing, and whose amount agrees, is validated
    as a postable match; so is one whose flag is the boolean [false]. *)
Lemma only_the_string_F_witness :
  Js.Undefined <> Js.Str "F"
  /\ (FileCabinet.validatePaymentForDeposit plainHost
        (Some (entryOf 100.00 Js.Undefined)) (txnOf 100.00)
      = amountRule plainHost (entryOf 100.00 Js.Undefined) (txnOf 100.00)
      /\ InstallDoc.validatePaymentForDeposit plainHost
           (Some (entryOf 100.00 Js.Undefined)) (txnOf 100.00)
         = amountRule plainHost (entryOf 100.00 Js.Undefined) (txnOf 100.00))
  /\ amountRule plainHost (entryOf 100.00 Js.Undefined) (txnOf 100.00)
     = {| isValid := true; error := None |}.
Proof.
  split; [discriminate|]. split; [|reflexivity].
  apply (only_the_string_F_is_already_deposited plainHost
           (entryOf 100.00 Js.Undefined) (txnOf 100.00)).
  discriminate.
Defined.

Lemma boolean_false_flag_is_not_rejected (h : Js.Host) :
  FileCabinet.validatePaymentForDeposit h (Some (entryOf 100.00 (Js.Bool false))) (txnOf 100.00)
  = {| isValid := true; error := None |}.
Proof. reflexivity. Qed.

(** ** The entry locator *)




(** The lookups read the ledger only: what the call log holds is immaterial. *)
Lemma locators_ignore_call_log (c : Call) (w : World) :
  (forall r, InstallDoc.findNetSuiteTransaction (logCall c w) r
             = InstallDoc.findNetSuiteTransaction w r)
  /\ (forall a x t, InstallDoc.findNetSuiteTransactionByAuthCode (logCall c w) a x t
                    = InstallDoc.findNetSuiteTransactionByAuthCode w a x t)
  /\ (forall r, FileCabinet.findNetSuiteTransaction (logCall c w) r
                = FileCabinet.findNetSuiteTransaction w r).
Proof. repeat split. Qed.


(** Without an auth code and without an id the fallback returns nothing,
    and so it does when the search cannot be run. *)
Lemma fallback_without_keys_or_search (w : World) (authCode : option string)
    (amount : float) (transactionId : option string) :
  (Js.blank authCode = true -> Js.blank transactionId = true ->
   InstallDoc.findNetSuiteTransactionByAuthCode w authCode amount transactionId = None)
  /\ (InstallDoc.searchByAuthCode w authCode transactionId = None ->
      InstallDoc.findNetSuiteTransactionByAuthCode w authCode amount transactionId = None).
Proof.
  unfold InstallDoc.findNetSuiteTransactionByAuthCode. split.
  - intros -> ->. reflexivity.
  - intros ->. destruct (Js.blank authCode && Js.blank transactionId)%bool; reflexivity.
Qed.

(** The three cases of the rule, spelled out. *)
Lemma firstChoice_cases (amount : float) (candidates : list LedgerRow) :
  (forall r, candidates = [r] -> firstChoice amount candidates = Some r)
  /\ (2 <= List.length candidates ->
      firstChoice amount candidates = find (InstallDoc.withinTolerance amount) candidates)
  /\ (2 <= List.length candidates ->
      Forall (fun r => InstallDoc.withinTolerance amount r = false) candidates ->
      firstChoice amount candidates = None).
Proof.
  repeat split.
  - intros r ->. reflexivity.
  - destruct candidates as [|a [|b rest]]; simpl; intros; try lia. reflexivity.
  - destruct candidates as [|a [|b rest]]; simpl; intros Hl Hall; try lia.
    change (find (InstallDoc.withinTolerance amount) (a :: b :: rest) = None).
    destruct (find _ (a :: b :: rest)) as [r|] eqn:E; [|reflexivity].
    apply find_some in E. destruct E as [Hin Hw].
    rewrite Forall_forall in Hall. rewrite (Hall r Hin) in Hw. discriminate.
Qed.

(** ** The reconciliation engine: refunds *)

Lemma FileCabinet_locate_logs : logsOnlyFor FileCabinet.locate.
Proof.
  intros w t. exists [CallFindNetSuiteTransaction t]. split; [reflexivity|].
  repeat constructor.
Qed.

Lemma InstallDoc_locate_logs : logsOnlyFor InstallDoc.locate.
Proof.
  intros w t. unfold InstallDoc.locate.
  destruct (InstallDoc.findNetSuiteTransaction _ _).
  - exists [CallFindNetSuiteTransaction t]. split; [reflexivity | repeat constructor].
  - destruct (Js.truthy (txn_authCode t) || Js.truthy (txn_id t))%bool.
    + exists [CallFindNetSuiteTransaction t; CallFindNetSuiteTransactionByAuthCode t].
      split; [|repeat constructor]. simpl. rewrite <- app_assoc. reflexivity.
    + exists [CallFindNetSuiteTransaction t]. split; [reflexivity | repeat constructor].
Qed.

(** What one turn of the loop does to the call log and to the two lists. *)
Lemma matchStep_spec
    (locate : World -> WindcaveTxn -> option NsTransaction * World)
    (validate : option NsTransaction -> WindcaveTxn -> Validation)
    (sid : nat) (w : World) (res : MatchResults) (t : WindcaveTxn) :
  logsOnlyFor locate ->
  forall w' res', matchStep locate validate sid (w, res) t = (w', res') ->
    if isRefund t then
      w_calls w' = w_calls w
      /\ matched res' = matched res
      /\ exists id, unmatched res' = unmatched res ++
           [{| um_txnDetailId := id; um_windcaveTxn := t; um_error := Some REFUND_REASON |}]
    else
      (exists cs, w_calls w' = w_calls w ++ cs /\ Forall (fun c => subject c = t) cs)
      /\ ((exists m, matched res' = matched res ++ [m] /\ mr_windcaveTxn m = t
                     /\ unmatched res' = unmatched res)
          \/ (matched res' = matched res
              /\ exists u, unmatched res' = unmatched res ++ [u] /\ um_windcaveTxn u = t)).
Proof.
  intros HL w' res' H. unfold matchStep in H.
  destruct (createTransactionDetailRecord w t sid) as [id w1] eqn:Ec.
  assert (Hc1 : w_calls w1 = w_calls w).
  { unfold createTransactionDetailRecord in Ec. injection Ec as _ <-. reflexivity. }
  unfold isRefund. destruct (String.eqb (txn_type t) TRANSACTION_TYPES.REFUND).
  - injection H as <- <-. simpl. repeat split; [exact Hc1 | eauto].
  - destruct (HL w1 t) as [cs [Hcs Hall]].
    destruct (locate w1 t) as [ns w2] eqn:El. simpl in Hcs.
    destruct (isValid (validate ns t)); injection H as <- <-; simpl; split.
    + exists (cs ++ [CallValidatePaymentForDeposit ns t]).
      rewrite Hcs, Hc1, app_assoc. split; [reflexivity|].
      apply Forall_app. split; [exact Hall | repeat constructor].
    + left. eexists. repeat split.
    + exists (cs ++ [CallValidatePaymentForDeposit ns t]).
      rewrite Hcs, Hc1, app_assoc. split; [reflexivity|].
      apply Forall_app. split; [exact Hall | repeat constructor].
    + right. split; [reflexivity|]. eexists. split; reflexivity.
Qed.

Lemma matchLoop_adds
    (locate : World -> WindcaveTxn -> option NsTransaction * World)
    (validate : option NsTransaction -> WindcaveTxn -> Validation)
    (sid : nat) (HL : logsOnlyFor locate) (txns : list WindcaveTxn) :
  forall w0 res0 w' res',
    fold_left (matchStep locate validate sid) txns (w0, res0) = (w', res') ->
    loopAdds txns w0 w' res0 res'.
Proof.
  induction txns as [|t txns IH]; intros w0 res0 w' res' H.
  - simpl in H. injection H as <- <-. unfold loopAdds.
    split; [exists []; rewrite app_nil_r; auto|].
    split; [exists []; rewrite app_nil_r; auto|].
    exists []. rewrite app_nil_r. repeat split; auto. intros t [].
  - cbn [fold_left] in H.
    destruct (matchStep locate validate sid (w0, res0) t) as [w1 res1] eqn:Es.
    pose proof (matchStep_spec locate validate sid w0 res0 t HL w1 res1 Es) as Hs.
    destruct (IH w1 res1 w' res' H) as [[cs [Hc Hcs]] [[ms [Hm Hms]] [us [Hu [Hus Hex]]]]].
    destruct (isRefund t) eqn:Er.
    + destruct Hs as [Hc1 [Hm1 [id Hu1]]]. unfold loopAdds.
      split; [exists cs; rewrite Hc, Hc1; auto|].
      split; [exists ms; rewrite Hm, Hm1; auto|].
      eexists (_ :: us). rewrite Hu, Hu1, <- app_assoc. split; [reflexivity|].
      split; [constructor; [reflexivity | exact Hus]|].
      intros t' [<- | Hin] Ht'.
      * eexists. split; [left; reflexivity|]. split; reflexivity.
      * destruct (Hex t' Hin Ht') as [u [Hi Hu']]. exists u. split; [right; exact Hi | exact Hu'].
    + destruct Hs as [[cs1 [Hc1 Hcs1]] Hcase]. unfold loopAdds.
      split.
      { exists (cs1 ++ cs). rewrite Hc, Hc1, app_assoc. split; [reflexivity|].
        apply Forall_app. split; [|exact Hcs].
        eapply Forall_impl; [|exact Hcs1]. intros c ->. exact Er. }
      destruct Hcase as [[m [Hm1 [Hmt Hu1]]] | [Hm1 [u [Hu1 Hut]]]].
      * split.
        { exists (m :: ms). rewrite Hm, Hm1, <- app_assoc. split; [reflexivity|].
          constructor; [rewrite Hmt; exact Er | exact Hms]. }
        exists us. rewrite Hu, Hu1. repeat split; auto.
        intros t' [<- | Hin] Ht'; [congruence | exact (Hex t' Hin Ht')].
      * split; [exists ms; rewrite Hm, Hm1; auto|].
        exists (u :: us). rewrite Hu, Hu1, <- app_assoc. split; [reflexivity|].
        split; [constructor; [rewrite Hut; congruence | exact Hus]|].
        intros t' [<- | Hin] Ht'; [congruence|].
        destruct (Hex t' Hin Ht') as [u' [Hi Hu']]. exists u'. split; [right; exact Hi | exact Hu'].
Qed.

(** C4.  Whatever the ledger holds, [matchTransactions] of either copy puts
    every transaction of type [Refund] on the unmatched list with the fixed
    reason, puts none on the matched list, and makes no call of the entry
    locator or of the validator for it: every call it logs is for a line
    that is not a refund. *)
Theorem refunds_are_left_unmatched :
  forall (lib : Scheduled.Library) (h : Js.Host) (w : World)
         (transactions : list WindcaveTxn) (settlementInternalId : nat),
    let w' := fst (Scheduled.matchTransactions lib h w transactions settlementInternalId) in
    let res := snd (Scheduled.matchTransactions lib h w transactions settlementInternalId) in
    (forall txn, In txn transactions -> txn_type txn = TRANSACTION_TYPES.REFUND ->
       exists u, In u (unmatched res) /\ um_windcaveTxn u = txn
                 /\ um_error u = Some REFUND_REASON)
    /\ Forall (fun m => txn_type (mr_windcaveTxn m) <> TRANSACTION_TYPES.REFUND) (matched res)
    /\ Forall (fun u => txn_type (um_windcaveTxn u) = TRANSACTION_TYPES.REFUND ->
                        um_error u = Some REFUND_REASON) (unmatched res)
    /\ exists calls, w_calls w' = w_calls w ++ calls
                     /\ Forall (fun c => txn_type (subject c) <> TRANSACTION_TYPES.REFUND) calls.
Proof.
  intros lib h w txns sid w' res.
  assert (H : loopAdds txns w w' {| matched := []; unmatched := [] |} res).
  { subst w' res. destruct lib; simpl;
      unfold FileCabinet.matchTransactions, InstallDoc.matchTransactions, matchLoop.
    - destruct (fold_left _ txns _) as [w1 r1] eqn:E.
      exact (matchLoop_adds _ _ sid FileCabinet_locate_logs txns _ _ _ _ E).
    - destruct (fold_left _ txns _) as [w1 r1] eqn:E.
      exact (matchLoop_adds _ _ sid InstallDoc_locate_logs txns _ _ _ _ E). }
  destruct H as [[cs [Hc Hcs]] [[ms [Hm Hms]] [us [Hu [Hus Hex]]]]].
  simpl in Hm, Hu. subst ms us.
  assert (Hr : forall t, isRefund t = true <-> txn_type t = TRANSACTION_TYPES.REFUND)
    by (intros t; apply String.eqb_eq).
  assert (Hn : forall t, isRefund t = false <-> txn_type t <> TRANSACTION_TYPES.REFUND)
    by (intros t; apply String.eqb_neq).
  repeat split.
  - intros txn Hin Ht. apply Hex; [exact Hin | apply Hr; exact Ht].
  - eapply Forall_impl; [|exact Hms]. intros m Hm'. apply Hn. exact Hm'.
  - eapply Forall_impl; [|exact Hus]. intros u Hu' Ht. apply Hu'. apply Hr. exact Ht.
  - exists cs. split; [exact Hc|].
    eapply Forall_impl; [|exact Hcs]. intros c Hc'. apply Hn. exact Hc'.
Qed.

(** ** The deposit grouper *)

(** Facts about the pass over the payment sublist. *)
Lemma selectPayments_acc (lookup : string -> option nat) (lines : list string) :
  forall acc,
    let sel := fold_left (selectStep lookup) lines acc in
    (paymentsAdded acc = List.length (tickedLines acc) ->
     paymentsAdded sel = List.length (tickedLines sel))
    /\ (List.length (addedTxnDetailIds acc) = List.length (tickedLines acc) ->
        List.length (addedTxnDetailIds sel) = List.length (tickedLines sel))
    /\ (forall p, In p (tickedLines sel) ->
          In p (tickedLines acc) \/ (In p lines /\ lookup p <> None))
    /\ ((forall p, In p lines -> lookup p = None) -> sel = acc)
    /\ ((exists p, In p lines /\ lookup p <> None) -> 0 < paymentsAdded sel)
    /\ (0 < paymentsAdded acc -> 0 < paymentsAdded sel).
Proof.
  induction lines as [|l lines IH]; intros acc; cbn [fold_left].
  - repeat split; auto. intros [p [[] _]].
  - specialize (IH (selectStep lookup acc l)).
    cbv zeta in IH. destruct IH as [I1 [I2 [I3 [I4 [I5 I6]]]]].
    unfold selectStep in *. destruct (lookup l) as [id|] eqn:El; simpl in *.
    + repeat split.
      * intros He. apply I1. rewrite length_app. simpl. lia.
      * intros He. apply I2. rewrite !length_app. simpl. lia.
      * intros p Hp. destruct (I3 p Hp) as [H|[H1 H2]].
        -- apply in_app_or in H. destruct H as [H|[<-|[]]]; [left; exact H|].
           right. split; [left; reflexivity | congruence].
        -- right. split; [right; exact H1 | exact H2].
      * intros Hn. rewrite (Hn l (or_introl eq_refl)) in El. discriminate.
      * intros _. apply I6. lia.
      * intros _. apply I6. lia.
    + repeat split.
      * exact I1.
      * exact I2.
      * intros p Hp. destruct (I3 p Hp) as [H|[H1 H2]]; [left; exact H|].
        right. split; [right; exact H1 | exact H2].
      * intros Hn. apply I4. intros p Hp. apply Hn. right. exact Hp.
      * intros [p [[<-|Hp] Hl]]; [congruence|]. apply I5. exists p. split; assumption.
      * exact I6.
Qed.

Lemma selectPayments_spec (lookup : string -> option nat) (lines : list string) :
  let sel := selectPayments lookup lines in
  paymentsAdded sel = List.length (tickedLines sel)
  /\ List.length (addedTxnDetailIds sel) = List.length (tickedLines sel)
  /\ (forall p, In p (tickedLines sel) -> In p lines /\ lookup p <> None)
  /\ ((forall p, In p lines -> lookup p = None) -> paymentsAdded sel = 0)
  /\ ((exists p, In p lines /\ lookup p <> None) -> 0 < paymentsAdded sel).
Proof.
  unfold selectPayments.
  destruct (selectPayments_acc lookup lines
              {| paymentsAdded := 0; addedTxnDetailIds := []; tickedLines := [] |})
    as [I1 [I2 [I3 [I4 [I5 _]]]]].
  cbv zeta in *. repeat split.
  - apply I1. reflexivity.
  - apply I2. reflexivity.
  - destruct (I3 p H) as [[]|[H1 _]]. exact H1.
  - destruct (I3 p H) as [[]|[_ H2]]. exact H2.
  - intros Hn. rewrite (I4 Hn). reflexivity.
  - exact I5.
Qed.

Lemma linkDeposit_spec (depositId : nat) (ids : list nat) :
  forall w,
    w_txnDetails (linkDeposit depositId ids w)
      = map (markDeposited depositId ids) (w_txnDetails w)
    /\ w_deposits (linkDeposit depositId ids w) = w_deposits w
    /\ w_settlements (linkDeposit depositId ids w) = w_settlements w
    /\ w_undeposited (linkDeposit depositId ids w) = w_undeposited w
    /\ w_nextId (linkDeposit depositId ids w) = w_nextId w
    /\ w_calls (linkDeposit depositId ids w) = w_calls w
    /\ w_outbox (linkDeposit depositId ids w) = w_outbox w
    /\ w_clock (linkDeposit depositId ids w) = w_clock w
    /\ w_ledger (linkDeposit depositId ids w) = w_ledger w
    /\ w_configs (linkDeposit depositId ids w) = w_configs w
    /\ w_authSearchAvailable (linkDeposit depositId ids w) = w_authSearchAvailable w.
Proof.
  unfold linkDeposit. induction ids as [|i ids IH]; intros w; cbn [fold_left].
  - repeat split. unfold markDeposited. simpl.
    rewrite <- (map_id (w_txnDetails w)) at 1. reflexivity.
  - destruct (IH (submitTxnDetail i (td_withDeposit depositId) w))
      as [H1 [H2 [H3 [H4 [H5 [H6 [H7 [H8 [H9 [H10 H11]]]]]]]]]].
    repeat split; try assumption.
    rewrite H1. unfold submitTxnDetail, updateRow. simpl. rewrite map_map.
    apply map_ext. intros [k r]. unfold markDeposited. simpl.
    destruct (Nat.eqb k i) eqn:E; simpl; [|reflexivity].
    destruct (existsb (Nat.eqb k) ids); reflexivity.
Qed.

Lemma findMatched_none (ms : list MatchResult) (p : string) :
  (forall m ns, In m ms -> mr_nsTransaction m = Some ns -> ns_internalId ns <> p) ->
  findMatched ms p = None.
Proof.
  intros H. unfold findMatched.
  destruct (find _ ms) as [m|] eqn:E; [|reflexivity].
  apply find_some in E. destruct E as [Hin Hm].
  destruct (mr_nsTransaction m) as [ns|] eqn:En; [|discriminate].
  apply String.eqb_eq in Hm. exfalso. exact (H m ns Hin En Hm).
Qed.

(** C5.  [createBankDeposit] and the intersection with undeposited funds.
    When no payment line of the new deposit belongs to a matched entry the
    function returns [null] and leaves the account exactly as it was: no
    deposit is saved and no transaction detail is written.  Whenever it
    returns [null] nothing was written; and when it returns a deposit id,
    that deposit was saved with at least one payment line, each of them a
    line of undeposited funds bound to a matched entry, and the transaction
    details written are of the entries picked, each given the in-deposit
    flag and that deposit's id. *)
Theorem deposit_intersection_safety :
  forall (w : World) (settlementData : SettlementDetails)
         (matchedTransactions : list MatchResult) (bankAccountId : string),
    let r := fst (createBankDeposit w settlementData matchedTransactions bankAccountId) in
    let w' := snd (createBankDeposit w settlementData matchedTransactions bankAccountId) in
    (noLineMatches w matchedTransactions -> r = None /\ w' = w)
    /\ (r = None -> w' = w)
    /\ (forall depositId, r = Some depositId ->
          exists dep ids,
            w_deposits w' = w_deposits w ++ [(depositId, dep)]
            /\ dep_payments dep <> []
            /\ (forall p, In p (dep_payments dep) ->
                  In p (w_undeposited w) /\ findMatched matchedTransactions p <> None)
            /\ List.length ids = List.length (dep_payments dep)
            /\ w_txnDetails w' = map (markDeposited depositId ids) (w_txnDetails w)).
Proof.
  intros w sd ms acct r w'. subst r w'. unfold createBankDeposit.
  destruct ms as [|m0 ms']; [repeat split; intros; discriminate|].
  set (ms := m0 :: ms').
  set (lookup := fun paymentId => option_map mr_txnDetailId (findMatched ms paymentId)).
  destruct (selectPayments_spec lookup (w_undeposited w)) as [S1 [S2 [S3 [S4 S5]]]].
  cbv zeta in *.
  assert (Hl : forall p, lookup p = None <-> findMatched ms p = None).
  { intros p. unfold lookup. destruct (findMatched ms p); simpl; split; congruence. }
  destruct (Nat.eqb (paymentsAdded (selectPayments lookup (w_undeposited w))) 0) eqn:E0.
  - repeat split; intros; discriminate.
  - apply Nat.eqb_neq in E0. unfold saveDeposit. cbn [fst snd].
    split; [|split].
    + intros Hno. exfalso. apply E0. apply S4. intros p Hp. apply Hl.
      apply findMatched_none. intros m ns Hm Hns. exact (Hno p m ns Hp Hm Hns).
    + intros H. discriminate.
    + intros depositId H. injection H as <-.
      eexists. exists (addedTxnDetailIds (selectPayments lookup (w_undeposited w))).
      destruct (linkDeposit_spec (w_nextId w)
                  (addedTxnDetailIds (selectPayments lookup (w_undeposited w)))
                  (set_nextId (S (w_nextId w))
                     (set_deposits
                        (w_deposits w ++
                           [(w_nextId w,
                             {| dep_account := acct;
                                dep_trandate := sd_settlementDate sd;
                                dep_memo := ("Windcave Settlement "
                                             ++ Js.showOpt (sd_referenceNumber sd)
                                             ++ " (" ++ sd_id sd ++ ")")%string;
                                dep_payments :=
                                  tickedLines (selectPayments lookup (w_undeposited w)) |})])
                        (set_undeposited
                           (filter
                              (fun p => negb (existsb (String.eqb p)
                                 (tickedLines (selectPayments lookup (w_undeposited w)))))
                              (w_undeposited w)) w))))
        as [L1 [L2 _]].
      split; [exact L2|]. cbn [dep_payments].
      split; [|split; [|split]].
      * intros Hnil. rewrite Hnil in S1. simpl in S1. lia.
      * intros p Hp. destruct (S3 p Hp) as [H1 H2]. split; [exact H1|].
        intros Hf. apply H2. apply Hl. exact Hf.
      * exact S2.
      * exact L1.
Qed.

Lemma pending_rows (w : World) (sid : nat) :
  getMatchedNotDepositedTransactions w sid
  = map (fun r =>
           {| pt_txnDetailId := fst r;
              pt_transactionId := td_transactionId (snd r);
              pt_amount := if (PrimFloat.is_nan (td_amount (snd r))
                               || PrimFloat.eqb (td_amount (snd r)) 0%float)%bool
                           then 0%float else td_amount (snd r);
              pt_nsTransactionId := td_nsTransaction (snd r) |})
        (filter (fun r => isPending sid (snd r)) (w_txnDetails w)).
Proof. reflexivity. Qed.

Lemma no_pending_rows (w : World) (sid : nat) :
  (forall id r, In (id, r) (w_txnDetails w) -> isPending sid r = false) ->
  getMatchedNotDepositedTransactions w sid = [].
Proof.
  intros H. rewrite pending_rows.
  replace (filter (fun r => isPending sid (snd r)) (w_txnDetails w)) with (@nil (nat * TxnDetailRec));
    [reflexivity|].
  symmetry. induction (w_txnDetails w) as [|[id r] l IH]; [reflexivity|].
  simpl. rewrite (H id r (or_introl eq_refl)). apply IH.
  intros id' r' Hin. apply (H id' r'). right. exact Hin.
Qed.

Lemma some_pending_row (w : World) (sid : nat) (id : nat) (r : TxnDetailRec) :
  In (id, r) (w_txnDetails w) -> isPending sid r = true ->
  getMatchedNotDepositedTransactions w sid <> [].
Proof.
  intros Hin Hp. rewrite pending_rows. intros Hnil.
  apply map_eq_nil in Hnil.
  assert (Hf : In (id, r) (filter (fun r => isPending sid (snd r)) (w_txnDetails w)))
    by (apply filter_In; split; [exact Hin | exact Hp]).
  rewrite Hnil in Hf. exact Hf.
Qed.

Lemma findPending_none (w : World) (sid : nat) (p : string) :
  (forall id r, In (id, r) (w_txnDetails w) -> isPending sid r = true ->
                td_nsTransaction r <> Some p) ->
  findPending (getMatchedNotDepositedTransactions w sid) p = None.
Proof.
  intros H. unfold findPending.
  destruct (find _ _) as [t|] eqn:E; [|reflexivity].
  apply find_some in E. destruct E as [Hin Ht].
  rewrite pending_rows in Hin. apply in_map_iff in Hin.
  destruct Hin as [[id r] [<- Hf]]. apply filter_In in Hf. destruct Hf as [Hin Hp].
  simpl in *. destruct (td_nsTransaction r) as [i|] eqn:En; [|discriminate].
  apply String.eqb_eq in Ht. subst i. exfalso. exact (H id r Hin Hp En).
Qed.

(** C7.  [createSupplementaryDeposit] reports its failures as a result
    object.  For a settlement record that exists: when none of its
    transaction details is matched and not in a deposit, the result is the
    failure 'No matched transactions pending deposit'; when some are, but
    no line of undeposited funds is the payment of any of them, the result
    is the failure saying that payments may have already been deposited
    elsewhere.  Every failure leaves the account as it was: no deposit is
    saved and no transaction detail is changed. *)
Theorem supplementary_deposit_failures :
  forall (w : World) (settlementInternalId : nat) (bankAccountId : string),
    let out := createSupplementaryDeposit w settlementInternalId bankAccountId in
    (forall e, fst out = Failure e -> snd out = w)
    /\ (getSettlementById w settlementInternalId <> None ->
        ((forall id r, In (id, r) (w_txnDetails w) ->
                       isPending settlementInternalId r = false) ->
         out = (Failure NO_PENDING, w))
        /\ ((exists id r, In (id, r) (w_txnDetails w)
                          /\ isPending settlementInternalId r = true) ->
            (forall p id r, In p (w_undeposited w) -> In (id, r) (w_txnDetails w) ->
                            isPending settlementInternalId r = true ->
                            td_nsTransaction r <> Some p) ->
            out = (Failure NOT_IN_UNDEPOSITED, w))).
Proof.
  intros w sid acct out. subst out. unfold createSupplementaryDeposit.
  destruct (getSettlementById w sid) as [settlement|] eqn:Es.
  2:{ split; [intros e _; reflexivity | intros H; congruence]. }
  set (pending := getMatchedNotDepositedTransactions w sid).
  set (lookup := fun paymentId => option_map pt_txnDetailId (findPending pending paymentId)).
  destruct (selectPayments_spec lookup (w_undeposited w)) as [_ [_ [_ [S4 _]]]].
  cbv zeta in S4.
  split.
  - intros e.
    destruct (Nat.eqb (List.length pending) 0); [intros _; reflexivity|].
    destruct (Nat.eqb (paymentsAdded (selectPayments lookup (w_undeposited w))) 0);
      [intros _; reflexivity|].
    unfold saveDeposit. cbn [fst snd]. discriminate.
  - intros _. split.
    + intros Hnone. unfold pending. rewrite (no_pending_rows w sid Hnone). reflexivity.
    + intros [id [r [Hin Hp]]] Hdisj.
      pose proof (some_pending_row w sid id r Hin Hp) as Hne. fold pending in Hne.
      assert (Hlen : Nat.eqb (List.length pending) 0 = false)
        by (destruct pending; [congruence | reflexivity]).
      rewrite Hlen, S4; [reflexivity|].
      intros p Hpin. unfold lookup, pending.
      rewrite (findPending_none w sid p); [reflexivity|].
      intros id' r' Hin' Hp'. exact (Hdisj p id' r' Hpin Hin' Hp').
Qed.

(** The second failure does say that the payments may have been deposited
    elsewhere. *)
Lemma not_in_undeposited_wording :
  Js.includes "Payments may have already been deposited elsewhere" NOT_IN_UNDEPOSITED = true.
Proof. reflexivity. Qed.

(** ** The HTTP client *)

Section ClientFacts.

Import WindcaveApi.

Variable J : Type.
Variable parse : string -> option J.
Variable server : nat -> HttpOutcome.

Abbreviation attempt := (makeRequestFrom J parse server).

(** The recursion never runs out of fuel: any two amounts above
    [MAX_API_RETRIES - retryCount] give the same result. *)
Lemma fuel_is_enough :
  forall fuel fuel' retryCount st,
    MISC.MAX_API_RETRIES - retryCount < fuel ->
    MISC.MAX_API_RETRIES - retryCount < fuel' ->
    attempt fuel retryCount st = attempt fuel' retryCount st.
Proof.
  induction fuel as [|fuel IH]; intros fuel' r st Hf Hf'; [lia|].
  destruct fuel' as [|fuel']; [lia|].
  cbn [makeRequestFrom].
  destruct (httpsGet server st) as [[code body|e] st1]; cbn iota beta.
  - destruct ((200 <=? code) && (code <? 300))%Z%bool.
    { unfold jsonParse. destruct (parse body); reflexivity. }
    destruct ((code =? 401) || (code =? 403))%Z%bool; [reflexivity|].
    destruct (Nat.ltb r MISC.MAX_API_RETRIES) eqn:Er.
    + apply Nat.ltb_lt in Er.
      destruct (500 <=? code)%Z; cbn [andb]; [|reflexivity].
      rewrite (IH fuel' (r + 1) (busyWait (MISC.RETRY_DELAY_MS * (r + 1)) st1)) by lia.
      destruct (attempt fuel' (r + 1) _) as [[v|e] st']; [reflexivity|].
      destruct (String.eqb (Js.err_name e) TIMEOUT_NAME); cbn [andb]; [|reflexivity].
      apply IH; lia.
    + rewrite andb_false_r. cbn [Js.err_name Js.newError]. reflexivity.
  - destruct (Nat.ltb r MISC.MAX_API_RETRIES) eqn:Er.
    + apply Nat.ltb_lt in Er.
      destruct (String.eqb (Js.err_name e) TIMEOUT_NAME); cbn [andb]; [|reflexivity].
      apply IH; lia.
    + rewrite andb_false_r. reflexivity.
Qed.

(** A 2xx response ends the call at once: with the parsed body, or with the
    [SyntaxError] of [JSON.parse]. *)
Lemma success_returns_parsed_body (fuel retryCount : nat) (st : Net) (code : Z) (body : string) :
  server (requests st) = Responded code body ->
  (200 <= code < 300)%Z ->
  attempt (S fuel) retryCount st = (jsonParse J parse body, sent st).
Proof.
  intros Hs Hc. cbn [makeRequestFrom]. unfold httpsGet. rewrite Hs. cbn iota beta.
  replace ((200 <=? code) && (code <? 300))%Z%bool with true
    by (symmetry; apply andb_true_iff; split; [apply Z.leb_le | apply Z.ltb_lt]; lia).
  unfold jsonParse. destruct (parse body); reflexivity.
Qed.

(** 401 and 403 throw the authentication error after that one request. *)
Lemma auth_failure_is_not_retried (fuel retryCount : nat) (st : Net) (code : Z) (body : string) :
  server (requests st) = Responded code body ->
  code = 401%Z \/ code = 403%Z ->
  attempt (S fuel) retryCount st
  = (Js.Throw (Js.newError (ERRORS.API_AUTH_FAILED ++ ": " ++ body)), sent st).
Proof.
  intros Hs Hc. cbn [makeRequestFrom]. unfold httpsGet. rewrite Hs. cbn iota beta.
  destruct Hc as [-> | ->]; reflexivity.
Qed.

(** Every other status below 500 throws the request error at once. *)
Lemma other_status_fails_at_once (fuel retryCount : nat) (st : Net) (code : Z) (body : string) :
  server (requests st) = Responded code body ->
  (code < 200 \/ 300 <= code < 500)%Z -> code <> 401%Z -> code <> 403%Z ->
  attempt (S fuel) retryCount st
  = (Js.Throw (Js.newError (ERRORS.API_REQUEST_FAILED ++ ": HTTP "
                            ++ Js.intToString code ++ " - " ++ body)), sent st).
Proof.
  intros Hs Hc H1 H3. cbn [makeRequestFrom]. unfold httpsGet. rewrite Hs. cbn iota beta.
  replace ((200 <=? code) && (code <? 300))%Z%bool with false
    by (symmetry; apply andb_false_iff;
        destruct Hc; [left; apply Z.leb_gt | right; apply Z.ltb_ge]; lia).
  replace ((code =? 401) || (code =? 403))%Z%bool with false
    by (symmetry; apply orb_false_iff; split; apply Z.eqb_neq; assumption).
  replace (500 <=? code)%Z with false by (symmetry; apply Z.leb_gt; lia).
  reflexivity.
Qed.

(** The number of requests is bounded all the same: a call made with
    [fuel] levels left sends at most [2 ^ fuel - 1] requests. *)
Lemma request_count_bound :
  forall fuel retryCount st,
    requests (snd (attempt fuel retryCount st)) <= requests st + (2 ^ fuel - 1).
Proof.
  induction fuel as [|fuel IH]; intros r st; [simpl; lia|].
  assert (Hp : 2 ^ S fuel = 2 * 2 ^ fuel) by (cbn [Nat.pow]; lia).
  assert (Hpos : 0 < 2 ^ fuel) by (apply Nat.neq_0_lt_0, Nat.pow_nonzero; lia).
  cbn [makeRequestFrom]. unfold httpsGet.
  destruct (server (requests st)) as [code body|e]; cbn iota beta.
  - destruct ((200 <=? code) && (code <? 300))%Z%bool.
    { unfold jsonParse. destruct (parse body); simpl; lia. }
    destruct ((code =? 401) || (code =? 403))%Z%bool; [simpl; lia|].
    destruct ((500 <=? code)%Z && Nat.ltb r MISC.MAX_API_RETRIES)%bool.
    + pose proof (IH (r + 1) (busyWait (MISC.RETRY_DELAY_MS * (r + 1))
                                 {| requests := S (requests st); waits := waits st |})) as B1.
      destruct (attempt fuel (r + 1) _) as [[v|e] st'].
      * simpl in *. lia.
      * destruct (String.eqb (Js.err_name e) TIMEOUT_NAME
                  && Nat.ltb r MISC.MAX_API_RETRIES)%bool.
        -- pose proof (IH (r + 1) st') as B2. simpl in *. lia.
        -- simpl in *. lia.
    + simpl. lia.
  - destruct (String.eqb (Js.err_name e) TIMEOUT_NAME && Nat.ltb r MISC.MAX_API_RETRIES)%bool.
    + pose proof (IH (r + 1) {| requests := S (requests st); waits := waits st |}) as B2.
      simpl in *. lia.
    + simpl. lia.
Qed.

End ClientFacts.

(** [makeRequest] never sends more than fifteen requests. *)
Lemma makeRequest_sends_at_most_fifteen (J : Type) (parse : string -> option J)
    (server : nat -> WindcaveApi.HttpOutcome) :
  WindcaveApi.requests (snd (WindcaveApi.makeRequest J parse server WindcaveApi.startNet)) <= 15.
Proof.
  unfold WindcaveApi.makeRequest.
  pose proof (request_count_bound J parse server (S MISC.MAX_API_RETRIES) 0 WindcaveApi.startNet).
  simpl in *. lia.
Qed.

(** A server that answers 503 to every request: four requests are sent,
    after delays of one, two and three seconds, and the request error is
    thrown. *)
Lemma server_errors_retry_three_times :
  WindcaveApi.makeRequest string Some (fun _ => WindcaveApi.Responded 503 "down")
                          WindcaveApi.startNet
  = (Js.Throw (Js.newError "Windcave API request failed: HTTP 503 - down"),
     {| WindcaveApi.requests := 4; WindcaveApi.waits := [1000; 2000; 3000] |}).
Proof. reflexivity. Qed.

(** A server that never answers in time: four requests, then the time-out
    is rethrown. *)
Lemma timeouts_retry_three_times :
  WindcaveApi.makeRequest string Some (fun _ => WindcaveApi.Raised WindcaveApi.timeoutError)
                          WindcaveApi.startNet
  = (Js.Throw WindcaveApi.timeoutError,
     {| WindcaveApi.requests := 4; WindcaveApi.waits := [] |}).
Proof. reflexivity. Qed.

(** C8.  The retry cap of [makeRequest] does not hold when server errors
    and time-outs are mixed.  The retry after a server error is made inside
    the [try] block, so a time-out that the retried call gives up on is
    caught again one level up, where [retryCount] is still small, and is
    retried from there.  After a 500 and three time-outs the client sends a
    fifth request (and returns its body); in the worst case it sends
    fifteen requests before it throws. *)
Theorem retry_cap_is_exceeded_by_mixed_failures :
  (WindcaveApi.makeRequest string Some flakyServer WindcaveApi.startNet
   = (Js.Return "{}", {| WindcaveApi.requests := 5; WindcaveApi.waits := [1000] |})
   /\ 1 + MISC.MAX_API_RETRIES < 5)
  /\ WindcaveApi.makeRequest string Some worstServer WindcaveApi.startNet
     = (Js.Throw WindcaveApi.timeoutError,
        {| WindcaveApi.requests := 15;
           WindcaveApi.waits := [1000; 2000; 3000; 3000; 2000; 3000; 3000] |}).
Proof.
  split; [split|].
  - reflexivity.
  - unfold MISC.MAX_API_RETRIES. lia.
  - reflexivity.
Qed.

(** ** The batch coordinator *)

Lemma keeps_refl (w : World) : keeps w w.
Proof. repeat split. Qed.

Lemma keeps_trans (w1 w2 w3 : World) : keeps w1 w2 -> keeps w2 w3 -> keeps w1 w3.
Proof.
  intros [A1 [A2 A3]] [B1 [B2 B3]]. repeat split; congruence.
Qed.

Lemma keeps_logCall (c : Call) (w : World) : keeps w (logCall c w).
Proof. repeat split. Qed.

Lemma keeps_createTransactionDetailRecord (w : World) (t : WindcaveTxn) (sid : nat) :
  keeps w (snd (createTransactionDetailRecord w t sid)).
Proof. repeat split. Qed.

Lemma keeps_submitTxnDetail (id : nat) (f : TxnDetailRec -> TxnDetailRec) (w : World) :
  keeps w (submitTxnDetail id f w).
Proof. repeat split. Qed.

Lemma keeps_FileCabinet_locate (w : World) (t : WindcaveTxn) :
  keeps w (snd (FileCabinet.locate w t)).
Proof. repeat split. Qed.

Lemma keeps_InstallDoc_locate (w : World) (t : WindcaveTxn) :
  keeps w (snd (InstallDoc.locate w t)).
Proof.
  unfold InstallDoc.locate.
  destruct (InstallDoc.findNetSuiteTransaction _ _); [repeat split|].
  destruct (Js.truthy (txn_authCode t) || Js.truthy (txn_id t))%bool; repeat split.
Qed.

Lemma keeps_matchStep
    (locate : World -> WindcaveTxn -> option NsTransaction * World)
    (validate : option NsTransaction -> WindcaveTxn -> Validation)
    (sid : nat) (w : World) (res : MatchResults) (t : WindcaveTxn) :
  (forall w0 t0, keeps w0 (snd (locate w0 t0))) ->
  keeps w (fst (matchStep locate validate sid (w, res) t)).
Proof.
  intros HL. unfold matchStep.
  pose proof (keeps_createTransactionDetailRecord w t sid) as K1.
  destruct (createTransactionDetailRecord w t sid) as [id w1]. simpl in K1.
  destruct (String.eqb (txn_type t) TRANSACTION_TYPES.REFUND); [exact K1|].
  pose proof (HL w1 t) as K2. destruct (locate w1 t) as [ns w2]. simpl in K2.
  destruct (isValid (validate ns t)); simpl;
    (eapply keeps_trans; [exact K1|]); (eapply keeps_trans; [exact K2|]);
    (eapply keeps_trans; [apply keeps_logCall|]); apply keeps_submitTxnDetail.
Qed.

Lemma keeps_matchLoop
    (locate : World -> WindcaveTxn -> option NsTransaction * World)
    (validate : option NsTransaction -> WindcaveTxn -> Validation)
    (sid : nat) (txns : list WindcaveTxn) :
  (forall w0 t0, keeps w0 (snd (locate w0 t0))) ->
  forall w res, keeps w (fst (fold_left (matchStep locate validate sid) txns (w, res))).
Proof.
  intros HL. induction txns as [|t txns IH]; intros w res; cbn [fold_left].
  - apply keeps_refl.
  - pose proof (keeps_matchStep locate validate sid w res t HL) as K.
    destruct (matchStep locate validate sid (w, res) t) as [w1 res1]. simpl in K.
    eapply keeps_trans; [exact K | apply IH].
Qed.

Lemma keeps_matchTransactions (lib : Scheduled.Library) (h : Js.Host) (w : World)
    (txns : list WindcaveTxn) (sid : nat) :
  keeps w (fst (Scheduled.matchTransactions lib h w txns sid)).
Proof.
  destruct lib; simpl; unfold FileCabinet.matchTransactions, InstallDoc.matchTransactions,
    matchLoop; apply keeps_matchLoop.
  - apply keeps_FileCabinet_locate.
  - apply keeps_InstallDoc_locate.
Qed.

Lemma keeps_createBankDeposit (w : World) (sd : SettlementDetails)
    (ms : list MatchResult) (acct : string) :
  keeps w (snd (createBankDeposit w sd ms acct)).
Proof.
  unfold createBankDeposit. destruct ms as [|m ms]; [apply keeps_refl|].
  destruct (Nat.eqb _ 0); [apply keeps_refl|].
  unfold saveDeposit. cbn [snd].
  match goal with
  | |- keeps _ (linkDeposit ?d ?ids ?w0) =>
      destruct (linkDeposit_spec d ids w0) as [_ [_ [L3 [_ [_ [_ [L7 [_ [_ [L10 _]]]]]]]]]]
  end.
  repeat split; [rewrite L3 | rewrite L7 | rewrite L10]; reflexivity.
Qed.

Lemma keeps_consult (w : World) : keeps w (snd (Scheduled.consult w)).
Proof. repeat split. Qed.

Lemma externalIds_keeps (w w' : World) : keeps w w' -> externalIds w' = externalIds w.
Proof. intros [H _]. unfold externalIds. rewrite H. reflexivity. Qed.

Lemma createSettlementRecord_adds (w : World) (d : SettlementDetails) :
  externalIds (snd (createSettlementRecord w d)) = externalIds w ++ [sd_id d]
  /\ w_outbox (snd (createSettlementRecord w d)) = w_outbox w
  /\ w_configs (snd (createSettlementRecord w d)) = w_configs w.
Proof.
  unfold externalIds, createSettlementRecord. simpl. rewrite map_app. repeat split.
Qed.

Lemma updateSettlementRecord_ids (w : World) (sid m u : nat) (a : float)
    (d : option nat) (e : option string) :
  externalIds (updateSettlementRecord w sid m u a d e) = externalIds w
  /\ w_outbox (updateSettlementRecord w sid m u a d e) = w_outbox w
  /\ w_configs (updateSettlementRecord w sid m u a d e) = w_configs w.
Proof.
  unfold externalIds, updateSettlementRecord, updateRow. simpl. rewrite map_map.
  repeat split. apply map_ext. intros [k r]. simpl.
  destruct (Nat.eqb k sid); reflexivity.
Qed.

Lemma isSettlementProcessed_spec (w : World) (settlementId : string) :
  isSettlementProcessed w settlementId = true <-> In settlementId (externalIds w).
Proof.
  unfold isSettlementProcessed, externalIds.
  induction (w_settlements w) as [|[k r] l IH]; simpl.
  - split; [discriminate | intros []].
  - destruct (String.eqb (sr_settlementId r) settlementId) eqn:E.
    + apply String.eqb_eq in E. simpl. split; [intros _; left; exact E | reflexivity].
    + apply String.eqb_neq in E. rewrite IH. split; [intros H; right; exact H|].
      intros [H|H]; [contradiction | exact H].
Qed.

(** What [processSettlement] does to the account and to the counters. *)
Lemma processSettlement_spec (lib : Scheduled.Library) (h : Js.Host)
    (env : Scheduled.Surroundings) (s : Settlement) (cfg : Config)
    (w : World) (results : Scheduled.ProcessingResults) :
  let out := Scheduled.processSettlement lib h env s cfg (w, results) in
  let w' := fst (snd out) in
  w_outbox w' = w_outbox w /\ w_configs w' = w_configs w
  /\ ((stl_status s <> SETTLEMENT_STATUS.DONE \/ isSettlementProcessed w (stl_id s) = true ->
       out = (Js.Return None, (w, Scheduled.skipOne results)))
      /\ (stl_status s = SETTLEMENT_STATUS.DONE -> isSettlementProcessed w (stl_id s) = false ->
          (exists e, Scheduled.getSettlementDetails env (w_clock w) cfg (stl_id s) = Js.Throw e
                     /\ fst out = Js.Throw e /\ w_settlements w' = w_settlements w)
          \/ (exists d o, Scheduled.getSettlementDetails env (w_clock w) cfg (stl_id s)
                          = Js.Return d
                          /\ fst out = Js.Return (Some o)
                          /\ externalIds w' = externalIds w ++ [sd_id d]))).
Proof.
  cbv zeta. unfold Scheduled.processSettlement.
  destruct (String.eqb (stl_status s) SETTLEMENT_STATUS.DONE) eqn:Ed; cbn [negb].
  2:{ apply String.eqb_neq in Ed. repeat split; intros; congruence. }
  apply String.eqb_eq in Ed.
  destruct (isSettlementProcessed w (stl_id s)) eqn:Ep.
  { repeat split; intros; congruence. }
  cbn [Scheduled.consult].
  destruct (Scheduled.getSettlementDetails env (w_clock w) cfg (stl_id s)) as [d|e] eqn:Eg.
  2:{ cbn [fst snd]. repeat split.
      - intros [H|H]; congruence.
      - intros _ _. left. exists e. repeat split. }
  pose proof (createSettlementRecord_adds (set_clock (S (w_clock w)) w) d) as [A1 [A2 A3]].
  destruct (createSettlementRecord (set_clock (S (w_clock w)) w) d) as [sid w1].
  cbn [snd] in A1, A2, A3.
  pose proof (keeps_matchTransactions lib h w1
                (match sd_transactions d with Some l => l | None => [] end) sid) as K2.
  destruct (Scheduled.matchTransactions lib h w1 _ sid) as [w2 mres]. cbn [fst] in K2.
  set (credit := (String.eqb (stl_CRDR s) CRDR.CREDIT
                  && Nat.ltb 0 (List.length (matched mres)))%bool).
  assert (K3 : exists dep w3 results1,
             (if credit
              then let '(d0, w'0) :=
                     createBankDeposit w2 d (matched mres) (cfg_bankAccount cfg) in
                   match d0 with
                   | Some (S _) => (d0, w'0, Scheduled.depositOne results)
                   | _ => (d0, w'0, results)
                   end
              else (None, w2, results)) = (dep, w3, results1) /\ keeps w2 w3).
  { destruct credit.
    - pose proof (keeps_createBankDeposit w2 d (matched mres) (cfg_bankAccount cfg)) as K.
      destruct (createBankDeposit w2 d (matched mres) (cfg_bankAccount cfg)) as [d0 w3].
      cbn [snd] in K. destruct d0 as [[|n]|]; eauto.
    - eexists _, _, _. split; [reflexivity | apply keeps_refl]. }
  destruct K3 as [dep [w3 [results1 [-> K3]]]].
  cbn [fst snd].
  match goal with
  | |- context [updateSettlementRecord w3 sid ?m ?u ?a dep ?e] =>
      destruct (updateSettlementRecord_ids w3 sid m u a dep e) as [U1 [U2 U3]];
      set (w4 := updateSettlementRecord w3 sid m u a dep e) in *
  end.
  assert (K23 : keeps w1 w3) by (eapply keeps_trans; eassumption).
  destruct K23 as [K23s [K23o K23c]].
  repeat split.
  - rewrite U2, K23o, A2. reflexivity.
  - rewrite U3, K23c, A3. reflexivity.
  - intros [H|H]; congruence.
  - intros _ _. right. eexists d, _. repeat split.
    rewrite U1. unfold externalIds at 1. rewrite K23s. exact A1.
Qed.

Lemma atMostOnce_recordsFor (w : World) :
  atMostOnce w <-> forall settlementId, recordsFor settlementId w <= 1.
Proof. unfold atMostOnce, recordsFor. apply (NoDup_count_occ string_dec). Qed.

Lemma steady_refl (env : Scheduled.Surroundings) (w : World) : steady env w w.
Proof. repeat split. auto. Qed.

Lemma steady_trans (env : Scheduled.Surroundings) (w1 w2 w3 : World) :
  steady env w1 w2 -> steady env w2 w3 -> steady env w1 w3.
Proof.
  intros [A1 [A2 A3]] [B1 [B2 B3]]. repeat split; try congruence. auto.
Qed.

Lemma steady_consult (env : Scheduled.Surroundings) (w : World) :
  steady env w (snd (Scheduled.consult w)).
Proof. repeat split. auto. Qed.

Lemma steady_processSettlement (lib : Scheduled.Library) (h : Js.Host)
    (env : Scheduled.Surroundings) (s : Settlement) (cfg : Config)
    (w : World) (results : Scheduled.ProcessingResults) :
  steady env w (fst (snd (Scheduled.processSettlement lib h env s cfg (w, results)))).
Proof.
  destruct (processSettlement_spec lib h env s cfg w results) as [Ho [Hc [Hskip Hrun]]].
  split; [exact Ho|]. split; [exact Hc|]. intros Hf Hn.
  destruct (String.eqb (stl_status s) SETTLEMENT_STATUS.DONE) eqn:Ed.
  - apply String.eqb_eq in Ed.
    destruct (isSettlementProcessed w (stl_id s)) eqn:Ep.
    + rewrite (Hskip (or_intror eq_refl)). exact Hn.
    + destruct (Hrun Ed eq_refl) as [[e [_ [_ Hs]]] | [d [o [Hg [_ Hids]]]]].
      * unfold atMostOnce, externalIds in *. rewrite Hs. exact Hn.
      * unfold atMostOnce. rewrite Hids. rewrite (Hf _ _ _ _ Hg).
        apply NoDup_app; [exact Hn | repeat constructor; intros [] |].
        intros x Hx [<-|[]].
        apply isSettlementProcessed_spec in Hx. congruence.
  - apply String.eqb_neq in Ed. rewrite (Hskip (or_introl Ed)). exact Hn.
Qed.

Lemma steady_settlementLoop (lib : Scheduled.Library) (h : Js.Host)
    (env : Scheduled.Surroundings) (cfg : Config) (settlements : list Settlement) :
  forall w results cr,
    steady env w
      (fst (fst (Scheduled.settlementLoop lib h env cfg settlements (w, results, cr)))).
Proof.
  induction settlements as [|s rest IH]; intros w results cr; cbn [Scheduled.settlementLoop].
  - apply steady_refl.
  - cbn [Scheduled.consult].
    destruct (Scheduled.remainingUsage env (w_clock w) <? 500)%Z.
    { repeat split. auto. }
    pose proof (steady_processSettlement lib h env s cfg
                  (set_clock (S (w_clock w)) w) results) as K.
    destruct (Scheduled.processSettlement lib h env s cfg _) as [c [w2 results2]].
    cbn [fst snd] in K.
    assert (K0 : steady env w w2).
    { eapply steady_trans; [|exact K]. repeat split. auto. }
    destruct c as [[o|]|e]; (eapply steady_trans; [exact K0 | apply IH]).
Qed.

Lemma setAdd_NoDup (x : string) (s : list string) :
  NoDup s -> NoDup (Scheduled.setAdd x s).
Proof.
  intros Hn. unfold Scheduled.setAdd. destruct (existsb (String.eqb x) s) eqn:E; [exact Hn|].
  apply NoDup_app; [exact Hn | repeat constructor; intros [] |].
  intros y Hy [<-|[]].
  assert (Ht : existsb (String.eqb x) s = true)
    by (apply existsb_exists; exists x; split; [exact Hy | apply String.eqb_refl]).
  congruence.
Qed.

Lemma setAdd_In (x y : string) (s : list string) :
  In y (Scheduled.setAdd x s) -> y = x \/ In y s.
Proof.
  unfold Scheduled.setAdd. destruct (existsb (String.eqb x) s); [auto|].
  intros H. apply in_app_or in H. destruct H as [H|[<-|[]]]; auto.
Qed.

Lemma processConfiguration_spec (lib : Scheduled.Library) (h : Js.Host)
    (env : Scheduled.Surroundings) (cfg : Config)
    (w : World) (results : Scheduled.ProcessingResults) (emails : list string) :
  let out := Scheduled.processConfiguration lib h env cfg (w, results, emails) in
  steady env w (fst (fst out))
  /\ (NoDup emails -> NoDup (snd out))
  /\ (forall a, In a (snd out) -> cfg_notificationEmail cfg = Some a \/ In a emails).
Proof.
  cbv zeta. unfold Scheduled.processConfiguration. cbn [Scheduled.consult].
  set (emails1 := if Js.truthy (cfg_notificationEmail cfg)
                  then Scheduled.setAdd (Js.showOpt (cfg_notificationEmail cfg)) emails
                  else emails).
  assert (H1 : NoDup emails -> NoDup emails1).
  { unfold emails1. destruct (Js.truthy _); [apply setAdd_NoDup | auto]. }
  assert (H2 : forall a, In a emails1 -> cfg_notificationEmail cfg = Some a \/ In a emails).
  { unfold emails1. intros a. destruct (cfg_notificationEmail cfg) as [e|]; simpl.
    - destruct (negb (String.eqb e "")); [|auto].
      intros Ha. apply setAdd_In in Ha. destruct Ha as [->|Ha]; auto.
    - auto. }
  destruct (Scheduled.getSettlements env (w_clock w) cfg) as [response|e].
  - pose proof (steady_settlementLoop lib h env cfg
                  (match response with Some l => l | None => [] end)
                  (set_clock (S (w_clock w)) w)
                  (Scheduled.foundMore
                     (List.length (match response with Some l => l | None => [] end)) results)
                  (Scheduled.cres_found
                     (List.length (match response with Some l => l | None => [] end))
                     (Scheduled.newConfigResult cfg))) as K.
    destruct (Scheduled.settlementLoop lib h env cfg _ _) as [[w2 results2] cr2].
    cbn [fst snd] in *. repeat split; try assumption.
    + destruct K as [K _]. exact K.
    + destruct K as [_ [K _]]. exact K.
    + destruct K as [_ [_ K]]. exact K.
  - cbn [fst snd]. repeat split; auto.
Qed.

Lemma configLoop_spec (lib : Scheduled.Library) (h : Js.Host)
    (env : Scheduled.Surroundings) (configurations : list Config) :
  forall w results emails,
    let out := Scheduled.configLoop lib h env configurations (w, results, emails) in
    steady env w (fst (fst out))
    /\ (NoDup emails -> NoDup (snd out))
    /\ (forall a, In a (snd out) ->
          (exists cfg, In cfg configurations /\ cfg_notificationEmail cfg = Some a)
          \/ In a emails).
Proof.
  induction configurations as [|cfg rest IH]; intros w results emails;
    cbn [Scheduled.configLoop].
  - cbn [fst snd]. split; [apply steady_refl|]. auto.
  - cbn [Scheduled.consult].
    destruct (Scheduled.remainingUsage env (w_clock w) <? 1000)%Z.
    { cbn [fst snd]. repeat split; auto. }
    pose proof (processConfiguration_spec lib h env cfg
                  (set_clock (S (w_clock w)) w) results emails) as P.
    cbv zeta in P.
    destruct (Scheduled.processConfiguration lib h env cfg _) as [[w1 results1] emails1].
    cbn [fst snd] in P. destruct P as [P1 [P2 P3]].
    specialize (IH w1 results1 emails1). cbv zeta in IH. destruct IH as [I1 [I2 I3]].
    split; [|split].
    + eapply steady_trans; [|exact I1]. eapply steady_trans; [|exact P1]. repeat split. auto.
    + auto.
    + intros a Ha. destruct (I3 a Ha) as [[c [Hc He]] | Hin].
      * left. exists c. split; [right; exact Hc | exact He].
      * destruct (P3 a Hin) as [He | Hin']; [|right; exact Hin'].
        left. exists cfg. split; [left; reflexivity | exact He].
Qed.

Lemma sendNotificationEmail_spec (h : Js.Host) (env : Scheduled.Surroundings)
    (a : string) (results : Scheduled.ProcessingResults) (w : World) :
  let w' := Scheduled.sendNotificationEmail h env a results w in
  w_settlements w' = w_settlements w
  /\ w_outbox w' = w_outbox w ++
       (if Scheduled.emailSendThrows env (w_clock w) then []
        else [summaryFor h results a]).
Proof.
  cbv zeta. unfold Scheduled.sendNotificationEmail. cbn [Scheduled.consult].
  destruct (Scheduled.emailSendThrows env (w_clock w)); simpl;
    [rewrite app_nil_r|]; split; reflexivity.
Qed.

(** Sending to each address of a list: one summary per address, in order,
    less those for which [email.send] threw. *)
Lemma sendAll_spec (h : Js.Host) (env : Scheduled.Surroundings)
    (results : Scheduled.ProcessingResults) (addresses : list string) :
  forall w,
    let w' := fold_left (fun w0 a => Scheduled.sendNotificationEmail h env a results w0)
                        addresses w in
    w_settlements w' = w_settlements w
    /\ exists reached,
         w_outbox w' = w_outbox w ++ map (summaryFor h results) reached
         /\ (forall a, In a reached -> In a addresses)
         /\ (NoDup addresses -> NoDup reached)
         /\ ((forall n, Scheduled.emailSendThrows env n = false) -> reached = addresses).
Proof.
  induction addresses as [|a rest IH]; intros w; cbn [fold_left].
  - split; [reflexivity|]. exists []. simpl. rewrite app_nil_r. repeat split; auto.
  - specialize (IH (Scheduled.sendNotificationEmail h env a results w)).
    cbv zeta in IH. destruct IH as [Is [reached [Io [Iin [Ind Iall]]]]].
    destruct (sendNotificationEmail_spec h env a results w) as [Ss So].
    rewrite Is, Io, Ss, So. split; [reflexivity|].
    destruct (Scheduled.emailSendThrows env (w_clock w)) eqn:Et.
    + exists reached. repeat split.
      * rewrite app_nil_r. reflexivity.
      * intros x Hx. right. apply Iin. exact Hx.
      * intros Hn. apply Ind. inversion Hn; assumption.
      * intros Hall. rewrite Hall in Et. discriminate.
    + exists (a :: reached). repeat split.
      * simpl. rewrite <- app_assoc. reflexivity.
      * intros x [<-|Hx]; [left; reflexivity | right; apply Iin; exact Hx].
      * intros Hn. inversion Hn as [|? ? Hnotin Hrest]; subst.
        constructor; [|apply Ind; exact Hrest].
        intros Hin. apply Hnotin. apply Iin. exact Hin.
      * intros Hall. rewrite (Iall Hall). reflexivity.
Qed.

Lemma loadAllConfigurations_active (w : World) (configurations : list Config) :
  loadAllConfigurations w = Js.Return configurations ->
  forall cfg, In cfg configurations ->
    exists id r, In (id, r) (w_configs w) /\ cr_isActive r = true
                 /\ cfg_notificationEmail cfg = cr_notificationEmail r.
Proof.
  unfold loadAllConfigurations. intros H cfg Hin.
  assert (Hc : In cfg (map toConfig (filter (fun r => cr_isActive (snd r)) (w_configs w)))).
  { destruct (map toConfig _) as [|c cs]; [discriminate|]. injection H as <-. exact Hin. }
  apply in_map_iff in Hc. destruct Hc as [[id r] [<- Hf]].
  apply filter_In in Hf. destruct Hf as [Hi Ha]. exists id, r. repeat split; assumption.
Qed.

(** One run of the script: what it does to the settlement records and what
    it sends. *)
Lemma execute_spec (lib : Scheduled.Library) (h : Js.Host)
    (env : Scheduled.Surroundings) (w : World) :
  let w' := fst (Scheduled.execute lib h env w) in
  let results := snd (Scheduled.execute lib h env w) in
  (answersWhatIsAsked env -> atMostOnce w -> atMostOnce w')
  /\ exists reached,
       w_outbox w' = w_outbox w ++ map (summaryFor h results) reached
       /\ NoDup reached
       /\ (forall a, In a reached ->
             exists id r, In (id, r) (w_configs w) /\ cr_isActive r = true
                          /\ cr_notificationEmail r = Some a).
Proof.
  cbv zeta. unfold Scheduled.execute. cbn [Scheduled.consult].
  set (w0 := set_clock (S (w_clock w)) w).
  destruct (loadAllConfigurations w0) as [configurations|e] eqn:El.
  - set (start := Scheduled.initialResults (Scheduled.now env (w_clock w))).
    pose proof (configLoop_spec lib h env configurations w0 start []) as C.
    cbv zeta in C.
    destruct (Scheduled.configLoop lib h env configurations (w0, start, []))
      as [[w1 results1] emails].
    cbn [fst snd] in C. destruct C as [[C1 [C2 C3]] [C4 C5]].
    set (results2 := Scheduled.finished (Scheduled.now env (w_clock w1)) results1).
    destruct (sendAll_spec h env results2 emails (set_clock (S (w_clock w1)) w1))
      as [Ss [reached [So [Sin [Snd _]]]]].
    cbn [fst snd]. split.
    + intros Hf Hn. unfold atMostOnce, externalIds in *. rewrite Ss. exact (C3 Hf Hn).
    + exists reached. split; [|split].
      * rewrite So. f_equal. exact C1.
      * apply Snd. apply C4. constructor.
      * intros a Ha. destruct (C5 a (Sin a Ha)) as [[cfg [Hc He]] | []].
        destruct (loadAllConfigurations_active w0 configurations El cfg Hc)
          as [id [r [Hi [Hact Hem]]]].
        exists id, r. repeat split; [exact Hi | exact Hact | congruence].
  - unfold loadConfiguration. rewrite El. cbn [fst snd]. split.
    + intros _ Hn. exact Hn.
    + exists []. simpl. rewrite app_nil_r. repeat split; [constructor | intros a []].
Qed.

(** Skipped settlements, and the only way a settlement record is created. *)
Lemma processSettlement_creates_only_new (lib : Scheduled.Library) (h : Js.Host)
    (env : Scheduled.Surroundings) (s : Settlement) (cfg : Config)
    (w : World) (results : Scheduled.ProcessingResults) :
  let out := Scheduled.processSettlement lib h env s cfg (w, results) in
  (w_settlements (fst (snd out)) <> w_settlements w ->
   stl_status s = SETTLEMENT_STATUS.DONE
   /\ isSettlementProcessed w (stl_id s) = false
   /\ ~ In (stl_id s) (externalIds w))
  /\ (stl_status s <> SETTLEMENT_STATUS.DONE \/ isSettlementProcessed w (stl_id s) = true ->
      fst out = Js.Return None
      /\ fst (snd out) = w
      /\ Scheduled.pr_settlementsSkipped (snd (snd out))
         = S (Scheduled.pr_settlementsSkipped results)
      /\ Scheduled.pr_errors (snd (snd out)) = Scheduled.pr_errors results).
Proof.
  cbv zeta.
  destruct (processSettlement_spec lib h env s cfg w results) as [_ [_ [Hskip _]]].
  split.
  - intros Hne.
    destruct (String.eqb (stl_status s) SETTLEMENT_STATUS.DONE) eqn:Ed.
    + apply String.eqb_eq in Ed.
      destruct (isSettlementProcessed w (stl_id s)) eqn:Ep.
      * rewrite (Hskip (or_intror eq_refl)) in Hne. exfalso. apply Hne. reflexivity.
      * repeat split; [exact Ed|]. intros Hin.
        apply isSettlementProcessed_spec in Hin. congruence.
    + apply String.eqb_neq in Ed.
      rewrite (Hskip (or_introl Ed)) in Hne. exfalso. apply Hne. reflexivity.
  - intros Hs. rewrite (Hskip Hs). repeat split.
Qed.

Lemma runs_atMostOnce (lib : Scheduled.Library) (h : Js.Host)
    (envs : list Scheduled.Surroundings) :
  Forall answersWhatIsAsked envs ->
  forall w, atMostOnce w -> atMostOnce (Scheduled.runs lib h envs w).
Proof.
  unfold Scheduled.runs. induction envs as [|env envs IH]; intros Hf w Hn; cbn [fold_left].
  - exact Hn.
  - inversion Hf as [|? ? Hf1 Hf2]; subst. apply IH; [exact Hf2|].
    destruct (execute_spec lib h env w) as [He _]. exact (He Hf1 Hn).
Qed.

(** C1.  At-most-once processing.  [processSettlement] changes the
    settlement records only for a settlement whose status is [Done] and for
    which [isSettlementProcessed] finds no record with its id; a settlement
    skipped for either reason is returned as [null] with the account as it
    was, one more settlement counted as skipped and no error recorded.
    Hence, as long as the API answers a request for a settlement with that
    settlement, an account in which no Windcave settlement id has two
    records stays so through any number of runs of the script, whatever
    settlements each run is handed. *)
Theorem at_most_once_processing :
  forall (lib : Scheduled.Library) (h : Js.Host),
    (forall env s cfg w results,
       let out := Scheduled.processSettlement lib h env s cfg (w, results) in
       (w_settlements (fst (snd out)) <> w_settlements w ->
        stl_status s = SETTLEMENT_STATUS.DONE
        /\ isSettlementProcessed w (stl_id s) = false
        /\ ~ In (stl_id s) (externalIds w))
       /\ (stl_status s <> SETTLEMENT_STATUS.DONE
           \/ isSettlementProcessed w (stl_id s) = true ->
           fst out = Js.Return None
           /\ fst (snd out) = w
           /\ Scheduled.pr_settlementsSkipped (snd (snd out))
              = S (Scheduled.pr_settlementsSkipped results)
           /\ Scheduled.pr_errors (snd (snd out)) = Scheduled.pr_errors results))
    /\ (forall envs w,
          Forall answersWhatIsAsked envs ->
          (forall settlementId, recordsFor settlementId w <= 1) ->
          forall settlementId, recordsFor settlementId (Scheduled.runs lib h envs w) <= 1).
Proof.
  intros lib h. split.
  - intros env s cfg w results. apply processSettlement_creates_only_new.
  - intros envs w Hf Hw. apply atMostOnce_recordsFor.
    apply runs_atMostOnce; [exact Hf|]. apply atMostOnce_recordsFor. exact Hw.
Qed.

(** ** The notification *)

Lemma substring_skip (a t : string) (n : nat) :
  substring (String.length a) n (a ++ t) = substring 0 n t.
Proof. induction a as [|c a IH]; simpl; [reflexivity | exact IH]. Qed.

Lemma substring_prefix (s b : string) :
  substring 0 (String.length s) (s ++ b) = s.
Proof.
  induction s as [|c s IH]; simpl.
  - destruct b; reflexivity.
  - rewrite IH. reflexivity.
Qed.

Lemma append_assoc (a b c : string) : ((a ++ b) ++ c = a ++ (b ++ c))%string.
Proof. induction a as [|x a IH]; simpl; [reflexivity | rewrite IH; reflexivity]. Qed.

Lemma includes_inner (a s b : string) :
  s <> "" -> Js.includes s (a ++ s ++ b) = true.
Proof.
  intros Hs. unfold Js.includes.
  destruct (index 0 s (a ++ s ++ b)) eqn:E; [reflexivity|].
  exfalso. apply (index_correct3 0 (String.length a) _ _ E Hs); [lia|].
  rewrite substring_skip. apply substring_prefix.
Qed.

(** C9.  One run sends, after the configurations are processed, one summary
    to each address collected, and the addresses collected are distinct
    notification addresses of active configurations: no address receives
    two emails, however many configurations name it.  Every email of the
    run carries the same body, made from the final results; its
    per-configuration section is empty when at most one configuration
    result was recorded, and otherwise is the title 'Results by
    Configuration:' followed by a block per configuration result. *)
Theorem one_summary_per_address :
  forall (lib : Scheduled.Library) (h : Js.Host) (env : Scheduled.Surroundings) (w : World),
    let w' := fst (Scheduled.execute lib h env w) in
    let results := snd (Scheduled.execute lib h env w) in
    (exists reached,
        w_outbox w' = w_outbox w ++ map (summaryFor h results) reached
        /\ NoDup reached
        /\ (forall a, In a reached ->
              exists id r, In (id, r) (w_configs w) /\ cr_isActive r = true
                           /\ cr_notificationEmail r = Some a))
    /\ Scheduled.emailBody h results
       = (Scheduled.bodyHead h results ++ Scheduled.breakdown results
          ++ Scheduled.errorsBlock results ++ Scheduled.unmatchedNote results
          ++ Scheduled.bodyFoot)%string
    /\ (List.length (Scheduled.pr_configResults results) <= 1 ->
        Scheduled.breakdown results = "")
    /\ (1 < List.length (Scheduled.pr_configResults results) ->
        Scheduled.breakdown results
        = (Scheduled.BREAKDOWN_TITLE ++ Js.nl ++ "-------------------------" ++ Js.nl
           ++ String.concat "" (map Scheduled.configBlock (Scheduled.pr_configResults results))
           ++ Js.nl)%string
        /\ Js.includes Scheduled.BREAKDOWN_TITLE (Scheduled.emailBody h results) = true).
Proof.
  intros lib h env w w' results.
  destruct (execute_spec lib h env w) as [_ He]. fold w' results in He.
  split; [exact He|]. split; [reflexivity|]. split.
  - intros Hl. unfold Scheduled.breakdown.
    replace (Nat.ltb 1 (List.length (Scheduled.pr_configResults results))) with false;
      [reflexivity|]. symmetry. apply Nat.ltb_ge. exact Hl.
  - intros Hl.
    assert (Hb : Scheduled.breakdown results
                 = (Scheduled.BREAKDOWN_TITLE ++ Js.nl ++ "-------------------------" ++ Js.nl
                    ++ String.concat "" (map Scheduled.configBlock
                                             (Scheduled.pr_configResults results))
                    ++ Js.nl)%string).
    { unfold Scheduled.breakdown.
      replace (Nat.ltb 1 (List.length (Scheduled.pr_configResults results))) with true;
        [reflexivity|]. symmetry. apply Nat.ltb_lt. exact Hl. }
    split; [exact Hb|].
    unfold Scheduled.emailBody. rewrite Hb.
    rewrite (append_assoc Scheduled.BREAKDOWN_TITLE).
    apply includes_inner. discriminate.
Qed.

(** ** The engine's report and the records it leaves *)

(** [createTransactionDetailRecord] appends one transaction detail under
    the next free internal id. *)
Lemma createTransactionDetailRecord_eq (w : World) (t : WindcaveTxn) (sid : nat) :
  createTransactionDetailRecord w t sid
  = (w_nextId w,
     set_nextId (S (w_nextId w))
       (set_txnDetails (w_txnDetails w ++ [(w_nextId w, newDetail t sid)]) w)).
Proof. reflexivity. Qed.

Lemma matchTransactions_eq (lib : Scheduled.Library) (h : Js.Host) (w : World)
    (txns : list WindcaveTxn) (sid : nat) :
  Scheduled.matchTransactions lib h w txns sid
  = fold_left (matchStep (locateOf lib) (validateOf lib h) sid) txns
              (w, {| matched := []; unmatched := [] |}).
Proof. destruct lib; reflexivity. Qed.

(** The look-ups read the ledger and nothing else of the account. *)
Lemma finders_read_the_ledger (w w' : World) :
  sameLedger w w' ->
  (forall r, FileCabinet.findNetSuiteTransaction w' r = FileCabinet.findNetSuiteTransaction w r)
  /\ (forall r, InstallDoc.findNetSuiteTransaction w' r = InstallDoc.findNetSuiteTransaction w r)
  /\ (forall a x t, InstallDoc.findNetSuiteTransactionByAuthCode w' a x t
                    = InstallDoc.findNetSuiteTransactionByAuthCode w a x t).
Proof.
  intros [Hl Ha]. repeat split; intros.
  - unfold FileCabinet.findNetSuiteTransaction. rewrite Hl. reflexivity.
  - unfold InstallDoc.findNetSuiteTransaction, InstallDoc.searchByTranid. rewrite Hl. reflexivity.
  - unfold InstallDoc.findNetSuiteTransactionByAuthCode, InstallDoc.searchByAuthCode.
    rewrite Hl, Ha. reflexivity.
Qed.

Lemma sameLedger_logCall (c : Call) (w : World) : sameLedger w (logCall c w).
Proof. split; reflexivity. Qed.

Lemma sameLedger_trans (w1 w2 w3 : World) :
  sameLedger w1 w2 -> sameLedger w2 w3 -> sameLedger w1 w3.
Proof. intros [A B] [C D]. split; congruence. Qed.

Lemma entryFor_sameLedger (lib : Scheduled.Library) (w w' : World) (t : WindcaveTxn) :
  sameLedger w w' -> entryFor lib w' t = entryFor lib w t.
Proof.
  intros Hs. unfold entryFor.
  destruct lib; cbn [locateOf].
  - unfold FileCabinet.locate. cbn [fst].
    destruct (finders_read_the_ledger (logCall (CallFindNetSuiteTransaction t) w)
                (logCall (CallFindNetSuiteTransaction t) w')) as [H _]; [|apply H].
    destruct Hs. split; assumption.
  - unfold InstallDoc.locate.
    destruct (finders_read_the_ledger (logCall (CallFindNetSuiteTransaction t) w)
                (logCall (CallFindNetSuiteTransaction t) w')) as [_ [H _]].
    { destruct Hs. split; assumption. }
    rewrite H.
    destruct (InstallDoc.findNetSuiteTransaction _ _); [reflexivity|].
    destruct (Js.truthy (txn_authCode t) || Js.truthy (txn_id t))%bool; [|reflexivity].
    cbn [fst].
    destruct (finders_read_the_ledger
                (logCall (CallFindNetSuiteTransactionByAuthCode t)
                   (logCall (CallFindNetSuiteTransaction t) w))
                (logCall (CallFindNetSuiteTransactionByAuthCode t)
                   (logCall (CallFindNetSuiteTransaction t) w'))) as [_ [_ H2]]; [|apply H2].
    destruct Hs. split; assumption.
Qed.

Lemma locateOf_world (lib : Scheduled.Library) (w : World) (t : WindcaveTxn) :
  exists cs, snd (locateOf lib w t) = set_calls (w_calls w ++ cs) w.
Proof.
  destruct lib; cbn [locateOf].
  - eexists. reflexivity.
  - unfold InstallDoc.locate.
    destruct (InstallDoc.findNetSuiteTransaction _ _).
    + eexists. reflexivity.
    + destruct (Js.truthy (txn_authCode t) || Js.truthy (txn_id t))%bool.
      * exists [CallFindNetSuiteTransaction t; CallFindNetSuiteTransactionByAuthCode t].
        cbn [snd]. unfold logCall. cbn. rewrite <- app_assoc. reflexivity.
      * eexists. reflexivity.
Qed.

Lemma updateRow_fresh {A : Type} (id : nat) (f : A -> A) (l : list (nat * A)) (x : A) :
  (forall k r, In (k, r) l -> k < id) ->
  updateRow id f (l ++ [(id, x)]) = l ++ [(id, f x)].
Proof.
  intros H. unfold updateRow. rewrite map_app. cbn [map fst snd]. rewrite Nat.eqb_refl.
  f_equal. rewrite <- (map_id l) at 2. apply map_ext_in. intros [k r] Hin. cbn [fst snd].
  pose proof (H k r Hin) as Hlt.
  destruct (Nat.eqb k id) eqn:E; [apply Nat.eqb_eq in E; lia | reflexivity].
Qed.

Lemma updateRow_length {A : Type} (id : nat) (f : A -> A) (l : list (nat * A)) :
  List.length (updateRow id f l) = List.length l.
Proof. unfold updateRow. apply length_map. Qed.

(** One turn of the loop, in full. *)
(** One turn of the loop, in an account whose ledger is that of the
    account [w0] the loop started from: the line is decided as in [w0],
    its transaction detail is appended, and the entry goes to one of the
    two arrays. *)
Lemma matchStep_trace (lib : Scheduled.Library) (h : Js.Host) (sid : nat)
    (w : World) (res : MatchResults) (t : WindcaveTxn) :
  let out := matchStep (locateOf lib) (validateOf lib h) sid (w, res) t in
  w_nextId (fst out) = S (w_nextId w)
  /\ sameLedger w (fst out)
  /\ w_undeposited (fst out) = w_undeposited w
  /\ w_deposits (fst out) = w_deposits w
  /\ List.length (w_txnDetails (fst out)) = S (List.length (w_txnDetails w))
  /\ matched (snd out)
     = matched res ++ (if autoMatched lib h w t then [matchedEntry lib w (w_nextId w, t)] else [])
  /\ unmatched (snd out)
     = unmatched res ++ (if autoMatched lib h w t then []
                         else [unmatchedEntry lib h w (w_nextId w, t)])
  /\ (freshIds w ->
      w_txnDetails (fst out) = w_txnDetails w ++ [(w_nextId w, settledDetail lib h w sid t)]).
Proof.
  cbv zeta. unfold matchStep. rewrite createTransactionDetailRecord_eq.
  unfold autoMatched, settledDetail, unmatchedEntry, matchedEntry, isRefund. cbn [fst snd].
  set (w1 := set_nextId (S (w_nextId w))
               (set_txnDetails (w_txnDetails w ++ [(w_nextId w, newDetail t sid)]) w)).
  destruct (String.eqb (txn_type t) TRANSACTION_TYPES.REFUND) eqn:Er; cbn [negb andb fst snd].
  { unfold w1. cbn. rewrite length_app. cbn. rewrite !app_nil_r.
    repeat split; try reflexivity; try lia. }
  assert (Hs1 : sameLedger w w1) by (split; reflexivity).
  assert (He : entryFor lib w1 t = entryFor lib w t) by (apply entryFor_sameLedger; exact Hs1).
  unfold verdict. rewrite <- He. unfold entryFor.
  destruct (locateOf_world lib w1 t) as [cs Hw2].
  destruct (locateOf lib w1 t) as [ns w2]. cbn [fst snd] in *. subst w2.
  destruct (isValid (validateOf lib h ns t)); cbn [fst snd matched unmatched];
    unfold submitTxnDetail, logCall, w1; cbn -[updateRow];
    rewrite updateRow_length, length_app; cbn -[updateRow]; rewrite ?app_nil_r;
    (repeat split; try reflexivity; try lia);
    intros Hf; apply updateRow_fresh; exact Hf.
Qed.

Lemma verdict_sameLedger (lib : Scheduled.Library) (h : Js.Host) (w w' : World)
    (t : WindcaveTxn) :
  sameLedger w w' -> verdict lib h w' t = verdict lib h w t.
Proof. intros Hs. unfold verdict. rewrite (entryFor_sameLedger lib w w' t Hs). reflexivity. Qed.

Lemma autoMatched_sameLedger (lib : Scheduled.Library) (h : Js.Host) (w w' : World)
    (t : WindcaveTxn) :
  sameLedger w w' -> autoMatched lib h w' t = autoMatched lib h w t.
Proof. intros Hs. unfold autoMatched. rewrite (verdict_sameLedger lib h w w' t Hs). reflexivity. Qed.

Lemma settledDetail_sameLedger (lib : Scheduled.Library) (h : Js.Host) (w w' : World)
    (sid : nat) (t : WindcaveTxn) :
  sameLedger w w' -> settledDetail lib h w' sid t = settledDetail lib h w sid t.
Proof.
  intros Hs. unfold settledDetail.
  rewrite (verdict_sameLedger lib h w w' t Hs), (entryFor_sameLedger lib w w' t Hs).
  reflexivity.
Qed.

(** The whole loop, in full. *)
(** The whole loop: the transaction details appended, and the two arrays,
    line by line. *)
Lemma matchLoop_trace (lib : Scheduled.Library) (h : Js.Host) (sid : nat)
    (txns : list WindcaveTxn) :
  forall w res,
    let out := fold_left (matchStep (locateOf lib) (validateOf lib h) sid) txns (w, res) in
    w_nextId (fst out) = w_nextId w + List.length txns
    /\ sameLedger w (fst out)
    /\ w_undeposited (fst out) = w_undeposited w
    /\ w_deposits (fst out) = w_deposits w
    /\ List.length (w_txnDetails (fst out)) = List.length (w_txnDetails w) + List.length txns
    /\ matched (snd out)
       = matched res ++ map (matchedEntry lib w)
                            (filter (fun p => autoMatched lib h w (snd p)) (numbered w txns))
    /\ unmatched (snd out)
       = unmatched res ++ map (unmatchedEntry lib h w)
                              (filter (fun p => negb (autoMatched lib h w (snd p)))
                                      (numbered w txns))
    /\ (freshIds w ->
        w_txnDetails (fst out)
        = w_txnDetails w ++ combine (seq (w_nextId w) (List.length txns))
                                    (map (settledDetail lib h w sid) txns)).
Proof.
  induction txns as [|t rest IH]; intros w res; cbn [fold_left].
  - cbn. rewrite !app_nil_r, !Nat.add_0_r. repeat split; reflexivity.
  - pose proof (matchStep_trace lib h sid w res t) as S. cbv zeta in S.
    destruct (matchStep (locateOf lib) (validateOf lib h) sid (w, res) t) as [w1 res1].
    cbn [fst snd] in S. destruct S as [S1 [S2 [S3 [S4 [S5 [S6 [S7 S8]]]]]]].
    specialize (IH w1 res1). cbv zeta in IH.
    destruct IH as [I1 [I2 [I3 [I4 [I5 [I6 [I7 I8]]]]]]].
    assert (Hnum : numbered w (t :: rest) = (w_nextId w, t) :: numbered w1 rest).
    { unfold numbered. cbn [List.length seq combine]. rewrite S1. reflexivity. }
    assert (Ha : forall p : nat * WindcaveTxn,
               autoMatched lib h w1 (snd p) = autoMatched lib h w (snd p))
      by (intros p; apply autoMatched_sameLedger; exact S2).
    assert (Hna : forall p : nat * WindcaveTxn,
               negb (autoMatched lib h w1 (snd p)) = negb (autoMatched lib h w (snd p)))
      by (intros p; rewrite Ha; reflexivity).
    assert (Hm : forall l, map (matchedEntry lib w1) l = map (matchedEntry lib w) l).
    { intros l. apply map_ext. intros p. unfold matchedEntry.
      rewrite (entryFor_sameLedger lib w w1 (snd p) S2). reflexivity. }
    assert (Hu : forall l, map (unmatchedEntry lib h w1) l = map (unmatchedEntry lib h w) l).
    { intros l. apply map_ext. intros p. unfold unmatchedEntry.
      rewrite (verdict_sameLedger lib h w w1 (snd p) S2). reflexivity. }
    split; [rewrite I1, S1; cbn [List.length]; lia|].
    split; [eapply sameLedger_trans; eassumption|].
    split; [congruence|]. split; [congruence|].
    split; [rewrite I5, S5; cbn [List.length]; lia|].
    split; [|split].
    + rewrite I6, S6, Hnum, Hm, (filter_ext _ _ Ha). cbn [filter snd].
      rewrite <- app_assoc. f_equal.
      destruct (autoMatched lib h w t); reflexivity.
    + rewrite I7, S7, Hnum, Hu, (filter_ext _ _ Hna). cbn [filter snd].
      rewrite <- app_assoc. f_equal.
      destruct (autoMatched lib h w t); reflexivity.
    + intros Hf.
      assert (Hf1 : freshIds w1).
      { intros id r Hin. rewrite (S8 Hf) in Hin. rewrite S1.
        apply in_app_or in Hin. destruct Hin as [Hin | [Heq | []]].
        - pose proof (Hf id r Hin). lia.
        - injection Heq as <- _. lia. }
      rewrite (I8 Hf1), (S8 Hf), S1. cbn [List.length seq map combine].
      rewrite <- app_assoc. cbn [app]. do 3 f_equal.
      apply map_ext. intros t'. apply settledDetail_sameLedger. exact S2.
Qed.

Lemma combine_map_r {A B C : Type} (g : B -> C) (a : list A) (l : list B) :
  combine a (map g l) = map (fun p => (fst p, g (snd p))) (combine a l).
Proof.
  revert a. induction l as [|x l IH]; intros [|y a]; cbn; try reflexivity.
  rewrite IH. reflexivity.
Qed.

Lemma filter_map_swap {A B : Type} (k : A -> B) (p : B -> bool) (l : list A) :
  filter p (map k l) = map k (filter (fun x => p (k x)) l).
Proof.
  induction l as [|x l IH]; cbn; [reflexivity|].
  destruct (p (k x)); cbn; rewrite IH; reflexivity.
Qed.

Lemma filter_none {A : Type} (p : A -> bool) (l : list A) :
  (forall x, In x l -> p x = false) -> filter p l = [].
Proof.
  induction l as [|x l IH]; intros H; cbn; [reflexivity|].
  rewrite (H x (or_introl eq_refl)). apply IH. intros y Hy. apply H. right. exact Hy.
Qed.

Lemma filter_all {A : Type} (p : A -> bool) (l : list A) :
  (forall x, In x l -> p x = true) -> filter p l = l.
Proof.
  induction l as [|x l IH]; intros H; cbn; [reflexivity|].
  rewrite (H x (or_introl eq_refl)). f_equal. apply IH. intros y Hy. apply H. right. exact Hy.
Qed.

Lemma settledDetail_parent (lib : Scheduled.Library) (h : Js.Host) (w : World) (sid : nat)
    (t : WindcaveTxn) :
  td_parentSettlement (settledDetail lib h w sid t) = sid
  /\ td_matched (settledDetail lib h w sid t) = autoMatched lib h w t
  /\ td_inDeposit (settledDetail lib h w sid t) = false
  /\ td_transactionId (settledDetail lib h w sid t) = txn_id t
  /\ td_amount (settledDetail lib h w sid t) = txn_amount t.
Proof.
  unfold settledDetail, autoMatched.
  destruct (isRefund t); [repeat split|].
  destruct (isValid (verdict lib h w t)); repeat split.
Qed.

(** The transaction details of the settlement after the loop are those
    of the lines, in the order of the lines. *)
Lemma details_after_matching (lib : Scheduled.Library) (h : Js.Host) (w : World)
    (txns : list WindcaveTxn) (sid : nat) :
  freshIds w -> noDetailsOf sid w ->
  getAllTransactionsForSettlement (fst (Scheduled.matchTransactions lib h w txns sid)) sid
  = map (fun p => (fst p, settledDetail lib h w sid (snd p))) (numbered w txns).
Proof.
  intros Hf Hn. rewrite matchTransactions_eq.
  destruct (matchLoop_trace lib h sid txns w {| matched := []; unmatched := [] |})
    as [_ [_ [_ [_ [_ [_ [_ H]]]]]]].
  unfold getAllTransactionsForSettlement. rewrite (H Hf), filter_app.
  rewrite filter_none.
  2:{ intros [id r] Hin. cbn [snd]. apply Nat.eqb_neq. exact (Hn id r Hin). }
  cbn [app]. rewrite combine_map_r. fold (numbered w txns).
  apply filter_all. intros [id r] Hin. apply in_map_iff in Hin.
  destruct Hin as [p [Hp _]]. injection Hp as _ <-. cbn [snd].
  apply Nat.eqb_eq. apply (settledDetail_parent lib h w sid (snd p)).
Qed.

Lemma numbered_snd (w : World) (txns : list WindcaveTxn) :
  map snd (numbered w txns) = txns /\ map fst (numbered w txns) = seq (w_nextId w) (List.length txns).
Proof.
  unfold numbered. generalize (w_nextId w). induction txns as [|t l IH]; intros n; cbn.
  - split; reflexivity.
  - destruct (IH (S n)) as [A B]. rewrite A, B. split; reflexivity.
Qed.

Lemma filter_on_snd {A B : Type} (f : B -> bool) (l : list (A * B)) :
  map snd (filter (fun p => f (snd p)) l) = filter f (map snd l).
Proof.
  induction l as [|[a b] l IH]; cbn; [reflexivity|].
  destruct (f b); cbn; rewrite IH; reflexivity.
Qed.

Lemma autoMatched_passed (lib : Scheduled.Library) (h : Js.Host) (w : World) (t : WindcaveTxn) :
  autoMatched lib h w t = true ->
  txn_type t <> TRANSACTION_TYPES.REFUND
  /\ exists e, entryFor lib w t = Some e
               /\ ns_undepositedFunds e <> Js.Str "F"
               /\ PrimFloat.ltb MISC.AMOUNT_TOLERANCE (amountDiff e t) = false.
Proof.
  unfold autoMatched, verdict, isRefund. intros H. apply andb_true_iff in H.
  destruct H as [Hr Hv]. split.
  { apply String.eqb_neq. destruct (String.eqb (txn_type t) TRANSACTION_TYPES.REFUND);
      [discriminate | reflexivity]. }
  destruct (entryFor lib w t) as [e|]; [|destruct lib; discriminate].
  exists e. split; [reflexivity|].
  assert (Hboth : Js.strictEqStr (ns_undepositedFunds e) "F" = false
                  /\ PrimFloat.ltb MISC.AMOUNT_TOLERANCE (amountDiff e t) = false).
  { unfold amountDiff.
    destruct lib; cbn [validateOf] in Hv;
      unfold FileCabinet.validatePaymentForDeposit, InstallDoc.validatePaymentForDeposit in Hv;
      destruct (Js.strictEqStr (ns_undepositedFunds e) "F"); try discriminate;
      destruct (PrimFloat.ltb _ _); try discriminate; split; reflexivity. }
  destruct Hboth as [Hf Ha]. split; [|exact Ha].
  intros Heq. rewrite Heq in Hf. discriminate.
Qed.

(** The lines of the two arrays are the lines that pass and the lines
    that do not, each decided in the account the loop started from. *)
Lemma matching_lists :
  forall (lib : Scheduled.Library) (h : Js.Host) (w : World)
         (transactions : list WindcaveTxn) (settlementInternalId : nat),
    let res := snd (Scheduled.matchTransactions lib h w transactions settlementInternalId) in
    map mr_windcaveTxn (matched res) = filter (autoMatched lib h w) transactions
    /\ map um_windcaveTxn (unmatched res)
       = filter (fun t => negb (autoMatched lib h w t)) transactions
    /\ List.length (matched res) + List.length (unmatched res) = List.length transactions.
Proof.
  intros lib h w txns sid res. subst res. rewrite matchTransactions_eq.
  destruct (matchLoop_trace lib h sid txns w {| matched := []; unmatched := [] |})
    as [_ [_ [_ [_ [_ [Hm [Hu _]]]]]]].
  cbn [matched unmatched app] in Hm, Hu.
  destruct (numbered_snd w txns) as [Hs _].
  assert (H1 : map mr_windcaveTxn (matched (snd (fold_left
                 (matchStep (locateOf lib) (validateOf lib h) sid) txns
                 (w, {| matched := []; unmatched := [] |}))))
               = filter (autoMatched lib h w) txns).
  { rewrite Hm, map_map. cbn [matchedEntry mr_windcaveTxn].
    rewrite (filter_on_snd (autoMatched lib h w)), Hs. reflexivity. }
  assert (H2 : map um_windcaveTxn (unmatched (snd (fold_left
                 (matchStep (locateOf lib) (validateOf lib h) sid) txns
                 (w, {| matched := []; unmatched := [] |}))))
               = filter (fun t => negb (autoMatched lib h w t)) txns).
  { rewrite Hu, map_map. cbn [unmatchedEntry um_windcaveTxn].
    rewrite (filter_on_snd (fun t => negb (autoMatched lib h w t))), Hs. reflexivity. }
  split; [exact H1|]. split; [exact H2|].
  rewrite <- (length_map mr_windcaveTxn), <- (length_map um_windcaveTxn), H1, H2.
  apply filter_length.
Qed.

(** X1.  [matchTransactions] decides each line on its own and against the
    account as it was when the loop started: the lines of the [matched]
    array are, in order, the lines that are no refund and whose ledger
    entry passes the validator; all others are in the [unmatched] array;
    no line is lost or listed twice.  The transaction details written for
    earlier lines do not change what is found for later ones. *)
Theorem each_line_is_decided_on_its_own :
  forall (lib : Scheduled.Library) (h : Js.Host) (w : World)
         (transactions : list WindcaveTxn) (settlementInternalId : nat),
    let res := snd (Scheduled.matchTransactions lib h w transactions settlementInternalId) in
    map mr_windcaveTxn (matched res) = filter (autoMatched lib h w) transactions
    /\ map um_windcaveTxn (unmatched res)
       = filter (fun t => negb (autoMatched lib h w t)) transactions
    /\ List.length (matched res) + List.length (unmatched res) = List.length transactions.
Proof. exact matching_lists. Qed.

(** X2.  Whatever the account and the settlement lines, every entry of
    the [matched] array of [matchTransactions] is for a line that is no
    refund and has a ledger entry whose undeposited-funds flag is not the
    string ['F'] and whose amount is not further than the tolerance from
    the amount of the line: nothing is matched that the validator would
    turn down. *)
Theorem auto_matching_respects_the_validator :
  forall (lib : Scheduled.Library) (h : Js.Host) (w : World)
         (transactions : list WindcaveTxn) (settlementInternalId : nat),
    Forall (fun m =>
              txn_type (mr_windcaveTxn m) <> TRANSACTION_TYPES.REFUND
              /\ exists e, mr_nsTransaction m = Some e
                           /\ ns_undepositedFunds e <> Js.Str "F"
                           /\ PrimFloat.ltb MISC.AMOUNT_TOLERANCE
                                            (amountDiff e (mr_windcaveTxn m)) = false)
           (matched (snd (Scheduled.matchTransactions lib h w transactions
                                                      settlementInternalId))).
Proof.
  intros lib h w txns sid. rewrite matchTransactions_eq.
  destruct (matchLoop_trace lib h sid txns w {| matched := []; unmatched := [] |})
    as [_ [_ [_ [_ [_ [Hm _]]]]]].
  rewrite Hm. cbn [matched app]. apply Forall_forall. intros m Hin.
  apply in_map_iff in Hin. destruct Hin as [p [<- Hp]]. apply filter_In in Hp.
  destruct Hp as [_ Hp]. cbn [matchedEntry mr_windcaveTxn mr_nsTransaction].
  exact (autoMatched_passed lib h w (snd p) Hp).
Qed.

Lemma matched_after_matching (lib : Scheduled.Library) (h : Js.Host) (w : World)
    (txns : list WindcaveTxn) (sid : nat) :
  matched (snd (Scheduled.matchTransactions lib h w txns sid))
  = map (matchedEntry lib w) (filter (fun p => autoMatched lib h w (snd p)) (numbered w txns))
  /\ unmatched (snd (Scheduled.matchTransactions lib h w txns sid))
     = map (unmatchedEntry lib h w)
           (filter (fun p => negb (autoMatched lib h w (snd p))) (numbered w txns)).
Proof.
  rewrite matchTransactions_eq.
  destruct (matchLoop_trace lib h sid txns w {| matched := []; unmatched := [] |})
    as [_ [_ [_ [_ [_ [Hm [Hu _]]]]]]].
  split; assumption.
Qed.

(** What the three searches of the details page return after the loop,
    against the two arrays of its result. *)
Lemma details_after_the_engine :
  forall (lib : Scheduled.Library) (h : Js.Host) (w : World)
         (transactions : list WindcaveTxn) (settlementInternalId : nat),
    freshIds w -> noDetailsOf settlementInternalId w ->
    let w' := fst (Scheduled.matchTransactions lib h w transactions settlementInternalId) in
    let res := snd (Scheduled.matchTransactions lib h w transactions settlementInternalId) in
    map (fun r => td_transactionId (snd r))
        (getAllTransactionsForSettlement w' settlementInternalId)
    = map txn_id transactions
    /\ map fst (getAllTransactionsForSettlement w' settlementInternalId)
       = seq (w_nextId w) (List.length transactions)
    /\ map (fun u => (ut_transactionId u, ut_error u))
           (getUnmatchedTransactions w' settlementInternalId)
       = map (fun u => (txn_id (um_windcaveTxn u),
                        if isRefund (um_windcaveTxn u) then None else um_error u))
             (unmatched res)
    /\ map (fun p => (pt_txnDetailId p, pt_nsTransactionId p))
           (getMatchedNotDepositedTransactions w' settlementInternalId)
       = map (fun m => (mr_txnDetailId m, option_map ns_internalId (mr_nsTransaction m)))
             (matched res).
Proof.
  intros lib h w txns sid Hf Hn w' res. subst w' res.
  pose proof (details_after_matching lib h w txns sid Hf Hn) as Hall.
  destruct (matched_after_matching lib h w txns sid) as [Hm Hu].
  destruct (numbered_snd w txns) as [Hs Hi].
  (* the two searches with a further filter are filters of the full list *)
  assert (Hun : getUnmatchedTransactions
                  (fst (Scheduled.matchTransactions lib h w txns sid)) sid
                = map (fun r =>
                         {| ut_transactionId := td_transactionId (snd r);
                            ut_merchantReference := td_merchantReference (snd r);
                            ut_amount := td_amount (snd r);
                            ut_type := td_type (snd r);
                            ut_error := td_matchError (snd r) |})
                      (filter (fun r => negb (td_matched (snd r)))
                              (getAllTransactionsForSettlement
                                 (fst (Scheduled.matchTransactions lib h w txns sid)) sid))).
  { unfold getUnmatchedTransactions, getAllTransactionsForSettlement. f_equal.
    induction (w_txnDetails _) as [|r l IH]; cbn; [reflexivity|].
    destruct (Nat.eqb (td_parentSettlement (snd r)) sid); cbn;
      [destruct (negb (td_matched (snd r))); cbn; rewrite IH; reflexivity | exact IH]. }
  assert (Hpe : getMatchedNotDepositedTransactions
                  (fst (Scheduled.matchTransactions lib h w txns sid)) sid
                = map (fun r =>
                         {| pt_txnDetailId := fst r;
                            pt_transactionId := td_transactionId (snd r);
                            pt_amount := if (PrimFloat.is_nan (td_amount (snd r))
                                             || PrimFloat.eqb (td_amount (snd r)) 0%float)%bool
                                         then 0%float else td_amount (snd r);
                            pt_nsTransactionId := td_nsTransaction (snd r) |})
                      (filter (fun r => (td_matched (snd r) && negb (td_inDeposit (snd r)))%bool)
                              (getAllTransactionsForSettlement
                                 (fst (Scheduled.matchTransactions lib h w txns sid)) sid))).
  { unfold getMatchedNotDepositedTransactions, getAllTransactionsForSettlement. f_equal.
    induction (w_txnDetails _) as [|r l IH]; cbn; [reflexivity|].
    destruct (Nat.eqb (td_parentSettlement (snd r)) sid); cbn;
      [destruct (td_matched (snd r) && negb (td_inDeposit (snd r)))%bool; cbn;
       rewrite IH; reflexivity | exact IH]. }
  rewrite Hun, Hpe, Hall, Hm, Hu. clear Hun Hpe Hall Hm Hu.
  rewrite !filter_map_swap, !map_map. cbn [fst snd].
  split; [|split; [|split]].
  - rewrite <- Hs at 2. rewrite map_map. apply map_ext. intros p.
    apply (settledDetail_parent lib h w sid (snd p)).
  - exact Hi.
  - rewrite (filter_ext _ (fun p => negb (autoMatched lib h w (snd p)))).
    2:{ intros p. destruct (settledDetail_parent lib h w sid (snd p)) as [_ [-> _]].
        reflexivity. }
    apply map_ext_in. intros p Hp. apply filter_In in Hp. destruct Hp as [_ Hp].
    cbn [unmatchedEntry um_windcaveTxn um_error ut_transactionId ut_error].
    destruct (settledDetail_parent lib h w sid (snd p)) as [_ [_ [_ [-> _]]]].
    f_equal. unfold settledDetail, autoMatched in *.
    destruct (isRefund (snd p)); [reflexivity|]. cbn [negb andb] in Hp.
    destruct (isValid (verdict lib h w (snd p))); [discriminate | reflexivity].
  - rewrite (filter_ext _ (fun p => autoMatched lib h w (snd p))).
    2:{ intros p. destruct (settledDetail_parent lib h w sid (snd p)) as [_ [-> [-> _]]].
        apply andb_true_r. }
    apply map_ext_in. intros p Hp. apply filter_In in Hp. destruct Hp as [_ Hp].
    cbn [matchedEntry mr_txnDetailId mr_nsTransaction pt_txnDetailId pt_nsTransactionId].
    f_equal. unfold settledDetail, autoMatched in *.
    destruct (isRefund (snd p)); [discriminate|]. cbn [negb andb] in Hp.
    rewrite Hp. reflexivity.
Qed.

(** X3.  After [matchTransactions] has run for a new settlement, the
    searches behind the details page return what the engine reported:
    [getAllTransactionsForSettlement] lists the lines in order, under
    consecutive internal ids; [getUnmatchedTransactions] lists the
    unmatched entries with their reasons, except that a refund has no
    stored reason (the engine reports one but writes none to the record);
    [getMatchedNotDepositedTransactions] lists the matched entries with
    the ledger entries they were matched to. *)
Theorem details_page_lists_what_the_engine_reported :
  forall (lib : Scheduled.Library) (h : Js.Host) (w : World)
         (transactions : list WindcaveTxn) (settlementInternalId : nat),
    freshIds w -> noDetailsOf settlementInternalId w ->
    let w' := fst (Scheduled.matchTransactions lib h w transactions settlementInternalId) in
    let res := snd (Scheduled.matchTransactions lib h w transactions settlementInternalId) in
    map (fun r => td_transactionId (snd r))
        (getAllTransactionsForSettlement w' settlementInternalId)
    = map txn_id transactions
    /\ map fst (getAllTransactionsForSettlement w' settlementInternalId)
       = seq (w_nextId w) (List.length transactions)
    /\ map (fun u => (ut_transactionId u, ut_error u))
           (getUnmatchedTransactions w' settlementInternalId)
       = map (fun u => (txn_id (um_windcaveTxn u),
                        if isRefund (um_windcaveTxn u) then None else um_error u))
             (unmatched res)
    /\ map (fun p => (pt_txnDetailId p, pt_nsTransactionId p))
           (getMatchedNotDepositedTransactions w' settlementInternalId)
       = map (fun m => (mr_txnDetailId m, option_map ns_internalId (mr_nsTransaction m)))
             (matched res).
Proof. exact details_after_the_engine. Qed.

(** ** Recounting and manual matching *)

Lemma manualMatchTransaction_eq (lib : Scheduled.Library) (h : Js.Host) (w : World)
    (id : nat) (nsId : option string) :
  Suitelet.manualMatchTransaction lib h w id nsId
  = manualMatch (finderOf lib) (validateOf lib h) w id nsId.
Proof. destruct lib; reflexivity. Qed.

Lemma countStep_fold (l : list (nat * TxnDetailRec)) :
  forall acc,
    mc_matched (fold_left countStep l acc)
    = mc_matched acc + List.length (filter (fun r => td_matched (snd r)) l)
    /\ mc_unmatched (fold_left countStep l acc)
       = mc_unmatched acc + List.length (filter (fun r => negb (td_matched (snd r))) l).
Proof.
  induction l as [|r l IH]; intros acc; cbn [fold_left filter].
  - cbn. split; lia.
  - destruct (IH (countStep acc r)) as [A B]. rewrite A, B. unfold countStep.
    destruct (td_matched (snd r)); cbn; split; lia.
Qed.

(** The counters of [updateSettlementMatchCounts] are the lengths of what
    the searches of the details page return. *)
Lemma countMatches_spec (w : World) (sid : nat) :
  mc_matched (countMatches w sid)
  = List.length (filter (fun r => td_matched (snd r)) (getAllTransactionsForSettlement w sid))
  /\ mc_unmatched (countMatches w sid) = List.length (getUnmatchedTransactions w sid)
  /\ mc_matched (countMatches w sid) + mc_unmatched (countMatches w sid)
     = List.length (getAllTransactionsForSettlement w sid).
Proof.
  unfold countMatches. fold (getAllTransactionsForSettlement w sid).
  destruct (countStep_fold (getAllTransactionsForSettlement w sid)
              {| mc_matched := 0; mc_unmatched := 0; mc_amount := 0%float |}) as [A B].
  cbn [mc_matched mc_unmatched] in A, B. rewrite A, B. cbn [Nat.add].
  assert (Hu : List.length (getUnmatchedTransactions w sid)
               = List.length (filter (fun r => negb (td_matched (snd r)))
                                     (getAllTransactionsForSettlement w sid))).
  { unfold getUnmatchedTransactions, getAllTransactionsForSettlement. rewrite length_map.
    induction (w_txnDetails w) as [|r l IH]; cbn; [reflexivity|].
    destruct (Nat.eqb (td_parentSettlement (snd r)) sid); cbn;
      [destruct (negb (td_matched (snd r))); cbn; rewrite IH; reflexivity | exact IH]. }
  rewrite Hu. repeat split. apply filter_length.
Qed.

(** X4.  The counters [updateSettlementMatchCounts] computes from the
    transaction details, right after [matchTransactions] has run for a new
    settlement, are the lengths of the two arrays the engine returned:
    counting again from the records gives what the engine reported. *)
Theorem recount_agrees_with_the_engine :
  forall (lib : Scheduled.Library) (h : Js.Host) (w : World)
         (transactions : list WindcaveTxn) (settlementInternalId : nat),
    freshIds w -> noDetailsOf settlementInternalId w ->
    let w' := fst (Scheduled.matchTransactions lib h w transactions settlementInternalId) in
    let res := snd (Scheduled.matchTransactions lib h w transactions settlementInternalId) in
    mc_matched (countMatches w' settlementInternalId) = List.length (matched res)
    /\ mc_unmatched (countMatches w' settlementInternalId) = List.length (unmatched res).
Proof.
  intros lib h w txns sid Hf Hn w' res. subst w' res.
  destruct (countMatches_spec (fst (Scheduled.matchTransactions lib h w txns sid)) sid)
    as [A [B C]].
  destruct (details_after_the_engine lib h w txns sid Hf Hn)
    as [D1 [D2 [D3 D4]]].
  destruct (matching_lists lib h w txns sid) as [_ [_ E]].
  cbv zeta in *.
  assert (Hu : mc_unmatched (countMatches (fst (Scheduled.matchTransactions lib h w txns sid)) sid)
               = List.length (unmatched (snd (Scheduled.matchTransactions lib h w txns sid)))).
  { rewrite B. rewrite <- (length_map (fun u => (ut_transactionId u, ut_error u))), D3.
    apply length_map. }
  split; [|exact Hu].
  assert (Hall : List.length (getAllTransactionsForSettlement
                                (fst (Scheduled.matchTransactions lib h w txns sid)) sid)
                 = List.length txns).
  { rewrite <- (length_map fst), D2. apply length_seq. }
  lia.
Qed.

Lemma loadRow_updateRow {A : Type} (id k : nat) (f : A -> A) (t : list (nat * A)) :
  loadRow k (updateRow id f t)
  = if Nat.eqb k id then option_map f (loadRow k t) else loadRow k t.
Proof.
  unfold loadRow, updateRow. induction t as [|[i x] t IH]; cbn.
  - destruct (Nat.eqb k id); reflexivity.
  - destruct (Nat.eqb i id) eqn:Ei; cbn [fst snd].
    + apply Nat.eqb_eq in Ei. subst i. destruct (Nat.eqb id k) eqn:Ek; cbn.
      * apply Nat.eqb_eq in Ek. subst k. rewrite Nat.eqb_refl. reflexivity.
      * exact IH.
    + destruct (Nat.eqb i k) eqn:Ek; cbn; [|exact IH].
      apply Nat.eqb_eq in Ek. subst k. rewrite Ei. reflexivity.
Qed.

(** What a manual match does, case by case. *)
(** The five ways [manualMatchTransaction] ends. *)
Lemma manualMatch_cases (lib : Scheduled.Library) (h : Js.Host) (w : World)
    (id : nat) (nsId : option string) :
  let out := Suitelet.manualMatchTransaction lib h w id nsId in
  match loadRow id (w_txnDetails w) with
  | None => out = (MatchFailed (Some "That record does not exist."), w)
  | Some d =>
      match finderOf lib w nsId with
      | None => out = (MatchFailed (Some ("NetSuite transaction not found: "
                                          ++ Js.showOpt nsId)%string), w)
      | Some e =>
          if (Js.strictEqStr (ns_undepositedFunds e) "F"
              || PrimFloat.ltb MISC.AMOUNT_TOLERANCE
                   (PrimFloat.abs (PrimFloat.sub (ns_amount e) (td_amount d))))%bool
          then exists msg, out = (MatchFailed (Some msg), w)
          else
            let w1 := submitTxnDetail id (td_withManualMatch nsId) w in
            match getSettlementById w (td_parentSettlement d) with
            | None => out = (MatchFailed (Some "That record does not exist."), w1)
            | Some _ =>
                out = (MatchSucceeded,
                       set_settlements
                         (updateRow (td_parentSettlement d)
                            (sr_withCounts (countMatches w1 (td_parentSettlement d)))
                            (w_settlements w)) w1)
            end
      end
  end.
Proof.
  cbv zeta. rewrite manualMatchTransaction_eq. unfold manualMatch.
  destruct (loadRow id (w_txnDetails w)) as [d|]; [|reflexivity].
  destruct (finderOf lib w nsId) as [e|]; [|reflexivity].
  assert (Hv : validateOf lib h (Some e) (amountOnly (td_amount d))
               = if Js.strictEqStr (ns_undepositedFunds e) "F"
                 then {| isValid := false;
                         error := error (validateOf lib h (Some e) (amountOnly (td_amount d))) |}
                 else if PrimFloat.ltb MISC.AMOUNT_TOLERANCE
                           (PrimFloat.abs (PrimFloat.sub (ns_amount e) (td_amount d)))
                      then {| isValid := false;
                              error := error (validateOf lib h (Some e)
                                                         (amountOnly (td_amount d))) |}
                      else {| isValid := true; error := None |}).
  { destruct lib; cbn [validateOf];
      unfold FileCabinet.validatePaymentForDeposit, InstallDoc.validatePaymentForDeposit;
      cbn [amountOnly txn_amount];
      destruct (Js.strictEqStr (ns_undepositedFunds e) "F"); try reflexivity;
      destruct (PrimFloat.ltb _ _); reflexivity. }
  assert (He : exists msg, error (validateOf lib h (Some e) (amountOnly (td_amount d))) = Some msg
                           \/ isValid (validateOf lib h (Some e) (amountOnly (td_amount d))) = true).
  { destruct lib; cbn [validateOf];
      unfold FileCabinet.validatePaymentForDeposit, InstallDoc.validatePaymentForDeposit;
      destruct (Js.strictEqStr (ns_undepositedFunds e) "F"); try (eexists; left; reflexivity);
      destruct (PrimFloat.ltb _ _); try (eexists; left; reflexivity);
      exists ""; right; reflexivity. }
  rewrite Hv.
  destruct (Js.strictEqStr (ns_undepositedFunds e) "F"); cbn [orb isValid negb error].
  { destruct He as [msg [He|He]]; [exists msg; rewrite He; reflexivity|].
    rewrite Hv in He. discriminate. }
  destruct (PrimFloat.ltb _ _) eqn:El; cbn [isValid negb error].
  { destruct He as [msg [He|He]]; [exists msg; rewrite He; reflexivity|].
    rewrite Hv in He. discriminate. }
  unfold updateSettlementMatchCounts, getSettlementById.
  cbn [submitTxnDetail w_settlements set_txnDetails].
  destruct (loadRow (td_parentSettlement d) (w_settlements w)); reflexivity.
Qed.

(** X5.  A manual match succeeds only for a transaction detail that
    exists and a ledger entry that [findNetSuiteTransaction] finds, whose
    undeposited-funds flag is not ['F'] and whose amount is within the
    tolerance of the stored amount of the detail; the detail is then
    marked matched to the id given, with an empty match error. *)
Theorem manual_match_obeys_the_validator :
  forall (lib : Scheduled.Library) (h : Js.Host) (w : World)
         (txnDetailId : nat) (nsTransactionId : option string) (w' : World),
    Suitelet.manualMatchTransaction lib h w txnDetailId nsTransactionId = (MatchSucceeded, w') ->
    exists d e,
      loadRow txnDetailId (w_txnDetails w) = Some d
      /\ finderOf lib w nsTransactionId = Some e
      /\ ns_undepositedFunds e <> Js.Str "F"
      /\ PrimFloat.ltb MISC.AMOUNT_TOLERANCE
           (PrimFloat.abs (PrimFloat.sub (ns_amount e) (td_amount d))) = false
      /\ loadRow txnDetailId (w_txnDetails w') = Some (td_withManualMatch nsTransactionId d).
Proof.
  intros lib h w id nsId w' H.
  pose proof (manualMatch_cases lib h w id nsId) as C. cbv zeta in C. rewrite H in C.
  destruct (loadRow id (w_txnDetails w)) as [d|] eqn:Ed; [|discriminate].
  destruct (finderOf lib w nsId) as [e|] eqn:Ee; [|discriminate].
  destruct (Js.strictEqStr (ns_undepositedFunds e) "F") eqn:Ef; cbn [orb] in C.
  { destruct C as [msg C]. discriminate. }
  destruct (PrimFloat.ltb _ _) eqn:El.
  { destruct C as [msg C]. discriminate. }
  destruct (getSettlementById w (td_parentSettlement d)); [|discriminate].
  injection C as ->. exists d, e. repeat split; try assumption.
  - intros Heq. rewrite Heq in Ef. discriminate.
  - cbn [w_txnDetails set_settlements submitTxnDetail set_txnDetails].
    rewrite loadRow_updateRow, Nat.eqb_refl, Ed. reflexivity.
Qed.

(** X6.  A manual match that returns [success: false] leaves the account
    as it was, provided the settlement of the transaction detail is on
    record (otherwise the detail is written before the recount throws). *)
Theorem manual_match_failure_changes_nothing :
  forall (lib : Scheduled.Library) (h : Js.Host) (w : World)
         (txnDetailId : nat) (nsTransactionId : option string)
         (e : option string) (w' : World),
    Suitelet.manualMatchTransaction lib h w txnDetailId nsTransactionId = (MatchFailed e, w') ->
    (forall d, loadRow txnDetailId (w_txnDetails w) = Some d ->
               getSettlementById w (td_parentSettlement d) <> None) ->
    w' = w.
Proof.
  intros lib h w id nsId e w' H Hp.
  pose proof (manualMatch_cases lib h w id nsId) as C. cbv zeta in C. rewrite H in C.
  destruct (loadRow id (w_txnDetails w)) as [d|] eqn:Ed; [|congruence].
  destruct (finderOf lib w nsId) as [ns|]; [|congruence].
  destruct (_ || _)%bool; [destruct C as [msg C]; congruence|].
  specialize (Hp d eq_refl).
  destruct (getSettlementById w (td_parentSettlement d)); [discriminate | contradiction].
Qed.

(** X7.  After a manual match that succeeds, the settlement record of the
    detail carries counters that agree with the searches of the details
    page: the unmatched count is the number of transactions
    [getUnmatchedTransactions] lists, matched and unmatched add up to the
    number of transaction details, and the error message is empty exactly
    when nothing is unmatched. *)
Theorem manual_match_recounts_the_settlement :
  forall (lib : Scheduled.Library) (h : Js.Host) (w : World)
         (txnDetailId : nat) (nsTransactionId : option string) (w' : World),
    Suitelet.manualMatchTransaction lib h w txnDetailId nsTransactionId = (MatchSucceeded, w') ->
    exists d s,
      loadRow txnDetailId (w_txnDetails w) = Some d
      /\ getSettlementById w' (td_parentSettlement d) = Some s
      /\ sr_unmatchedCount s
         = Some (List.length (getUnmatchedTransactions w' (td_parentSettlement d)))
      /\ (exists m u, sr_matchedCount s = Some m /\ sr_unmatchedCount s = Some u
                      /\ m + u = List.length (getAllTransactionsForSettlement
                                                w' (td_parentSettlement d)))
      /\ (sr_errorMessage s = Some "" <->
          getUnmatchedTransactions w' (td_parentSettlement d) = []).
Proof.
  intros lib h w id nsId w' H.
  pose proof (manualMatch_cases lib h w id nsId) as C. cbv zeta in C. rewrite H in C.
  destruct (loadRow id (w_txnDetails w)) as [d|] eqn:Ed; [|discriminate].
  destruct (finderOf lib w nsId) as [e|]; [|discriminate].
  destruct (_ || _)%bool; [destruct C as [msg C]; discriminate|].
  destruct (getSettlementById w (td_parentSettlement d)) as [s0|] eqn:Es; [|discriminate].
  injection C as ->.
  remember (td_parentSettlement d) as sid eqn:Esid.
  remember (submitTxnDetail id (td_withManualMatch nsId) w) as w1 eqn:Ew1.
  assert (Hs1 : w_settlements w1 = w_settlements w) by (subst w1; reflexivity).
  destruct (countMatches_spec w1 sid) as [_ [Cu Cs]].
  exists d, (sr_withCounts (countMatches w1 sid) s0).
  split; [reflexivity|]. rewrite <- Esid. split.
  { unfold getSettlementById. cbn [w_settlements set_settlements].
    rewrite loadRow_updateRow, Nat.eqb_refl. unfold getSettlementById in Es.
    rewrite Es. reflexivity. }
  change (getUnmatchedTransactions (set_settlements
            (updateRow sid (sr_withCounts (countMatches w1 sid)) (w_settlements w)) w1) sid)
    with (getUnmatchedTransactions w1 sid).
  change (getAllTransactionsForSettlement (set_settlements
            (updateRow sid (sr_withCounts (countMatches w1 sid)) (w_settlements w)) w1) sid)
    with (getAllTransactionsForSettlement w1 sid).
  cbn [sr_withCounts sr_unmatchedCount sr_matchedCount sr_errorMessage].
  split; [rewrite Cu; reflexivity|]. split.
  { eexists _, _. repeat split. exact Cs. }
  unfold countsMessage. rewrite Cu.
  destruct (getUnmatchedTransactions w1 sid) as [|u us]; cbn.
  - split; reflexivity.
  - split; intros Hx; discriminate.
Qed.

(** ** Supplementary deposits *)

Lemma tickedLines_acc (lookup : string -> option nat) (lines : list string) :
  forall acc,
    tickedLines (fold_left (selectStep lookup) lines acc)
    = tickedLines acc ++ filter (fun p => found (lookup p)) lines.
Proof.
  induction lines as [|p lines IH]; intros acc; cbn [fold_left filter].
  - rewrite app_nil_r. reflexivity.
  - rewrite IH. unfold selectStep, found. destruct (lookup p); cbn.
    + rewrite <- app_assoc. reflexivity.
    + reflexivity.
Qed.

Lemma tickedLines_filter (lookup : string -> option nat) (lines : list string) :
  tickedLines (selectPayments lookup lines) = filter (fun p => found (lookup p)) lines.
Proof. unfold selectPayments. rewrite tickedLines_acc. reflexivity. Qed.



(** What a successful supplementary deposit has done. *)
(** What a supplementary deposit that succeeds has written. *)
Lemma supplementary_success (w : World) (sid : nat) (b : string)
    (d n : nat) (w' : World) :
  createSupplementaryDeposit w sid b = (Success d n, w') ->
  let pending := getMatchedNotDepositedTransactions w sid in
  let lookup := fun p => option_map pt_txnDetailId (findPending pending p) in
  let ticked := filter (fun p => found (lookup p)) (w_undeposited w) in
  let ids := addedTxnDetailIds (selectPayments lookup (w_undeposited w)) in
  exists s memo,
    getSettlementById w sid = Some s
    /\ d = w_nextId w
    /\ n = List.length ticked /\ 0 < n
    /\ w_deposits w' = w_deposits w
                       ++ [(d, {| dep_account := b; dep_trandate := sr_settlementDate s;
                                  dep_memo := memo; dep_payments := ticked |})]
    /\ w_undeposited w'
       = filter (fun p => negb (existsb (String.eqb p) ticked)) (w_undeposited w)
    /\ w_txnDetails w' = map (markDeposited d ids) (w_txnDetails w)
    /\ w_settlements w' = w_settlements w
    /\ w_ledger w' = w_ledger w.
Proof.
  unfold createSupplementaryDeposit. intros H.
  destruct (getSettlementById w sid) as [s|] eqn:Es; [|discriminate].
  cbv zeta.
  set (pending := getMatchedNotDepositedTransactions w sid) in *.
  set (lookup := fun p => option_map pt_txnDetailId (findPending pending p)) in *.
  destruct (Nat.eqb (List.length pending) 0); [discriminate|].
  destruct (selectPayments_spec lookup (w_undeposited w)) as [S1 _]. cbv zeta in S1.
  destruct (Nat.eqb (paymentsAdded (selectPayments lookup (w_undeposited w))) 0) eqn:E0;
    [discriminate|].
  apply Nat.eqb_neq in E0.
  unfold saveDeposit in H. cbn [fst snd] in H.
  injection H as Hd Hn Hw.
  rewrite tickedLines_filter in *.
  match type of Hw with
  | linkDeposit ?x ?ids ?w0 = _ =>
      destruct (linkDeposit_spec x ids w0) as [L1 [L2 [L3 [L4 [_ [_ [_ [_ [L9 _]]]]]]]]]
  end.
  rewrite Hw in *. eexists s, _.
  split; [reflexivity|]. split; [symmetry; exact Hd|].
  split; [rewrite <- Hn; exact S1|]. split; [rewrite <- Hn; lia|].
  split; [rewrite L2; cbn; rewrite Hd; reflexivity|].
  split; [rewrite L4; reflexivity|].
  split; [rewrite L1, Hd; reflexivity|].
  split; [rewrite L3; reflexivity | rewrite L9; reflexivity].
Qed.



(** A supplementary deposit that fails writes nothing. *)
Lemma supplementary_failure (w : World) (sid : nat) (b : string) (e : string) (w' : World) :
  createSupplementaryDeposit w sid b = (Failure e, w') -> w' = w.
Proof.
  unfold createSupplementaryDeposit.
  destruct (getSettlementById w sid); [|intros H; injection H as _ <-; reflexivity].
  destruct (Nat.eqb _ 0); [intros H; injection H as _ <-; reflexivity|].
  destruct (Nat.eqb _ 0); [intros H; injection H as _ <-; reflexivity|].
  unfold saveDeposit. cbn [fst snd]. discriminate.
Qed.

(** ** From a manual match to a deposit *)




(** ** The counters of a run *)

Lemma booksBalance_refl (w : World) (r : Scheduled.ProcessingResults) : booksBalance w r w r.
Proof. unfold booksBalance. repeat split; lia. Qed.

Lemma booksBalance_trans (w0 w1 w2 : World) (r0 r1 r2 : Scheduled.ProcessingResults) :
  booksBalance w0 r0 w1 r1 -> booksBalance w1 r1 w2 r2 -> booksBalance w0 r0 w2 r2.
Proof.
  unfold booksBalance. intros [A1 [A2 [A3 A4]]] [B1 [B2 [B3 B4]]].
  repeat split; lia.
Qed.

Lemma createBankDeposit_books (w : World) (sd : SettlementDetails) (ms : list MatchResult)
    (b : string) :
  let out := createBankDeposit w sd ms b in
  List.length (w_txnDetails (snd out)) = List.length (w_txnDetails w)
  /\ w_settlements (snd out) = w_settlements w
  /\ w_nextId w <= w_nextId (snd out)
  /\ match fst out with
     | Some id => id = w_nextId w
                  /\ List.length (w_deposits (snd out)) = S (List.length (w_deposits w))
     | None => snd out = w
     end.
Proof.
  cbv zeta. unfold createBankDeposit. destruct ms as [|m ms]; [cbn; repeat split; lia|].
  destruct (Nat.eqb _ 0); [cbn; repeat split; lia|].
  unfold saveDeposit. cbn [fst snd].
  match goal with
  | |- context [linkDeposit ?d ?ids ?w0] =>
      destruct (linkDeposit_spec d ids w0) as [L1 [L2 [L3 [_ [L5 _]]]]]
  end.
  rewrite L1, L2, L3, L5, length_map. cbn. rewrite length_app. cbn.
  repeat split; lia.
Qed.

Lemma updateSettlementRecord_books (w : World) (sid m u : nat) (a : float)
    (d : option nat) (e : option string) :
  let w' := updateSettlementRecord w sid m u a d e in
  List.length (w_settlements w') = List.length (w_settlements w)
  /\ w_txnDetails w' = w_txnDetails w /\ w_deposits w' = w_deposits w
  /\ w_nextId w' = w_nextId w.
Proof.
  cbv zeta. unfold updateSettlementRecord. cbn. rewrite updateRow_length. repeat split.
Qed.

Lemma createSettlementRecord_eq (w : World) (d : SettlementDetails) :
  fst (createSettlementRecord w d) = w_nextId w
  /\ List.length (w_settlements (snd (createSettlementRecord w d)))
     = S (List.length (w_settlements w))
  /\ w_txnDetails (snd (createSettlementRecord w d)) = w_txnDetails w
  /\ w_deposits (snd (createSettlementRecord w d)) = w_deposits w
  /\ w_nextId (snd (createSettlementRecord w d)) = S (w_nextId w).
Proof.
  unfold createSettlementRecord. cbn. rewrite length_app. cbn. repeat split. lia.
Qed.

(** What [processSettlement] does to the counters and to the tables. *)
(** [processSettlement] keeps the books: what it writes is what it
    counts. *)
Lemma processSettlement_books (lib : Scheduled.Library) (h : Js.Host)
    (env : Scheduled.Surroundings) (s : Settlement) (cfg : Config)
    (w : World) (r : Scheduled.ProcessingResults) :
  let out := Scheduled.processSettlement lib h env s cfg (w, r) in
  let w' := fst (snd out) in
  let r' := snd (snd out) in
  booksBalance w r w' r'
  /\ Scheduled.pr_configResults r' = Scheduled.pr_configResults r
  /\ Scheduled.pr_settlementsFound r' = Scheduled.pr_settlementsFound r
  /\ Scheduled.pr_errors r' = Scheduled.pr_errors r
  /\ Scheduled.pr_depositsCreated r <= Scheduled.pr_depositsCreated r'
  /\ match fst out with
     | Js.Return (Some o) =>
         Scheduled.pr_settlementsProcessed r' = S (Scheduled.pr_settlementsProcessed r)
         /\ Scheduled.pr_totalMatched r' = Scheduled.pr_totalMatched r + Scheduled.so_matched o
         /\ Scheduled.pr_totalUnmatched r'
            = Scheduled.pr_totalUnmatched r + Scheduled.so_unmatched o
         /\ Scheduled.pr_settlementsSkipped r' = Scheduled.pr_settlementsSkipped r
         /\ Scheduled.pr_depositsCreated r' <= S (Scheduled.pr_depositsCreated r)
     | Js.Return None =>
         Scheduled.pr_settlementsProcessed r' = Scheduled.pr_settlementsProcessed r
         /\ Scheduled.pr_totalMatched r' = Scheduled.pr_totalMatched r
         /\ Scheduled.pr_totalUnmatched r' = Scheduled.pr_totalUnmatched r
         /\ Scheduled.pr_settlementsSkipped r' = S (Scheduled.pr_settlementsSkipped r)
         /\ Scheduled.pr_depositsCreated r' = Scheduled.pr_depositsCreated r
     | Js.Throw _ => r' = r
     end.
Proof.
  cbv zeta. unfold Scheduled.processSettlement.
  destruct (negb (String.eqb (stl_status s) SETTLEMENT_STATUS.DONE)).
  { cbn. unfold booksBalance. cbn. repeat split; lia. }
  destruct (isSettlementProcessed w (stl_id s)).
  { cbn. unfold booksBalance. cbn. repeat split; lia. }
  cbn [Scheduled.consult].
  destruct (Scheduled.getSettlementDetails env (w_clock w) cfg (stl_id s)) as [d|e].
  2:{ cbn. unfold booksBalance. cbn. repeat split; lia. }
  pose proof (createSettlementRecord_eq (set_clock (S (w_clock w)) w) d) as C.
  destruct (createSettlementRecord (set_clock (S (w_clock w)) w) d) as [sid w1].
  destruct C as [C0 [C1 [C2 [C3 C4]]]]. cbn in C0, C1, C2, C3, C4.
  set (txns := match sd_transactions d with Some l => l | None => [] end).
  rewrite matchTransactions_eq.
  pose proof (matchLoop_trace lib h sid txns w1 {| matched := []; unmatched := [] |})
    as T. cbv zeta in T.
  pose proof (keeps_matchLoop (locateOf lib) (validateOf lib h) sid txns) as K.
  pose proof (matching_lists lib h w1 txns sid) as E.
  cbv zeta in E. rewrite matchTransactions_eq in E.
  destruct (fold_left (matchStep (locateOf lib) (validateOf lib h) sid) txns
              (w1, {| matched := []; unmatched := [] |})) as [w2 mres] eqn:Ef.
  cbn [fst snd] in T, E.
  destruct T as [T1 [_ [_ [T4 [T5 _]]]]]. destruct E as [_ [_ E]].
  assert (K2 : w_settlements w2 = w_settlements w1).
  { assert (Kx : keeps w1 w2).
    { replace w2 with (fst (fold_left (matchStep (locateOf lib) (validateOf lib h) sid)
                                      txns (w1, {| matched := []; unmatched := [] |})))
        by (rewrite Ef; reflexivity).
      apply K. destruct lib; [apply keeps_FileCabinet_locate | apply keeps_InstallDoc_locate]. }
    destruct Kx as [Kx _]. exact Kx. }
  clear K Ef.
  assert (B : exists dep w3 r1,
             (if (String.eqb (stl_CRDR s) CRDR.CREDIT
                  && Nat.ltb 0 (List.length (matched mres)))%bool
              then let '(d0, w'0) :=
                     createBankDeposit w2 d (matched mres) (cfg_bankAccount cfg) in
                   match d0 with
                   | Some (S _) => (d0, w'0, Scheduled.depositOne r)
                   | _ => (d0, w'0, r)
                   end
              else (None, w2, r)) = (dep, w3, r1)
             /\ List.length (w_txnDetails w3) = List.length (w_txnDetails w2)
             /\ w_settlements w3 = w_settlements w2
             /\ w_nextId w2 <= w_nextId w3
             /\ booksBalance w2 r w3 r1
             /\ Scheduled.pr_configResults r1 = Scheduled.pr_configResults r
             /\ Scheduled.pr_settlementsFound r1 = Scheduled.pr_settlementsFound r
             /\ Scheduled.pr_errors r1 = Scheduled.pr_errors r
             /\ Scheduled.pr_settlementsSkipped r1 = Scheduled.pr_settlementsSkipped r
             /\ Scheduled.pr_settlementsProcessed r1 = Scheduled.pr_settlementsProcessed r
             /\ Scheduled.pr_totalMatched r1 = Scheduled.pr_totalMatched r
             /\ Scheduled.pr_totalUnmatched r1 = Scheduled.pr_totalUnmatched r
             /\ Scheduled.pr_depositsCreated r <= Scheduled.pr_depositsCreated r1
             /\ Scheduled.pr_depositsCreated r1 <= S (Scheduled.pr_depositsCreated r)).
  { destruct (_ && _)%bool.
    - pose proof (createBankDeposit_books w2 d (matched mres) (cfg_bankAccount cfg)) as B.
      cbv zeta in B.
      destruct (createBankDeposit w2 d (matched mres) (cfg_bankAccount cfg)) as [dep w3].
      cbn [fst snd] in B. destruct B as [B1 [B2 [B3 B4]]].
      destruct dep as [[|k]|].
      + destruct B4 as [B4 B5]. eexists _, _, _. split; [reflexivity|].
        unfold booksBalance. rewrite B1, B2, B5. repeat split; lia.
      + destruct B4 as [B4 B5]. eexists _, _, _. split; [reflexivity|].
        unfold booksBalance. rewrite B1, B2, B5. cbn. repeat split; lia.
      + subst w3. eexists _, _, _. split; [reflexivity|].
        unfold booksBalance. repeat split; lia.
    - eexists _, _, _. split; [reflexivity|]. unfold booksBalance. repeat split; lia. }
  destruct B as [dep [w3 [r1 [-> [B1 [B2 [B3 [B4 [B5 [B6 [B7 [B8 [B9 [B10 [B11 [B12 B13]]]]]]]]]]]]]]]].
  match goal with
  | |- context [updateSettlementRecord w3 ?sid ?m ?u ?a ?dd ?e] =>
      destruct (updateSettlementRecord_books w3 sid m u a dd e) as [U1 [U2 [U3 U4]]]
  end.
  cbn [fst snd]. unfold booksBalance in *. cbn [Scheduled.processedOne
    Scheduled.pr_settlementsProcessed Scheduled.pr_totalMatched Scheduled.pr_totalUnmatched
    Scheduled.pr_depositsCreated Scheduled.pr_configResults Scheduled.pr_settlementsFound
    Scheduled.pr_errors Scheduled.pr_settlementsSkipped Scheduled.so_matched
    Scheduled.so_unmatched].
  rewrite U1, U2, U3, U4. rewrite T4, C3, K2 in B4. rewrite B2, K2.
  rewrite C2 in T5.
  repeat split; try lia; try congruence.
Qed.

Lemma settlementLoop_books (lib : Scheduled.Library) (h : Js.Host)
    (env : Scheduled.Surroundings) (cfg : Config) (settlements : list Settlement) :
  forall w r cr,
    let out := Scheduled.settlementLoop lib h env cfg settlements (w, r, cr) in
    booksBalance w r (fst (fst out)) (snd (fst out))
    /\ advance (List.length settlements) r cr (snd (fst out)) (snd out).
Proof.
  induction settlements as [|s rest IH]; intros w r cr; cbn [Scheduled.settlementLoop].
  - cbn [fst snd]. split; [apply booksBalance_refl|]. unfold advance. repeat split; lia.
  - cbn [Scheduled.consult].
    destruct (Scheduled.remainingUsage env (w_clock w) <? 500)%Z.
    { cbn [fst snd]. unfold booksBalance, advance. cbn. repeat split; lia. }
    pose proof (processSettlement_books lib h env s cfg (set_clock (S (w_clock w)) w) r) as P.
    cbv zeta in P.
    destruct (Scheduled.processSettlement lib h env s cfg (set_clock (S (w_clock w)) w, r))
      as [c [w2 r2]].
    cbn [fst snd] in P. destruct P as [P1 [P2 [P3 [P4 [P5 P6]]]]].
    assert (P0 : booksBalance w r w2 r2).
    { unfold booksBalance in *. cbn in P1. exact P1. }
    destruct c as [[o|]|e].
    + specialize (IH w2 r2 (Scheduled.cres_processed o cr)). cbv zeta in IH.
      destruct (Scheduled.settlementLoop lib h env cfg rest _) as [[w3 r3] cr3].
      cbn [fst snd] in *. destruct IH as [I1 I2].
      split; [eapply booksBalance_trans; eassumption|].
      unfold advance in *. cbn in I2. cbn [List.length].
      repeat match goal with H : _ /\ _ |- _ => destruct H end.
      repeat split; try lia; try congruence.
    + specialize (IH w2 r2 cr). cbv zeta in IH.
      destruct (Scheduled.settlementLoop lib h env cfg rest _) as [[w3 r3] cr3].
      cbn [fst snd] in *. destruct IH as [I1 I2].
      split; [eapply booksBalance_trans; eassumption|].
      unfold advance in *. cbn [List.length].
      repeat match goal with H : _ /\ _ |- _ => destruct H end.
      repeat split; try lia; try congruence.
    + subst r2.
      specialize (IH w2 (Scheduled.pushError
                           ("[" ++ cfg_name cfg ++ "] Settlement " ++ stl_id s ++ ": "
                            ++ Js.err_message e)%string r)
                     (Scheduled.cres_pushError
                        ("[" ++ cfg_name cfg ++ "] Settlement " ++ stl_id s ++ ": "
                         ++ Js.err_message e)%string cr)).
      cbv zeta in IH.
      destruct (Scheduled.settlementLoop lib h env cfg rest _) as [[w3 r3] cr3].
      cbn [fst snd] in *. destruct IH as [I1 I2].
      split.
      * eapply booksBalance_trans; [exact P0|]. unfold booksBalance in *. cbn in I1. exact I1.
      * unfold advance in *. cbn in I2. cbn [List.length].
        repeat match goal with H : _ /\ _ |- _ => destruct H end.
        repeat split; try lia; try congruence.
Qed.








(** ** Every configuration gets its turn *)

(** The loop over the settlements of a configuration leaves the identity
    of the per-configuration result alone. *)
Lemma settlementLoop_identity (lib : Scheduled.Library) (h : Js.Host)
    (env : Scheduled.Surroundings) (cfg : Config) (settlements : list Settlement) :
  forall w r cr,
    Scheduled.cres_configId (snd (Scheduled.settlementLoop lib h env cfg settlements (w, r, cr)))
    = Scheduled.cres_configId cr.
Proof.
  induction settlements as [|s rest IH]; intros w r cr; cbn [Scheduled.settlementLoop];
    [reflexivity|].
  cbn [Scheduled.consult].
  destruct (Scheduled.remainingUsage env (w_clock w) <? 500)%Z; [reflexivity|].
  destruct (Scheduled.processSettlement lib h env s cfg (set_clock (S (w_clock w)) w, r))
    as [[[o|]|e] [w2 r2]]; rewrite IH; reflexivity.
Qed.

(** One configuration adds one result, its own, whether its API call
    throws or not. *)
Lemma processConfiguration_turn (lib : Scheduled.Library) (h : Js.Host)
    (env : Scheduled.Surroundings) (cfg : Config)
    (w : World) (r : Scheduled.ProcessingResults) (emails : list string) :
  exists c,
    Scheduled.pr_configResults
      (snd (fst (Scheduled.processConfiguration lib h env cfg (w, r, emails))))
    = Scheduled.pr_configResults r ++ [c]
    /\ Scheduled.cres_configId c = cfg_internalId cfg.
Proof.
  unfold Scheduled.processConfiguration. cbn [Scheduled.consult].
  destruct (Scheduled.getSettlements env (w_clock w) cfg) as [response|e].
  - set (settlements := match response with Some l => l | None => [] end).
    pose proof (settlementLoop_books lib h env cfg settlements
                  (set_clock (S (w_clock w)) w)
                  (Scheduled.foundMore (List.length settlements) r)
                  (Scheduled.cres_found (List.length settlements)
                     (Scheduled.newConfigResult cfg))) as [_ A].
    pose proof (settlementLoop_identity lib h env cfg settlements
                  (set_clock (S (w_clock w)) w)
                  (Scheduled.foundMore (List.length settlements) r)
                  (Scheduled.cres_found (List.length settlements)
                     (Scheduled.newConfigResult cfg))) as I.
    destruct (Scheduled.settlementLoop lib h env cfg settlements _) as [[w2 r2] cr2].
    cbn [fst snd] in *. destruct A as [A _]. exists cr2. split.
    + cbn. rewrite A. reflexivity.
    + rewrite I. reflexivity.
  - eexists. split; [reflexivity | reflexivity].
Qed.

(** The loop over the configurations adds the results of a first stretch
    of them, in order; it stops short only when the governance meter is
    found below 1000. *)
Lemma configLoop_turns (lib : Scheduled.Library) (h : Js.Host)
    (env : Scheduled.Surroundings) (configurations : list Config) :
  forall w r emails,
    exists cs rest,
      Scheduled.pr_configResults
        (snd (fst (Scheduled.configLoop lib h env configurations (w, r, emails))))
      = Scheduled.pr_configResults r ++ cs
      /\ map cfg_internalId configurations = map Scheduled.cres_configId cs ++ rest
      /\ ((forall n, (1000 <= Scheduled.remainingUsage env n)%Z) -> rest = []).
Proof.
  induction configurations as [|cfg more IH]; intros w r emails; cbn [Scheduled.configLoop].
  - exists [], []. cbn. rewrite app_nil_r. repeat split.
  - cbn [Scheduled.consult].
    destruct (Scheduled.remainingUsage env (w_clock w) <? 1000)%Z eqn:Elow.
    + exists [], (map cfg_internalId (cfg :: more)). cbn [fst snd]. split; [|split].
      * cbn. rewrite app_nil_r. reflexivity.
      * reflexivity.
      * intros Hample. apply Z.ltb_lt in Elow. specialize (Hample (w_clock w)). lia.
    + destruct (processConfiguration_turn lib h env cfg (set_clock (S (w_clock w)) w) r emails)
        as [c [Hc Hid]].
      destruct (Scheduled.processConfiguration lib h env cfg _) as [[w1 r1] emails1].
      cbn [fst snd] in Hc.
      destruct (IH w1 r1 emails1) as [cs [rest [H1 [H2 H3]]]].
      exists (c :: cs), rest. split; [|split].
      * rewrite H1, Hc, <- app_assoc. reflexivity.
      * cbn [map app]. rewrite Hid, H2. reflexivity.
      * exact H3.
Qed.

(** X21.  In a scheduled run every active configuration gets its turn:
    the per-configuration results of the summary are those of the active
    configurations, in their order and one each, up to the point where
    the run stopped; and the run stops short only when it finds fewer
    than 1000 governance units left.  A configuration whose API call
    throws, or whose settlements fail, has its result like the others and
    does not keep the following ones from being processed. *)
Theorem every_configuration_gets_its_turn :
  forall (lib : Scheduled.Library) (h : Js.Host) (env : Scheduled.Surroundings) (w : World)
         (configurations : list Config),
    loadAllConfigurations w = Js.Return configurations ->
    let r := snd (Scheduled.execute lib h env w) in
    exists rest,
      map cfg_internalId configurations
      = map Scheduled.cres_configId (Scheduled.pr_configResults r) ++ rest
      /\ ((forall n, (1000 <= Scheduled.remainingUsage env n)%Z) -> rest = []).
Proof.
  intros lib h env w configurations Hl r. subst r.
  unfold Scheduled.execute. cbn [Scheduled.consult].
  change (loadAllConfigurations (set_clock (S (w_clock w)) w)) with (loadAllConfigurations w).
  rewrite Hl.
  destruct (configLoop_turns lib h env configurations (set_clock (S (w_clock w)) w)
              (Scheduled.initialResults (Scheduled.now env (w_clock w))) [])
    as [cs [rest [H1 [H2 H3]]]].
  destruct (Scheduled.configLoop lib h env configurations _) as [[w1 r1] emails].
  cbn [fst snd] in *. exists rest. split; [|exact H3].
  cbn. rewrite H1. exact H2.
Qed.

(** ** The manual fetch and the edges of a run *)

Lemma fetchBalance_refl (w : World) (r : Suitelet.FetchResults) : fetchBalance w r w r.
Proof. unfold fetchBalance. repeat split; lia. Qed.

Lemma fetchBalance_trans (w0 w1 w2 : World) (r0 r1 r2 : Suitelet.FetchResults) :
  fetchBalance w0 r0 w1 r1 -> fetchBalance w1 r1 w2 r2 -> fetchBalance w0 r0 w2 r2.
Proof.
  unfold fetchBalance. intros [A1 [A2 [A3 A4]]] [B1 [B2 [B3 B4]]].
  repeat split; try lia; congruence.
Qed.

Lemma fetchSettlement_spec (lib : Scheduled.Library) (h : Js.Host)
    (env : Suitelet.Surroundings) (cfg : Config)
    (w : World) (r : Suitelet.FetchResults) (s : Settlement) :
  let out := Suitelet.fetchSettlement lib h env cfg (w, r) s in
  let w' := fst (snd out) in
  let r' := snd (snd out) in
  fetchBalance w r w' r'
  /\ Suitelet.fr_configurationsProcessed r' = Suitelet.fr_configurationsProcessed r
  /\ (fetchAnswersWhatIsAsked env -> atMostOnce w -> atMostOnce w').
Proof.
  cbv zeta. unfold Suitelet.fetchSettlement.
  destruct (negb (String.eqb (stl_status s) SETTLEMENT_STATUS.DONE)).
  { cbn [fst snd]. split; [apply fetchBalance_refl | auto]. }
  destruct (isSettlementProcessed w (stl_id s)) eqn:Ep.
  { cbn [fst snd]. split; [apply fetchBalance_refl | auto]. }
  cbn [Scheduled.consult].
  destruct (Suitelet.getSettlementDetails env (w_clock w) cfg (stl_id s)) as [d|e] eqn:Eg.
  2:{ cbn [fst snd]. split; [unfold fetchBalance; cbn; repeat split; lia | auto]. }
  pose proof (createSettlementRecord_eq (set_clock (S (w_clock w)) w) d) as C.
  pose proof (createSettlementRecord_adds (set_clock (S (w_clock w)) w) d) as [A1 [A2 A3]].
  destruct (createSettlementRecord (set_clock (S (w_clock w)) w) d) as [sid w1].
  destruct C as [C0 [C1 [C2 [C3 C4]]]]. cbn in C0, C1, C2, C3, C4, A1, A2, A3.
  set (txns := match sd_transactions d with Some l => l | None => [] end).
  pose proof (keeps_matchTransactions lib h w1 txns sid) as K.
  rewrite matchTransactions_eq in *.
  pose proof (matchLoop_trace lib h sid txns w1 {| matched := []; unmatched := [] |})
    as T. cbv zeta in T.
  pose proof (matching_lists lib h w1 txns sid) as E.
  cbv zeta in E. rewrite matchTransactions_eq in E.
  destruct (fold_left (matchStep (locateOf lib) (validateOf lib h) sid) txns
              (w1, {| matched := []; unmatched := [] |})) as [w2 mres].
  cbn [fst snd] in T, E, K.
  destruct T as [_ [_ [_ [_ [T5 _]]]]]. destruct E as [_ [_ E]].
  assert (B : exists dep w3,
             (if (String.eqb (stl_CRDR s) CRDR.CREDIT
                  && Nat.ltb 0 (List.length (matched mres)))%bool
              then createBankDeposit w2 d (matched mres) (cfg_bankAccount cfg)
              else (None, w2)) = (dep, w3)
             /\ List.length (w_txnDetails w3) = List.length (w_txnDetails w2)
             /\ keeps w2 w3).
  { destruct (_ && _)%bool.
    - pose proof (createBankDeposit_books w2 d (matched mres) (cfg_bankAccount cfg)) as B.
      pose proof (keeps_createBankDeposit w2 d (matched mres) (cfg_bankAccount cfg)) as Kb.
      cbv zeta in B.
      destruct (createBankDeposit w2 d (matched mres) (cfg_bankAccount cfg)) as [dep w3].
      cbn [fst snd] in B, Kb. destruct B as [B1 _]. eexists _, _.
      split; [reflexivity|]. split; [exact B1 | exact Kb].
    - eexists _, _. split; [reflexivity|]. split; [reflexivity | apply keeps_refl]. }
  destruct B as [dep [w3 [-> [B1 K3]]]].
  match goal with
  | |- context [updateSettlementRecord w3 ?sid ?m ?u ?a ?dd ?e] =>
      destruct (updateSettlementRecord_books w3 sid m u a dd e) as [U1 [U2 [U3 U4]]];
      destruct (updateSettlementRecord_ids w3 sid m u a dd e) as [V1 [V2 V3]]
  end.
  assert (K13 : keeps w1 w3) by (eapply keeps_trans; eassumption).
  destruct K13 as [Ks [Ko Kc]].
  cbn [fst snd]. split; [|split; [reflexivity|]].
  - unfold fetchBalance. cbn [Suitelet.fetchedOne Suitelet.fr_settlementsProcessed
      Suitelet.fr_totalMatched Suitelet.fr_totalUnmatched].
    rewrite U1, U2, V2, V3, Ks, Ko, Kc, B1, T5, C1, C2, A2, A3. repeat split; lia.
  - intros Hf Hn. unfold atMostOnce in *. rewrite V1. unfold externalIds at 1.
    rewrite Ks. fold (externalIds w1). rewrite A1, (Hf _ _ _ _ Eg).
    apply NoDup_app; [exact Hn | repeat constructor; intros [] |].
    intros x Hx [<-|[]]. apply isSettlementProcessed_spec in Hx. congruence.
Qed.

Lemma fetchSettlements_spec (lib : Scheduled.Library) (h : Js.Host)
    (env : Suitelet.Surroundings) (cfg : Config) (settlements : list Settlement) :
  forall w r,
    let out := Suitelet.fetchSettlements lib h env cfg settlements (w, r) in
    fetchBalance w r (fst (snd out)) (snd (snd out))
    /\ Suitelet.fr_configurationsProcessed (snd (snd out))
       = Suitelet.fr_configurationsProcessed r
    /\ (fetchAnswersWhatIsAsked env -> atMostOnce w -> atMostOnce (fst (snd out))).
Proof.
  induction settlements as [|s rest IH]; intros w r; cbn [Suitelet.fetchSettlements].
  - cbn [fst snd]. split; [apply fetchBalance_refl | auto].
  - pose proof (fetchSettlement_spec lib h env cfg w r s) as P. cbv zeta in P.
    destruct (Suitelet.fetchSettlement lib h env cfg (w, r) s) as [c [w1 r1]].
    cbn [fst snd] in P. destruct P as [P1 [P2 P3]].
    destruct c as [u|e]; [|cbn [fst snd]; auto].
    specialize (IH w1 r1). cbv zeta in IH. destruct IH as [I1 [I2 I3]].
    split; [eapply fetchBalance_trans; eassumption|]. split; [congruence | auto].
Qed.

Lemma fetchConfiguration_spec (lib : Scheduled.Library) (h : Js.Host)
    (env : Suitelet.Surroundings) (formattedStart formattedEnd : string)
    (cfg : Config) (w : World) (r : Suitelet.FetchResults) :
  let out := Suitelet.fetchConfiguration lib h env formattedStart formattedEnd (w, r) cfg in
  fetchBalance w r (fst out) (snd out)
  /\ Suitelet.fr_configurationsProcessed (snd out)
     <= S (Suitelet.fr_configurationsProcessed r)
  /\ Suitelet.fr_configurationsProcessed r <= Suitelet.fr_configurationsProcessed (snd out)
  /\ (fetchAnswersWhatIsAsked env -> atMostOnce w -> atMostOnce (fst out)).
Proof.
  cbv zeta. unfold Suitelet.fetchConfiguration. cbn [Scheduled.consult].
  destruct (Suitelet.getSettlements env (w_clock w) cfg formattedStart formattedEnd)
    as [response|e].
  2:{ cbn [fst snd]. split; [unfold fetchBalance; cbn; repeat split; lia|].
      repeat split; auto. }
  pose proof (fetchSettlements_spec lib h env cfg
                (match response with Some l => l | None => [] end)
                (set_clock (S (w_clock w)) w) r) as P. cbv zeta in P.
  destruct (Suitelet.fetchSettlements lib h env cfg _ _) as [c [w2 r2]].
  cbn [fst snd] in P. destruct P as [P1 [P2 P3]].
  assert (P0 : fetchBalance w r w2 r2) by (unfold fetchBalance in *; cbn in P1; exact P1).
  destruct c as [u|e]; cbn [fst snd].
  - split; [unfold fetchBalance in *; cbn; exact P0|]. cbn. repeat split; try lia. exact P3.
  - split; [exact P0|]. repeat split; try lia. exact P3.
Qed.

Lemma fetchConfigurations_spec (lib : Scheduled.Library) (h : Js.Host)
    (env : Suitelet.Surroundings) (formattedStart formattedEnd : string)
    (configurations : list Config) :
  forall w r,
    let out := fold_left (Suitelet.fetchConfiguration lib h env formattedStart formattedEnd)
                         configurations (w, r) in
    fetchBalance w r (fst out) (snd out)
    /\ Suitelet.fr_configurationsProcessed (snd out)
       <= Suitelet.fr_configurationsProcessed r + List.length configurations
    /\ (fetchAnswersWhatIsAsked env -> atMostOnce w -> atMostOnce (fst out)).
Proof.
  induction configurations as [|cfg rest IH]; intros w r; cbn [fold_left].
  - cbn [fst snd List.length]. split; [apply fetchBalance_refl|]. split; [lia | auto].
  - pose proof (fetchConfiguration_spec lib h env formattedStart formattedEnd cfg w r) as P.
    cbv zeta in P.
    destruct (Suitelet.fetchConfiguration lib h env formattedStart formattedEnd (w, r) cfg)
      as [w1 r1].
    cbn [fst snd] in P. destruct P as [P1 [P2 [P3 P4]]].
    specialize (IH w1 r1). cbv zeta in IH. destruct IH as [I1 [I2 I3]].
    split; [eapply fetchBalance_trans; eassumption|].
    split; [cbn [List.length]; lia | auto].
Qed.

(** What a manual fetch does, whichever way it ends. *)
(** A manual fetch writes what it counts, sends no email and, when the
    API answers with the settlements asked for, keeps the Windcave
    settlement ids on record distinct. *)
Lemma performManualFetch_spec (lib : Scheduled.Library) (h : Js.Host)
    (env : Suitelet.Surroundings) (w : World) (startDate endDate configId : option string) :
  let out := Suitelet.performManualFetch lib h env w startDate endDate configId in
  match fst out with
  | Js.Throw _ => snd out = w
  | Js.Return results =>
      fetchBalance w Suitelet.noResults (snd out) results
      /\ (fetchAnswersWhatIsAsked env -> atMostOnce w -> atMostOnce (snd out))
  end.
Proof.
  cbv zeta. unfold Suitelet.performManualFetch.
  destruct (Suitelet.formatParse env startDate) as [startDateObj|e]; [|reflexivity].
  destruct (Suitelet.formatParse env endDate) as [endDateObj|e]; [|reflexivity].
  destruct (Suitelet.formatDateForApi startDateObj) as [formattedStart|e]; [|reflexivity].
  destruct (Suitelet.formatDateForApi endDateObj) as [formattedEnd|e]; [|reflexivity].
  match goal with
  | |- context [match ?loaded with Js.Return _ => _ | Js.Throw _ => _ end] =>
      destruct loaded as [configurations|e]; [|reflexivity]
  end.
  pose proof (fetchConfigurations_spec lib h env formattedStart formattedEnd configurations
                w Suitelet.noResults) as P. cbv zeta in P.
  destruct (fold_left _ configurations (w, Suitelet.noResults)) as [w' results].
  cbn [fst snd] in *. destruct P as [P1 [_ P3]]. split; assumption.
Qed.

(** X17.  At-most-once holds across the two entry points: through any
    sequence of scheduled runs and manual fetches, in any order and with
    any date ranges, no Windcave settlement id gets a second settlement
    record, provided none has two to begin with and the API answers with
    the settlements it is asked for. *)
Theorem at_most_once_through_runs_and_manual_fetches :
  forall (lib : Scheduled.Library) (h : Js.Host) (ops : list Operation) (w : World),
    Forall wellAnswered ops ->
    (forall settlementId, recordsFor settlementId w <= 1) ->
    forall settlementId, recordsFor settlementId (fold_left (perform lib h) ops w) <= 1.
Proof.
  intros lib h ops w Hf Hw. apply atMostOnce_recordsFor.
  apply atMostOnce_recordsFor in Hw. revert w Hw.
  induction ops as [|op ops IH]; intros w Hw; cbn [fold_left]; [exact Hw|].
  inversion Hf as [|? ? Hop Hrest]; subst. apply (IH Hrest).
  destruct op as [env | env startDate endDate configId]; cbn [perform wellAnswered] in *.
  - destruct (execute_spec lib h env w) as [He _]. exact (He Hop Hw).
  - pose proof (performManualFetch_spec lib h env w startDate endDate configId) as P.
    cbv zeta in P.
    destruct (fst (Suitelet.performManualFetch lib h env w startDate endDate configId)).
    + destruct P as [_ P]. exact (P Hop Hw).
    + rewrite P. exact Hw.
Qed.


(** ** The edges of a run *)

Lemma no_active_configuration (w : World) :
  (forall id r, In (id, r) (w_configs w) -> cr_isActive r = false) ->
  loadAllConfigurations w = Js.Throw (Js.newError ERRORS.CONFIG_NOT_FOUND).
Proof.
  intros H. unfold loadAllConfigurations.
  rewrite (filter_none (fun r => cr_isActive (snd r)) (w_configs w)); [reflexivity|].
  intros [id r] Hin. exact (H id r Hin).
Qed.

(** X14.  With no active configuration a run writes nothing and sends no
    email: it ends with the single error [Fatal error: Windcave
    configuration record not found] and counters at zero. *)
Theorem no_active_configuration_fails_silently :
  forall (lib : Scheduled.Library) (h : Js.Host) (env : Scheduled.Surroundings) (w : World),
    (forall id r, In (id, r) (w_configs w) -> cr_isActive r = false) ->
    Scheduled.execute lib h env w
    = (set_clock (S (w_clock w)) w,
       Scheduled.pushError "Fatal error: Windcave configuration record not found"
         (Scheduled.initialResults (Scheduled.now env (w_clock w)))).
Proof.
  intros lib h env w H. unfold Scheduled.execute, loadConfiguration. cbn [Scheduled.consult].
  rewrite (no_active_configuration (set_clock (S (w_clock w)) w) H). reflexivity.
Qed.

(** X15.  When fewer than 1000 governance units are left as the first
    configuration is reached, the run writes nothing and sends no email:
    the account is as it was, but for the three readings of the
    surroundings (start time, governance meter, end time), and the summary
    carries the low-governance error only. *)
Theorem low_governance_at_the_start_stops_the_run :
  forall (lib : Scheduled.Library) (h : Js.Host) (env : Scheduled.Surroundings) (w : World),
    (exists id r, In (id, r) (w_configs w) /\ cr_isActive r = true) ->
    (Scheduled.remainingUsage env (S (w_clock w)) < 1000)%Z ->
    Scheduled.execute lib h env w
    = (set_clock (S (S (S (w_clock w)))) w,
       Scheduled.finished (Scheduled.now env (S (S (w_clock w))))
         (Scheduled.pushError Scheduled.LOW_GOVERNANCE
            (Scheduled.initialResults (Scheduled.now env (w_clock w))))).
Proof.
  intros lib h env w [id [r [Hin Hact]]] Hlow.
  unfold Scheduled.execute. cbn [Scheduled.consult].
  unfold loadAllConfigurations. cbn [w_configs set_clock].
  assert (Hne : In (toConfig (id, r))
                   (map toConfig (filter (fun r0 => cr_isActive (snd r0)) (w_configs w)))).
  { apply in_map. apply filter_In. split; assumption. }
  destruct (map toConfig (filter (fun r0 => cr_isActive (snd r0)) (w_configs w)))
    as [|c cs]; [destruct Hne|].
  cbn [Scheduled.configLoop Scheduled.consult w_clock set_clock].
  apply Z.ltb_lt in Hlow. rewrite Hlow. cbn. reflexivity.
Qed.

(** X11.  After [createSettlementRecord], [isSettlementProcessed] answers
    [true] for the Windcave id just recorded, and for every other id what
    it answered before. *)
Theorem a_recorded_settlement_is_seen_as_processed :
  forall (w : World) (settlementData : SettlementDetails) (settlementId : string),
    isSettlementProcessed (snd (createSettlementRecord w settlementData)) settlementId
    = (isSettlementProcessed w settlementId
       || String.eqb (sd_id settlementData) settlementId)%bool.
Proof.
  intros w d x.
  destruct (createSettlementRecord_adds w d) as [A _].
  apply eq_true_iff_eq. rewrite orb_true_iff, !isSettlementProcessed_spec, A, in_app_iff.
  cbn [In]. rewrite String.eqb_eq. tauto.
Qed.

(** X10.  [handleCreateSupplementaryDeposit] makes the deposit on the bank
    account of the first active configuration, whichever configuration
    the settlement came from.  With no active configuration it writes
    nothing and redirects with the error of the configuration loader. *)
Theorem supplementary_deposit_goes_to_the_first_active_configuration :
  forall (w : World) (settlementId : nat),
    let out := Suitelet.handleCreateSupplementaryDeposit w settlementId in
    ((forall id r, In (id, r) (w_configs w) -> cr_isActive r = false) ->
     snd out = w
     /\ Suitelet.rd_message (fst out) = None
     /\ Suitelet.rd_error (fst out)
        = Some "Could not load configuration: Windcave configuration record not found")
    /\ (forall id r rest,
          filter (fun row => cr_isActive (snd row)) (w_configs w) = (id, r) :: rest ->
          snd out = snd (createSupplementaryDeposit w settlementId (cr_bankAccount r))
          /\ forall dep, In dep (w_deposits (snd out)) ->
               In dep (w_deposits w) \/ dep_account (snd dep) = cr_bankAccount r).
Proof.
  intros w sid out. subst out. unfold Suitelet.handleCreateSupplementaryDeposit. split.
  - intros H. rewrite (no_active_configuration w H). cbn. repeat split.
  - intros id r rest Hf. unfold loadAllConfigurations. rewrite Hf. cbn [map toConfig].
    cbn [cfg_bankAccount].
    destruct (createSupplementaryDeposit w sid (cr_bankAccount r)) as [res w'] eqn:E.
    cbn [fst snd]. split; [reflexivity|].
    intros dep Hdep. destruct res as [e|d n].
    + rewrite (supplementary_failure w sid (cr_bankAccount r) e w' E) in Hdep.
      left. exact Hdep.
    + destruct (supplementary_success w sid (cr_bankAccount r) d n w' E)
        as [s [memo [_ [_ [_ [_ [Hd _]]]]]]].
      cbv zeta in Hd. rewrite Hd in Hdep. apply in_app_or in Hdep.
      destruct Hdep as [Hdep | [<- | []]]; [left; exact Hdep | right; reflexivity].
Qed.


(** ** The requests of the API module *)

Lemma noDelimiter_app (s t : string) :
  noDelimiter (s ++ t) = (noDelimiter s && noDelimiter t)%bool.
Proof.
  induction s as [|c s IH]; cbn [append noDelimiter]; [reflexivity|].
  rewrite IH. apply andb_assoc.
Qed.

Lemma encoded_character_has_no_delimiter (c : ascii) :
  noDelimiter
    (if Js.isUnreserved c then String c EmptyString
     else if Nat.ltb (nat_of_ascii c) 128 then Js.percentByte (nat_of_ascii c)
     else (Js.percentByte (192 + nat_of_ascii c / 64)
           ++ Js.percentByte (128 + nat_of_ascii c mod 64))%string) = true.
Proof.
  destruct c as [[] [] [] [] [] [] [] []]; vm_compute; reflexivity.
Qed.

(** [encodeURIComponent] leaves no delimiter in its result. *)
Lemma encodeURIComponent_has_no_delimiter (s : string) :
  noDelimiter (Js.encodeURIComponent s) = true.
Proof.
  induction s as [|c s IH]; [reflexivity|].
  cbn [Js.encodeURIComponent]. cbv zeta. rewrite noDelimiter_app, IH.
  rewrite encoded_character_has_no_delimiter. reflexivity.
Qed.

(** X19.  Whatever the settlement id, [getSettlementDetails] requests a
    path directly under [/settlements/]: the id fills one path segment and
    brings in no [/], [?], [#] or [&].  Whatever the ids and dates,
    [getSettlements] requests [/settlements?] with exactly the parameters
    [customerId] (if given, else [merchantId]), [settlementDateStart] and
    [settlementDateEnd], in that order, and no value brings in a
    delimiter. *)
Theorem request_urls_keep_their_shape :
  (forall options : WindcaveApi.DetailsOptions,
     exists segment,
       WindcaveApi.settlementDetailsUrl options
       = (WindcaveApi.getBaseUrl (WindcaveApi.gd_environment options)
          ++ "/settlements/" ++ segment)%string
       /\ noDelimiter segment = true)
  /\ (forall (options : WindcaveApi.SettlementsOptions) (url : string),
        WindcaveApi.settlementsUrl options = Js.Return url ->
        exists id startDate endDate,
          url = (WindcaveApi.getBaseUrl (WindcaveApi.gs_environment options)
                 ++ "/settlements?" ++ idParameter options ++ "=" ++ id
                 ++ "&settlementDateStart=" ++ startDate
                 ++ "&settlementDateEnd=" ++ endDate)%string
          /\ noDelimiter id = true /\ noDelimiter startDate = true
          /\ noDelimiter endDate = true).
Proof.
  split.
  - intros options. exists (Js.encodeURIComponent (WindcaveApi.gd_settlementId options)).
    split; [reflexivity | apply encodeURIComponent_has_no_delimiter].
  - intros options url H. unfold WindcaveApi.settlementsUrl in H. unfold idParameter.
    destruct (Js.truthy (WindcaveApi.gs_customerId options)).
    + injection H as <-.
      exists (Js.encodeURIComponent (Js.showOpt (WindcaveApi.gs_customerId options))),
             (Js.encodeURIComponent (WindcaveApi.gs_startDate options)),
             (Js.encodeURIComponent (WindcaveApi.gs_endDate options)).
      split; [|repeat split; apply encodeURIComponent_has_no_delimiter].
      unfold API.ENDPOINTS.SETTLEMENTS.
      rewrite !append_assoc. reflexivity.
    + destruct (Js.truthy (WindcaveApi.gs_merchantId options)); [|discriminate].
      injection H as <-.
      exists (Js.encodeURIComponent (Js.showOpt (WindcaveApi.gs_merchantId options))),
             (Js.encodeURIComponent (WindcaveApi.gs_startDate options)),
             (Js.encodeURIComponent (WindcaveApi.gs_endDate options)).
      split; [|repeat split; apply encodeURIComponent_has_no_delimiter].
      unfold API.ENDPOINTS.SETTLEMENTS.
      rewrite !append_assoc. reflexivity.
Qed.

(** X18.  [getSettlements] called with neither a customer id nor a
    merchant id (missing or empty) throws [Either merchantId or customerId
    must be provided] before any request is sent. *)
Theorem getSettlements_needs_an_id :
  forall (J : Type) (parse : string -> option J) (encodeBase64 : string -> string)
         (server : string -> string -> nat -> WindcaveApi.HttpOutcome) (isNull : J -> bool)
         (options : WindcaveApi.SettlementsOptions) (st : WindcaveApi.Net),
    Js.truthy (WindcaveApi.gs_customerId options) = false ->
    Js.truthy (WindcaveApi.gs_merchantId options) = false ->
    WindcaveApi.getSettlements J parse encodeBase64 server isNull options st
    = (Js.Throw (Js.newError "Either merchantId or customerId must be provided"), st).
Proof.
  intros J parse enc server isNull options st Hc Hm.
  unfold WindcaveApi.getSettlements, WindcaveApi.settlementsUrl. rewrite Hc, Hm. reflexivity.
Qed.

(** ** The dates sent to the API *)

Lemma year_has_four_digits (y : Z) :
  (1000 <= y <= 9999)%Z ->
  String.length (Js.intToString y) = 4
  /\ Js.stripNonDigits (Js.intToString y) = Js.intToString y.
Proof.
  intros H.
  assert (A : forallb (fun n =>
                         Nat.eqb (String.length (Js.intToString (Z.of_nat n))) 4
                         && String.eqb (Js.stripNonDigits (Js.intToString (Z.of_nat n)))
                                       (Js.intToString (Z.of_nat n)))%bool
                      (seq (Z.to_nat 1000) (Z.to_nat 9000)) = true) by (vm_compute; reflexivity).
  rewrite forallb_forall in A.
  specialize (A (Z.to_nat y)). rewrite Z2Nat.id in A by lia.
  assert (I : In (Z.to_nat y) (seq (Z.to_nat 1000) (Z.to_nat 9000))) by (apply in_seq; lia).
  apply A, andb_true_iff in I. destruct I as [I1 I2].
  split; [apply Nat.eqb_eq, I1 | apply String.eqb_eq, I2].
Qed.

Lemma month_has_two_digits (m : nat) :
  m < 12 ->
  String.length (Js.padStart2 (Js.natToString (m + 1))) = 2
  /\ Js.stripNonDigits (Js.padStart2 (Js.natToString (m + 1)))
     = Js.padStart2 (Js.natToString (m + 1)).
Proof. intros H. do 12 (destruct m as [|m]; [split; reflexivity|]). lia. Qed.

Lemma day_has_two_digits (d : nat) :
  1 <= d <= 31 ->
  String.length (Js.padStart2 (Js.natToString d)) = 2
  /\ Js.stripNonDigits (Js.padStart2 (Js.natToString d)) = Js.padStart2 (Js.natToString d).
Proof. intros H. do 32 (destruct d as [|d]; [try (split; reflexivity); lia|]). lia. Qed.

Lemma stripNonDigits_app (s t : string) :
  Js.stripNonDigits (s ++ t) = (Js.stripNonDigits s ++ Js.stripNonDigits t)%string.
Proof.
  induction s as [|c s IH]; cbn [append Js.stripNonDigits]; [reflexivity|].
  destruct (Js.isDigit c); cbn [append]; rewrite IH; reflexivity.
Qed.

(** X23.  For every date of the calendar with a four-digit year,
    [formatDateForApi] gives the ten characters of [YYYY-MM-DD]: eight
    digits, with a hyphen in the fifth and in the eighth place, the month
    and the day of the month padded to two digits. *)
Theorem api_dates_are_ten_characters :
  forall date : WindcaveApi.Date,
    calendarDate date ->
    String.length (WindcaveApi.formatDateForApi date) = 10
    /\ String.get 4 (WindcaveApi.formatDateForApi date) = Some "-"%char
    /\ String.get 7 (WindcaveApi.formatDateForApi date) = Some "-"%char
    /\ String.length (Js.stripNonDigits (WindcaveApi.formatDateForApi date)) = 8.
Proof.
  intros date [Hy [Hm Hd]]. unfold WindcaveApi.formatDateForApi. cbv zeta.
  destruct (year_has_four_digits _ Hy) as [Y Y'].
  destruct (month_has_two_digits _ Hm) as [M M'].
  destruct (day_has_two_digits _ Hd) as [D D'].
  rewrite !stripNonDigits_app, Y', M', D'. clear Y' M' D'.
  destruct (Js.intToString (WindcaveApi.getFullYear date))
    as [|y1 [|y2 [|y3 [|y4 [|y5 y]]]]]; cbn in Y; try lia.
  destruct (Js.padStart2 (Js.natToString (WindcaveApi.getMonth date + 1)))
    as [|m1 [|m2 [|m3 m]]]; cbn in M; try lia.
  destruct (Js.padStart2 (Js.natToString (WindcaveApi.getDate date)))
    as [|d1 [|d2 [|d3 d]]]; cbn in D; try lia.
  repeat split.
Qed.

(** ** Loading a configuration by id *)

Lemma to_uint_not_nil (n : nat) : Nat.to_uint n <> Decimal.Nil.
Proof.
  assert (E : Nat.to_uint n = Decimal.unorm (Nat.to_uint n))
    by (rewrite <- DecimalNat.Unsigned.to_of, DecimalNat.Unsigned.of_to; reflexivity).
  rewrite E. unfold Decimal.unorm. destruct (Decimal.nzhead (Nat.to_uint n)); discriminate.
Qed.

(** Different internal ids are written differently. *)
Lemma natToString_injective (n m : nat) : Js.natToString n = Js.natToString m -> n = m.
Proof.
  unfold Js.natToString. intros H.
  apply (f_equal NilZero.uint_of_string) in H.
  rewrite !NilZero.usu in H by apply to_uint_not_nil.
  injection H as H. apply DecimalNat.Unsigned.to_uint_inj. exact H.
Qed.

Lemma find_by_id (A : Type) (t : list (nat * A)) (id : nat) (r : A) :
  NoDup (map fst t) -> In (id, r) t ->
  find (fun row => String.eqb (Js.natToString (fst row)) (Js.natToString id)) t = Some (id, r).
Proof.
  induction t as [|[i x] t IH]; intros Hn Hi; [contradiction|].
  cbn [find fst]. inversion Hn as [|? ? Hni Hn']; subst.
  destruct (String.eqb (Js.natToString i) (Js.natToString id)) eqn:E.
  - apply String.eqb_eq, natToString_injective in E. subst i.
    destruct Hi as [Hi | Hi]; [rewrite Hi; reflexivity|].
    exfalso. apply Hni. apply (in_map fst) in Hi. exact Hi.
  - destruct Hi as [Hi | Hi].
    + injection Hi as -> ->. rewrite String.eqb_refl in E. discriminate.
    + apply IH; assumption.
Qed.

(** An internal id is written with digits: it is neither empty nor the
    word [all]. *)
Lemma natToString_is_an_id (n : nat) :
  Js.truthy (Some (Js.natToString n)) = true /\ String.eqb (Js.natToString n) "all" = false.
Proof.
  unfold Js.natToString. pose proof (to_uint_not_nil n) as H.
  destruct (Nat.to_uint n); [contradiction | ..]; cbn; split; reflexivity.
Qed.

(** X20.  A configuration that is not active is never among those
    [loadAllConfigurations] returns, so the scheduled script never uses
    it; but [loadConfigurationById] loads it all the same, and a manual
    fetch asked for that configuration (with dates that parse) goes
    through its settlements like those of an active one. *)
Theorem an_inactive_configuration_is_fetched_only_by_hand :
  forall (w : World) (id : nat) (r : ConfigRec),
    NoDup (map fst (w_configs w)) ->
    In (id, r) (w_configs w) -> cr_isActive r = false ->
    (forall configs, loadAllConfigurations w = Js.Return configs ->
                     ~ In id (map cfg_internalId configs))
    /\ loadConfigurationById w (Js.natToString id) = Js.Return (toConfig (id, r))
    /\ forall (lib : Scheduled.Library) (h : Js.Host) (env : Suitelet.Surroundings)
              (startDate endDate : option string) (d1 d2 : WindcaveApi.Date),
         Suitelet.formatParse env startDate = Js.Return (Suitelet.ParsedDate d1) ->
         Suitelet.formatParse env endDate = Js.Return (Suitelet.ParsedDate d2) ->
         let out := Suitelet.fetchConfiguration lib h env
                      (WindcaveApi.formatDateForApi d1) (WindcaveApi.formatDateForApi d2)
                      (w, Suitelet.noResults) (toConfig (id, r)) in
         Suitelet.performManualFetch lib h env w startDate endDate (Some (Js.natToString id))
         = (Js.Return (snd out), fst out).
Proof.
  intros w id r Hn Hi Ha.
  assert (L : loadConfigurationById w (Js.natToString id) = Js.Return (toConfig (id, r))).
  { unfold loadConfigurationById. rewrite (find_by_id _ _ id r Hn Hi). reflexivity. }
  split; [|split; [exact L|]].
  - intros configs H Hin. unfold loadAllConfigurations in H.
    assert (E : configs = map toConfig (filter (fun r => cr_isActive (snd r)) (w_configs w))).
    { destruct (map toConfig _); [discriminate | injection H as <-; reflexivity]. }
    subst configs. rewrite map_map in Hin. apply in_map_iff in Hin.
    destruct Hin as [[i x] [E Hx]]. apply filter_In in Hx. destruct Hx as [Hx Hact].
    cbn in E. subst i. cbn in Hact.
    assert (x = r).
    { clear - Hn Hi Hx. induction (w_configs w) as [|[j y] t IH]; [contradiction|].
      cbn in Hn. inversion Hn as [|? ? Hni Hn']; subst.
      destruct Hi as [Hi|Hi], Hx as [Hx|Hx].
      - congruence.
      - injection Hi as -> ->. exfalso. apply Hni. apply (in_map fst) in Hx. exact Hx.
      - injection Hx as -> ->. exfalso. apply Hni. apply (in_map fst) in Hi. exact Hi.
      - apply IH; assumption. }
    subst x. congruence.
  - intros lib h env startDate endDate d1 d2 P1 P2 out. subst out.
    unfold Suitelet.performManualFetch. rewrite P1, P2.
    cbn [Suitelet.formatDateForApi].
    destruct (natToString_is_an_id id) as [T A]. rewrite T, A.
    cbn [negb orb Js.showOpt]. rewrite L. cbn [fold_left].
    destruct (Suitelet.fetchConfiguration _ _ _ _ _ _ _) as [w' results]. reflexivity.
Qed.

(* ===================================================================== *)
(** * Worked scenarios *)
(* ===================================================================== *)

Lemma scenarioEnv_answers : answersWhatIsAsked scenarioEnv.
Proof. intros n cfg settlementId d H. injection H as <-. reflexivity. Defined.

(** After one run: [T1] is matched to [E1], [T2] is unmatched as a refund,
    one deposit holds [E1], and [S1] is recorded with one matched and one
    unmatched line and a matched amount of 100. *)
Lemma scenario_after_one_run :
  let w' := fst (Scheduled.execute Scheduled.InstallDocLib plainHost scenarioEnv scenarioWorld) in
  map (fun r => (sr_settlementId (snd r), sr_matchedCount (snd r),
                 sr_unmatchedCount (snd r), sr_matchedAmount (snd r),
                 sr_bankDeposit (snd r))) (w_settlements w')
    = [("S1", Some 1, Some 1, Some 100.00%float, Some 103)]
  /\ map (fun r => (td_transactionId (snd r), td_matched (snd r), td_nsTransaction (snd r),
                    td_matchError (snd r), td_inDeposit (snd r))) (w_txnDetails w')
     = [(Some "T1", true, Some "5001", None, true);
        (Some "T2", false, None, None, false)]
  /\ map (fun d => dep_payments (snd d)) (w_deposits w') = [["5001"]]
  /\ w_undeposited w' = []
  /\ map subject (w_calls w') = [T1; T1]
  /\ map em_recipient (w_outbox w') = ["ops@x.com"].
Proof. vm_compute. repeat split. Qed.

(** The same settlement met again on a second run is skipped: there is
    still exactly one record for [S1]. *)
Lemma scenario_after_two_runs :
  recordsFor "S1"
    (Scheduled.runs Scheduled.InstallDocLib plainHost [scenarioEnv; scenarioEnv] scenarioWorld)
  = 1
  /\ Scheduled.pr_settlementsSkipped
       (snd (Scheduled.execute Scheduled.InstallDocLib plainHost scenarioEnv
               (fst (Scheduled.execute Scheduled.InstallDocLib plainHost scenarioEnv
                       scenarioWorld)))) = 1.
Proof. vm_compute. split; reflexivity. Qed.

Lemma at_most_once_witness :
  Forall answersWhatIsAsked [scenarioEnv; scenarioEnv]
  /\ (forall settlementId, recordsFor settlementId scenarioWorld <= 1)
  /\ forall settlementId,
       recordsFor settlementId
         (Scheduled.runs Scheduled.InstallDocLib plainHost [scenarioEnv; scenarioEnv]
                         scenarioWorld) <= 1.
Proof.
  assert (Hf : Forall answersWhatIsAsked [scenarioEnv; scenarioEnv])
    by (repeat constructor; exact scenarioEnv_answers).
  assert (Hw : forall settlementId, recordsFor settlementId scenarioWorld <= 1)
    by (intros settlementId; apply Nat.le_0_l).
  split; [exact Hf|]. split; [exact Hw|].
  exact (proj2 (at_most_once_processing Scheduled.InstallDocLib plainHost)
               [scenarioEnv; scenarioEnv] scenarioWorld Hf Hw).
Defined.

(** An API that answers a request for one settlement with another gets
    that other settlement recorded twice: the assumption on the API is
    needed. *)
Lemma confused_api_records_twice :
  recordsFor "S9"
    (Scheduled.runs Scheduled.InstallDocLib plainHost [confusedEnv; confusedEnv] scenarioWorld)
  = 2.
Proof. vm_compute. reflexivity. Qed.

Lemma raced_no_line_matches : noLineMatches racedWorld [matchedT1].
Proof.
  intros p m ns [<-|[]] [<-|[]] H. injection H as <-. discriminate.
Defined.

Lemma deposit_intersection_witness :
  noLineMatches racedWorld [matchedT1]
  /\ createBankDeposit racedWorld (detailsOf "S1") [matchedT1] "210" = (None, racedWorld).
Proof.
  split; [exact raced_no_line_matches|].
  destruct (proj1 (deposit_intersection_safety racedWorld (detailsOf "S1") [matchedT1] "210")
                  raced_no_line_matches) as [Hr Hw].
  rewrite (surjective_pairing (createBankDeposit _ _ _ _)), Hr, Hw. reflexivity.
Defined.

(** With [E1] still in undeposited funds the deposit is saved and the
    transaction detail is linked to it. *)
Lemma deposit_made_example :
  let w := {| w_configs := w_configs racedWorld; w_ledger := [E1];
              w_authSearchAvailable := true; w_undeposited := ["7777"; "5001"];
              w_settlements := w_settlements racedWorld;
              w_txnDetails := w_txnDetails racedWorld; w_deposits := [];
              w_nextId := 103; w_calls := []; w_outbox := []; w_clock := 0 |} in
  let out := createBankDeposit w (detailsOf "S1") [matchedT1] "210" in
  fst out = Some 103
  /\ map (fun d => (fst d, dep_payments (snd d))) (w_deposits (snd out)) = [(103, ["5001"])]
  /\ map (fun r => (fst r, td_inDeposit (snd r), td_bankDeposit (snd r)))
         (w_txnDetails (snd out)) = [(101, true, Some 103)]
  /\ w_undeposited (snd out) = ["7777"].
Proof. vm_compute. repeat split. Qed.

(** The supplementary deposit on the raced account: the pending detail is
    there but its payment is not in undeposited funds. *)
Lemma supplementary_deposit_witness :
  getSettlementById racedWorld 100 <> None
  /\ createSupplementaryDeposit racedWorld 100 "210"
     = (Failure NOT_IN_UNDEPOSITED, racedWorld)
  /\ createSupplementaryDeposit
       (set_txnDetails [(101, detailT1 true)] racedWorld) 100 "210"
     = (Failure NO_PENDING, set_txnDetails [(101, detailT1 true)] racedWorld).
Proof.
  assert (Hs : getSettlementById racedWorld 100 <> None) by discriminate.
  split; [exact Hs|]. split.
  - apply (proj2 (proj2 (supplementary_deposit_failures racedWorld 100 "210") Hs)).
    + exists 101, (detailT1 false). split; [left; reflexivity | reflexivity].
    + intros p id r [<-|[]] [H|[]] _. injection H as _ <-. discriminate.
  - apply (proj1 (proj2 (supplementary_deposit_failures
                           (set_txnDetails [(101, detailT1 true)] racedWorld) 100 "210") Hs)).
    intros id r [H|[]]. injection H as _ <-. reflexivity.
Defined.

(** A settlement that does not exist is reported as such. *)
Lemma supplementary_deposit_unknown_settlement :
  createSupplementaryDeposit racedWorld 999 "210" = (Failure "Settlement not found", racedWorld).
Proof. reflexivity. Qed.

(** Two configurations share [ops@x.com]: exactly one email is sent, and
    its body has the per-configuration section. *)
Lemma shared_address_gets_one_email :
  let out := Scheduled.execute Scheduled.InstallDocLib plainHost quietEnv sharedWorld in
  map em_recipient (w_outbox (fst out)) = ["ops@x.com"]
  /\ List.length (Scheduled.pr_configResults (snd out)) = 2
  /\ Forall (fun e => Js.includes Scheduled.BREAKDOWN_TITLE (em_body e) = true)
            (w_outbox (fst out)).
Proof. vm_compute. repeat constructor. Qed.

(** With a single configuration the section is absent. *)
Lemma single_configuration_has_no_breakdown :
  let out := Scheduled.execute Scheduled.InstallDocLib plainHost scenarioEnv scenarioWorld in
  List.length (Scheduled.pr_configResults (snd out)) = 1
  /\ Forall (fun e => Js.includes Scheduled.BREAKDOWN_TITLE (em_body e) = false)
            (w_outbox (fst out)).
Proof. vm_compute. repeat constructor. Qed.

(** The fallback at work.  Of two payments with the auth code, the second
    is within the tolerance of 100.00 and is taken; with both amounts off,
    nothing is returned; a single payment is taken whatever its amount; the
    copy under FileCabinet finds nothing at all. *)
Lemma fallback_examples :
  option_map ns_internalId
    (fst (InstallDoc.locate (ledgerWorld [byAuth "7001" 55.00; byAuth "7002" 100.00]) T9))
  = Some "7002"
  /\ fst (InstallDoc.locate (ledgerWorld [byAuth "7001" 55.00; byAuth "7002" 60.00]) T9) = None
  /\ option_map ns_internalId
       (fst (InstallDoc.locate (ledgerWorld [byAuth "7001" 55.00]) T9)) = Some "7001"
  /\ fst (FileCabinet.locate (ledgerWorld [byAuth "7001" 55.00]) T9) = None.
Proof. vm_compute. repeat split. Qed.

(** ** The dashboard and the edges of a run *)

Lemma scenarioWorld_is_fresh : freshIds scenarioWorld /\ noDetailsOf 100 scenarioWorld.
Proof. split; intros id r []. Defined.

(** The scenario on the details page: [T1] and [T2] are listed under the
    ids 100 and 101, [T2] as unmatched and without a stored reason, [T1] as
    matched to the payment 5001 and not yet in a deposit. *)
Lemma details_page_witness :
  let w' := fst (Scheduled.matchTransactions Scheduled.InstallDocLib plainHost
                   scenarioWorld [T1; T2] 100) in
  freshIds scenarioWorld /\ noDetailsOf 100 scenarioWorld
  /\ map (fun r => td_transactionId (snd r)) (getAllTransactionsForSettlement w' 100)
     = [Some "T1"; Some "T2"]
  /\ map fst (getAllTransactionsForSettlement w' 100) = [100; 101]
  /\ map (fun u => (ut_transactionId u, ut_error u)) (getUnmatchedTransactions w' 100)
     = [(Some "T2", None)]
  /\ map (fun p => (pt_txnDetailId p, pt_nsTransactionId p))
         (getMatchedNotDepositedTransactions w' 100)
     = [(100, Some "5001")].
Proof.
  cbv zeta. split; [exact (proj1 scenarioWorld_is_fresh)|].
  split; [exact (proj2 scenarioWorld_is_fresh)|].
  exact (details_page_lists_what_the_engine_reported
           Scheduled.InstallDocLib plainHost scenarioWorld [T1; T2] 100
           (proj1 scenarioWorld_is_fresh) (proj2 scenarioWorld_is_fresh)).
Defined.

Lemma recount_witness :
  let w' := fst (Scheduled.matchTransactions Scheduled.InstallDocLib plainHost
                   scenarioWorld [T1; T2] 100) in
  freshIds scenarioWorld /\ noDetailsOf 100 scenarioWorld
  /\ mc_matched (countMatches w' 100) = 1 /\ mc_unmatched (countMatches w' 100) = 1.
Proof.
  cbv zeta. split; [exact (proj1 scenarioWorld_is_fresh)|].
  split; [exact (proj2 scenarioWorld_is_fresh)|].
  exact (recount_agrees_with_the_engine
           Scheduled.InstallDocLib plainHost scenarioWorld [T1; T2] 100
           (proj1 scenarioWorld_is_fresh) (proj2 scenarioWorld_is_fresh)).
Defined.

(** On the dashboard: the unmatched line [T1] is matched by hand to the
    payment 5001. *)
Lemma manual_match_witness :
  let out := Suitelet.manualMatchTransaction Scheduled.FileCabinetLib plainHost
               openWorld 101 (Some "5001") in
  out = (MatchSucceeded, snd out)
  /\ exists d e,
       loadRow 101 (w_txnDetails openWorld) = Some d
       /\ finderOf Scheduled.FileCabinetLib openWorld (Some "5001") = Some e
       /\ ns_undepositedFunds e <> Js.Str "F"
       /\ PrimFloat.ltb MISC.AMOUNT_TOLERANCE
            (PrimFloat.abs (PrimFloat.sub (ns_amount e) (td_amount d))) = false
       /\ loadRow 101 (w_txnDetails (snd out)) = Some (td_withManualMatch (Some "5001") d).
Proof.
  cbv zeta. split; [reflexivity|].
  apply (manual_match_obeys_the_validator Scheduled.FileCabinetLib plainHost
           openWorld 101 (Some "5001")).
  reflexivity.
Defined.

(** An id that is no payment's: the match fails and nothing is written. *)
Lemma manual_match_failure_witness :
  let out := Suitelet.manualMatchTransaction Scheduled.FileCabinetLib plainHost
               openWorld 101 (Some "6001") in
  out = (MatchFailed (Some "NetSuite transaction not found: 6001"), snd out)
  /\ snd out = openWorld.
Proof.
  cbv zeta. split; [reflexivity|].
  apply (manual_match_failure_changes_nothing Scheduled.FileCabinetLib plainHost
           openWorld 101 (Some "6001") (Some "NetSuite transaction not found: 6001")).
  - reflexivity.
  - intros d H. injection H as <-. discriminate.
Defined.

Lemma manual_match_recount_witness :
  let out := Suitelet.manualMatchTransaction Scheduled.FileCabinetLib plainHost
               openWorld 101 (Some "5001") in
  out = (MatchSucceeded, snd out)
  /\ exists d s,
       loadRow 101 (w_txnDetails openWorld) = Some d
       /\ getSettlementById (snd out) (td_parentSettlement d) = Some s
       /\ sr_unmatchedCount s
          = Some (List.length (getUnmatchedTransactions (snd out) (td_parentSettlement d)))
       /\ (exists m u, sr_matchedCount s = Some m /\ sr_unmatchedCount s = Some u
                       /\ m + u = List.length (getAllTransactionsForSettlement
                                                 (snd out) (td_parentSettlement d)))
       /\ (sr_errorMessage s = Some "" <->
           getUnmatchedTransactions (snd out) (td_parentSettlement d) = []).
Proof.
  cbv zeta. split; [reflexivity|].
  apply (manual_match_recounts_the_settlement Scheduled.FileCabinetLib plainHost
           openWorld 101 (Some "5001")).
  reflexivity.
Defined.



(** An account without configurations: the run ends at once. *)
Lemma no_active_configuration_witness :
  (forall id r, In (id, r) (w_configs (ledgerWorld [])) -> cr_isActive r = false)
  /\ Scheduled.execute Scheduled.InstallDocLib plainHost scenarioEnv (ledgerWorld [])
     = (set_clock 1 (ledgerWorld []),
        Scheduled.pushError "Fatal error: Windcave configuration record not found"
          (Scheduled.initialResults (Scheduled.now scenarioEnv 0))).
Proof.
  assert (H : forall id r, In (id, r) (w_configs (ledgerWorld [])) -> cr_isActive r = false)
    by (intros id r []).
  split; [exact H|].
  exact (no_active_configuration_fails_silently Scheduled.InstallDocLib plainHost
           scenarioEnv (ledgerWorld []) H).
Defined.

(** The scenario with the governance meter nearly used up: [S1] is not
    fetched. *)
Lemma low_governance_witness :
  (exists id r, In (id, r) (w_configs scenarioWorld) /\ cr_isActive r = true)
  /\ (Scheduled.remainingUsage tiredEnv 1 < 1000)%Z
  /\ Scheduled.execute Scheduled.InstallDocLib plainHost tiredEnv scenarioWorld
     = (set_clock 3 scenarioWorld,
        Scheduled.finished (Scheduled.now tiredEnv 2)
          (Scheduled.pushError Scheduled.LOW_GOVERNANCE
             (Scheduled.initialResults (Scheduled.now tiredEnv 0)))).
Proof.
  assert (H : exists id r, In (id, r) (w_configs scenarioWorld) /\ cr_isActive r = true)
    by (exists 1, (opsConfig "M-1"); split; [left; reflexivity | reflexivity]).
  assert (L : (Scheduled.remainingUsage tiredEnv 1 < 1000)%Z) by (cbn; lia).
  split; [exact H|]. split; [exact L|].
  exact (low_governance_at_the_start_stops_the_run Scheduled.InstallDocLib plainHost
           tiredEnv scenarioWorld H L).
Defined.

Lemma dashboardEnv_answers : fetchAnswersWhatIsAsked dashboardEnv.
Proof. intros n cfg settlementId d H. injection H as <-. reflexivity. Defined.

(** A scheduled run, a manual fetch of the same dates, and another run:
    [S1] is still recorded once. *)
Lemma runs_and_fetches_witness :
  let ops := [ScheduledRun scenarioEnv;
              ManualFetch dashboardEnv (Some "1/1/2024") (Some "5/1/2024") (Some "all");
              ScheduledRun scenarioEnv] in
  Forall wellAnswered ops
  /\ (forall settlementId, recordsFor settlementId scenarioWorld <= 1)
  /\ forall settlementId,
       recordsFor settlementId
         (fold_left (perform Scheduled.InstallDocLib plainHost) ops scenarioWorld) <= 1.
Proof.
  cbv zeta.
  assert (Hf : Forall wellAnswered
                 [ScheduledRun scenarioEnv;
                  ManualFetch dashboardEnv (Some "1/1/2024") (Some "5/1/2024") (Some "all");
                  ScheduledRun scenarioEnv]).
  { repeat constructor; [exact scenarioEnv_answers | exact dashboardEnv_answers
                         | exact scenarioEnv_answers]. }
  assert (Hw : forall settlementId, recordsFor settlementId scenarioWorld <= 1)
    by (intros settlementId; apply Nat.le_0_l).
  split; [exact Hf|]. split; [exact Hw|].
  exact (at_most_once_through_runs_and_manual_fetches Scheduled.InstallDocLib plainHost
           _ scenarioWorld Hf Hw).
Defined.

(** A configuration with an empty merchant id and no customer id: the call
    throws and the network is not touched. *)
Lemma needs_an_id_witness :
  Js.truthy (WindcaveApi.gs_customerId anonymousOptions) = false
  /\ Js.truthy (WindcaveApi.gs_merchantId anonymousOptions) = false
  /\ WindcaveApi.getSettlements string Some (fun s => s)
       (fun _ _ _ => WindcaveApi.Responded 200 "{}") (fun _ => false)
       anonymousOptions WindcaveApi.startNet
     = (Js.Throw (Js.newError "Either merchantId or customerId must be provided"),
        WindcaveApi.startNet).
Proof.
  split; [reflexivity|]. split; [reflexivity|].
  exact (getSettlements_needs_an_id string Some (fun s => s)
           (fun _ _ _ => WindcaveApi.Responded 200 "{}") (fun _ => false)
           anonymousOptions WindcaveApi.startNet eq_refl eq_refl).
Defined.

(** The configuration 2 has been switched off: it is not among the
    configurations of a run, but a manual fetch for it is carried out. *)
Lemma inactive_configuration_witness :
  NoDup (map fst (w_configs retiredWorld))
  /\ In (2, retiredConfig) (w_configs retiredWorld)
  /\ cr_isActive retiredConfig = false
  /\ loadConfigurationById retiredWorld "2" = Js.Return (toConfig (2, retiredConfig))
  /\ (forall configs, loadAllConfigurations retiredWorld = Js.Return configs ->
                      ~ In 2 (map cfg_internalId configs))
  /\ Suitelet.fr_configurationsProcessed
       (match fst (Suitelet.performManualFetch Scheduled.InstallDocLib plainHost dashboardEnv
                     retiredWorld (Some "1/1/2024") (Some "5/1/2024") (Some "2")) with
        | Js.Return results => results
        | Js.Throw _ => Suitelet.noResults
        end) = 1.
Proof.
  assert (Hn : NoDup (map fst (w_configs retiredWorld))).
  { cbn. repeat constructor; cbn; intuition discriminate. }
  assert (Hi : In (2, retiredConfig) (w_configs retiredWorld)) by (right; left; reflexivity).
  destruct (an_inactive_configuration_is_fetched_only_by_hand retiredWorld 2 retiredConfig
              Hn Hi eq_refl) as [A [B C]].
  split; [exact Hn|]. split; [exact Hi|]. split; [reflexivity|].
  split; [exact B|]. split; [exact A|].
  change "2" with (Js.natToString 2).
  rewrite (C Scheduled.InstallDocLib plainHost dashboardEnv (Some "1/1/2024") (Some "5/1/2024")
             _ _ eq_refl eq_refl).
  reflexivity.
Defined.

(** The API refuses the first of two configurations: both have their
    result in the summary. *)
Lemma every_configuration_witness :
  loadAllConfigurations sharedWorld
  = Js.Return [toConfig (1, opsConfig "M-1"); toConfig (2, opsConfig "M-2")]
  /\ exists rest,
       [1; 2] = map Scheduled.cres_configId
                    (Scheduled.pr_configResults
                       (snd (Scheduled.execute Scheduled.InstallDocLib plainHost
                               refusingEnv sharedWorld))) ++ rest
       /\ ((forall n, (1000 <= Scheduled.remainingUsage refusingEnv n)%Z) -> rest = []).
Proof.
  split; [reflexivity|].
  exact (every_configuration_gets_its_turn Scheduled.InstallDocLib plainHost refusingEnv
           sharedWorld _ eq_refl).
Defined.

(** The refused configuration is reported with its error, the other as
    processed. *)
Lemma refused_configuration_example :
  let r := snd (Scheduled.execute Scheduled.InstallDocLib plainHost refusingEnv sharedWorld) in
  map (fun c => (Scheduled.cres_configId c, List.length (Scheduled.cres_errors c)))
      (Scheduled.pr_configResults r) = [(1, 1); (2, 0)]
  /\ Scheduled.pr_configurationsProcessed r = 1.
Proof. vm_compute. split; reflexivity. Qed.


(** 5 January 2024 is sent as [2024-01-05]. *)
Lemma api_dates_witness :
  calendarDate {| WindcaveApi.getFullYear := 2024; WindcaveApi.getMonth := 0;
                  WindcaveApi.getDate := 5 |}
  /\ WindcaveApi.formatDateForApi
       {| WindcaveApi.getFullYear := 2024; WindcaveApi.getMonth := 0;
          WindcaveApi.getDate := 5 |} = "2024-01-05"
  /\ String.length (WindcaveApi.formatDateForApi
                      {| WindcaveApi.getFullYear := 2024; WindcaveApi.getMonth := 0;
                         WindcaveApi.getDate := 5 |}) = 10.
Proof.
  assert (H : calendarDate {| WindcaveApi.getFullYear := 2024; WindcaveApi.getMonth := 0;
                              WindcaveApi.getDate := 5 |})
    by (unfold calendarDate; cbn; lia).
  split; [exact H|]. split; [reflexivity|].
  exact (proj1 (api_dates_are_ten_characters _ H)).
Defined.
